(** * Omnitide AI Suite: environment-adaptive configuration and model loading

    A shallow embedding of the Python sources
    [src/intelligent_config.py], [src/data_processor.py], [main.py],
    [main_simple.py] and [main_intelligent.py], and the properties of the
    design note that are checked against them.

    Python code that may raise is embedded in a state-and-exception monad:
    a computation maps a state to an outcome (a value or a raised
    exception) and a new state.  Mutations made before an exception is
    raised stay in the state, as they do in Python.

    What the code asks of its host (child processes, imports, sockets, the
    file system, deserialized artifacts) is a record of oracles, one per
    kind of question.  Logging and the Prometheus counters are left out:
    no result depends on them. *)

From Stdlib Require Import ZArith String Ascii List Bool Lia Sorted.
From stdpp Require Import base option list gmap strings pretty.

Set Warnings "-register-all".

Local Open Scope Z_scope.
Local Open Scope string_scope.

(** ** Python exceptions *)

Module Py.

(** The exception classes the sources name or can meet, with the part of
    the built-in hierarchy that decides which [except] clause matches.
    All of them derive from [Exception]; [KeyboardInterrupt] and
    [SystemExit], which do not, are outside the model. *)
Inductive exn_class :=
  | Exception
  | ImportError | ModuleNotFoundError
  | OSError | FileNotFoundError | FileExistsError | PermissionError
  | SubprocessError | CalledProcessError | TimeoutExpired
  | ArithmeticError | OverflowError
  | LookupError | IndexError | KeyError
  | TypeError | ValueError | AttributeError | RuntimeError.

#[global] Instance exn_class_eq_dec : EqDecision exn_class.
Proof. solve_decision. Defined.

(** Method resolution order of a class: the class and its ancestors. *)
Definition mro (c : exn_class) : list exn_class :=
  match c with
  | Exception => [Exception]
  | ImportError => [ImportError; Exception]
  | ModuleNotFoundError => [ModuleNotFoundError; ImportError; Exception]
  | OSError => [OSError; Exception]
  | FileNotFoundError => [FileNotFoundError; OSError; Exception]
  | FileExistsError => [FileExistsError; OSError; Exception]
  | PermissionError => [PermissionError; OSError; Exception]
  | SubprocessError => [SubprocessError; Exception]
  | CalledProcessError => [CalledProcessError; SubprocessError; Exception]
  | TimeoutExpired => [TimeoutExpired; SubprocessError; Exception]
  | ArithmeticError => [ArithmeticError; Exception]
  | OverflowError => [OverflowError; ArithmeticError; Exception]
  | LookupError => [LookupError; Exception]
  | IndexError => [IndexError; LookupError; Exception]
  | KeyError => [KeyError; LookupError; Exception]
  | TypeError => [TypeError; Exception]
  | ValueError => [ValueError; Exception]
  | AttributeError => [AttributeError; Exception]
  | RuntimeError => [RuntimeError; Exception]
  end.

Definition issubclass (c d : exn_class) : bool := bool_decide (d ∈ mro c).

(** An exception instance: its class and the text [str(e)] gives. *)
Record exn := Exn { exn_cls : exn_class; exn_str : string }.

(** [except (c1, ..., cn)] matches an instance of a subclass of some [ci]. *)
Definition caught (e : exn) (classes : list exn_class) : bool :=
  existsb (issubclass (exn_cls e)) classes.
Arguments caught : simpl never.

Inductive result (A : Type) :=
  | Ok (a : A)
  | Raise (e : exn).
Arguments Ok {A} a.
Arguments Raise {A} e.

Definition is_ok {A} (r : result A) : bool :=
  match r with Ok _ => true | Raise _ => false end.

(** ** The state-and-exception monad *)

Definition M (St A : Type) : Type := St -> result A * St.

Definition ret {St A} (a : A) : M St A := fun s => (Ok a, s).

Definition raise {St A} (e : exn) : M St A := fun s => (Raise e, s).

Definition bind {St A B} (c : M St A) (k : A -> M St B) : M St B :=
  fun s => match c s with
           | (Ok a, s') => k a s'
           | (Raise e, s') => (Raise e, s')
           end.

(** [try: body except classes as e: handler e]. *)
Definition try_except {St A} (body : M St A) (classes : list exn_class)
    (handler : exn -> M St A) : M St A :=
  fun s => match body s with
           | (Ok a, s') => (Ok a, s')
           | (Raise e, s') =>
               if caught e classes then handler e s' else (Raise e, s')
           end.

Definition get {St} : M St St := fun s => (Ok s, s).
Definition modify {St} (f : St -> St) : M St unit := fun s => (Ok tt, f s).
Definition lift {St A} (r : result A) : M St A := fun s => (r, s).

(** [l.append(x)] *)
Definition append {A} (l : list A) (x : A) : list A := (l ++ [x])%list.

(** A [for] loop that threads an accumulator. *)
Fixpoint for_each {St A B} (l : list A) (acc : B) (body : A -> B -> M St B)
    : M St B :=
  match l with
  | [] => ret acc
  | x :: l' => bind (body x acc) (fun acc' => for_each l' acc' body)
  end.

Declare Scope py_scope.
Delimit Scope py_scope with py.
Notation "x <- c ;; k" := (bind c (fun x => k))
  (at level 100, c at next level, right associativity) : py_scope.
Notation "c ;;; k" := (bind c (fun _ => k))
  (at level 100, right associativity) : py_scope.

(** ** Python values (the JSON-like trees the configuration is made of) *)

(** A [float] literal of the sources is kept as its decimal text:
    [VFloat m e] stands for [m * 10^e]. Dictionaries keep insertion order. *)
Inductive PyVal :=
  | VNone
  | VBool (b : bool)
  | VInt (z : Z)
  | VFloat (m e : Z)
  | VStr (s : string)
  | VList (l : list PyVal)
  | VDict (d : list (string * PyVal)).

Definition dict := list (string * PyVal).

Fixpoint dict_get (k : string) (d : dict) : option PyVal :=
  match d with
  | [] => None
  | (k', v) :: d' => if String.eqb k k' then Some v else dict_get k d'
  end.

(** [d[k] = v]: replaces the value of an existing key in place, else
    appends the key. *)
Fixpoint dict_set (k : string) (v : PyVal) (d : dict) : dict :=
  match d with
  | [] => [(k, v)]
  | (k', v') :: d' =>
      if String.eqb k k' then (k, v) :: d' else (k', v') :: dict_set k v d'
  end.

(** Truth value of an object, as [if x:] tests it. *)
Definition truthy (v : PyVal) : bool :=
  match v with
  | VNone => false
  | VBool b => b
  | VInt z => negb (z =? 0)%Z
  | VFloat m _ => negb (m =? 0)%Z
  | VStr s => negb (String.eqb s "")
  | VList l => negb (bool_decide (l = []))
  | VDict d => negb (bool_decide (d = []))
  end.

(** ** Strings *)

(** Characters are code points below 256. [str.isspace] holds of
    TAB..CR, FS..US, SPACE, NEL and NBSP in that range. *)
Definition isspace (c : ascii) : bool :=
  let n := nat_of_ascii c in
  ((9 <=? n) && (n <=? 13) || (28 <=? n) && (n <=? 32)
   || (n =? 133) || (n =? 160))%nat.

Fixpoint lstrip (s : string) : string :=
  match s with
  | String c s' => if isspace c then lstrip s' else s
  | EmptyString => EmptyString
  end.

Fixpoint rstrip (s : string) : string :=
  match s with
  | String c s' =>
      match rstrip s' with
      | EmptyString => if isspace c then EmptyString else String c EmptyString
      | t => String c t
      end
  | EmptyString => EmptyString
  end.

(** [s.strip()] *)
Definition strip (s : string) : string := rstrip (lstrip s).

(** [s.split(sep)] for a one-character separator: never empty. *)
Fixpoint split_on (sep : ascii) (s : string) : list string :=
  match s with
  | EmptyString => [EmptyString]
  | String c s' =>
      if Ascii.eqb c sep then EmptyString :: split_on sep s'
      else match split_on sep s' with
           | w :: ws => String c w :: ws
           | [] => [String c EmptyString]
           end
  end.

(** [s.split()]: the maximal runs of non-space characters. *)
Fixpoint split_ws_aux (cur : string) (s : string) : list string :=
  match s with
  | EmptyString => if String.eqb cur "" then [] else [cur]
  | String c s' =>
      if isspace c
      then (if String.eqb cur "" then split_ws_aux "" s'
            else cur :: split_ws_aux "" s')
      else split_ws_aux (cur ++ String c EmptyString) s'
  end.

Definition split_ws (s : string) : list string := split_ws_aux "" s.

(** [sep.join(l)] *)
Fixpoint join (sep : string) (l : list string) : string :=
  match l with
  | [] => ""
  | [x] => x
  | x :: l' => x ++ sep ++ join sep l'
  end.

Definition newline : ascii := ascii_of_nat 10.
Definition nl : string := String newline EmptyString.

(** [str(n)] for an integer. *)
Definition str_of_Z (z : Z) : string := pretty z.

End Py.

(** ** [src/intelligent_config.py] *)

Module IntelligentConfig.
Import Py.
Local Open Scope py_scope.

(** What [subprocess.run] returns. *)
Record CompletedProcess := { returncode : Z; stdout : string }.

(** The module-level name [torch] after the guarded import: [None], a
    module without a [cuda] attribute, or a module with one. *)
Inductive torch_module := TorchMissing | TorchWithoutCuda | TorchWithCuda.

(** The host, as the probes see it.  Every answer may depend on the moment
    of the call (the first argument, the number of host calls made so
    far): packages get installed, ports get taken, tools time out. *)
Record Env := {
  (** [importlib.import_module name] / [import name]: [None] when the
      import succeeds, else the exception it raises *)
  import_module : nat -> string -> option exn;
  (** starting a child process with the given arguments and timeout and
      waiting for it *)
  spawn : nat -> list string -> option Z -> result CompletedProcess;
  (** whether [socket.socket(...)] gives a socket ([false]: [OSError]) *)
  sockets_available : nat -> bool;
  (** for a port in 0..65535: whether the socket can be bound to it on
      localhost ([false]: [OSError]) *)
  bindable : nat -> Z -> bool;
  torch : torch_module;
  cuda_is_available : nat -> result bool;
  version_info : Z * Z * Z;
  platform : string;
  cwd : nat -> result string;
  environ : nat -> string -> option string;
  (** creating a directory: [None] when it exists afterwards *)
  mkdir_error : nat -> string -> option exn;
  (** opening a file for writing: [None] when it can be written *)
  open_error : nat -> string -> option exn;
  executable : string;
  (** the cells pandas writes for the randomly drawn sample rows *)
  sample_rows : list (list string)
}.

(** The [IntelligentConfig] instance together with the part of the file
    system it creates and looks at, and the count of host calls. *)
Record State := {
  clock : nat;
  base_path : string;
  available_modules : gmap string bool;
  fs_dirs : gset string;
  fs_files : gmap string string
}.

Definition set_clock (n : nat) (s : State) : State :=
  {| clock := n; base_path := base_path s;
     available_modules := available_modules s;
     fs_dirs := fs_dirs s; fs_files := fs_files s |}.

Definition set_available (m : string) (b : bool) (s : State) : State :=
  {| clock := clock s; base_path := base_path s;
     available_modules := <[m := b]> (available_modules s);
     fs_dirs := fs_dirs s; fs_files := fs_files s |}.

Definition add_dirs (ps : list string) (s : State) : State :=
  {| clock := clock s; base_path := base_path s;
     available_modules := available_modules s;
     fs_dirs := list_to_set ps ∪ fs_dirs s; fs_files := fs_files s |}.

Definition put_file (p content : string) (s : State) : State :=
  {| clock := clock s; base_path := base_path s;
     available_modules := available_modules s;
     fs_dirs := fs_dirs s; fs_files := <[p := content]> (fs_files s) |}.

(** A socket can be had and bound to port [q] at moment [t]. *)
Definition can_bind (env : Env) (t : nat) (q : Z) : bool :=
  sockets_available env t && bindable env t q.

Section WithEnv.
Variable env : Env.

Abbreviation Cmd := (M State).

(** One call to the host: reads the clock and advances it. *)
Definition tick : Cmd nat :=
  fun s => (Ok (clock s), set_clock (S (clock s)) s).

Definition host {A} (f : nat -> result A) : Cmd A :=
  t <- tick ;; lift (f t).

Definition host_may_fail (f : nat -> option exn) : Cmd unit :=
  t <- tick ;;
  match f t with
  | Some e => raise e
  | None => ret tt
  end.

(** [import name] *)
Definition py_import (name : string) : Cmd unit :=
  host_may_fail (fun t => import_module env t name).

(** [self.base_path] *)
Definition self_base_path : Cmd string := fun s => (Ok (base_path s), s).

Definition repr_str (s : string) : string := "'" ++ s ++ "'".
Definition repr_list (l : list string) : string :=
  "[" ++ join ", " (map repr_str l) ++ "]".

Definition called_process_error (args : list string) (rc : Z) : exn :=
  Exn CalledProcessError
      ("Command '" ++ repr_list args ++ "' returned non-zero exit status "
       ++ str_of_Z rc ++ ".").

(** [subprocess.run(args, capture_output=True, check=check,
    timeout=timeout)] *)
Definition subprocess_run (args : list string) (check : bool)
    (timeout : option Z) : Cmd CompletedProcess :=
  cp <- host (fun t => spawn env t args timeout) ;;
  if check && negb (returncode cp =? 0)%Z
  then raise (called_process_error args (returncode cp))
  else ret cp.

Definition subprocess_errors : list exn_class :=
  [CalledProcessError; FileNotFoundError; TimeoutExpired].

(** [Path.exists] *)
Definition path_exists (p : string) : Cmd bool :=
  s <- get ;;
  ret (bool_decide (p ∈ fs_dirs s)
       || bool_decide (is_Some (fs_files s !! p))).

(** [base / name] *)
Definition path_join (base name : string) : string := base ++ "/" ++ name.

(** [Path(p).mkdir(exist_ok=True)] *)
Definition mkdir (p : string) : Cmd unit :=
  host_may_fail (fun t => mkdir_error env t p) ;;;
  modify (add_dirs [p]).

(** The directories [base / rel] and its ancestors below [base]. *)
Fixpoint below (base : string) (parts : list string) : list string :=
  match parts with
  | [] => []
  | d :: parts' => path_join base d :: below (path_join base d) parts'
  end.

(** [(base / rel).mkdir(parents=True, exist_ok=True)] *)
Definition mkdir_parents (base rel : string) : Cmd unit :=
  host_may_fail (fun t => mkdir_error env t (path_join base rel)) ;;;
  modify (add_dirs (below base (split_on "/"%char rel))).

(** [with open(p, "w") as f: f.write(content)] *)
Definition write_file (p content : string) : Cmd unit :=
  host_may_fail (fun t => open_error env t p) ;;;
  modify (put_file p content).

(** [check_module_availability] *)
Definition check_module_availability (module_name : string) : Cmd bool :=
  s <- get ;;
  match available_modules s !! module_name with
  | Some b => ret b
  | None =>
      try_except
        (py_import module_name ;;;
         modify (set_available module_name true) ;;;
         ret true)
        [ImportError]
        (fun _ => modify (set_available module_name false) ;;; ret false)
  end.

(** [check_command_availability] *)
Definition check_command_availability (command : string) : Cmd bool :=
  try_except
    (subprocess_run [command; "--version"] true (Some 5%Z) ;;; ret true)
    subprocess_errors
    (fun _ => ret false).

(** the module-level [check_torch_cuda] *)
Definition check_torch_cuda : Cmd bool :=
  match torch env with
  | TorchMissing => ret false
  | TorchWithoutCuda => ret false
  | TorchWithCuda => host (cuda_is_available env)
  end.

(** [detect_gpu_availability]: [Some b] inside stands for [return b] in a
    [try] body, [None] for falling out of the [try] statement. *)
Definition detect_gpu_availability : Cmd bool :=
  r <- try_except
         (subprocess_run ["nvidia-smi"] true (Some 5%Z) ;;; ret (Some true))
         subprocess_errors
         (fun _ => ret None) ;;
  match r with
  | Some b => ret b
  | None =>
      r' <- try_except (b <- check_torch_cuda ;; ret (Some b))
              [ImportError] (fun _ => ret None) ;;
      match r' with
      | Some b => ret b
      | None => ret false
      end
  end.

(** [range(a, b)] *)
Definition range (a b : Z) : list Z :=
  map (fun i => (a + Z.of_nat i)%Z) (seq 0 (Z.to_nat (b - a))).

(** [with socket.socket(...) as s: s.bind(('localhost', port))].  CPython
    rejects a port outside 0..65535 with [OverflowError] before it asks
    the system; every failure of the system is an [OSError]. *)
Definition socket_bind (port : Z) : Cmd unit :=
  t <- tick ;;
  if negb (sockets_available env t)
  then raise (Exn OSError "[Errno 24] Too many open files")
  else if (port <? 0)%Z || (65535 <? port)%Z
  then raise (Exn OverflowError "bind(): port must be 0-65535.")
  else if bindable env t port then ret tt
  else raise (Exn OSError "[Errno 98] Address already in use").

(** [get_available_ports] *)
Definition get_available_ports (start_port num_ports : Z) : Cmd (list Z) :=
  available_ports <-
    for_each (range start_port (start_port + num_ports)) []
      (fun port available_ports =>
         try_except
           (socket_bind port ;;; ret (append available_ports port))
           [OSError]
           (fun _ => ret available_ports)) ;;
  ret (if bool_decide (available_ports = []) then [start_port]
       else available_ports).

Definition tools : list string := ["git"; "docker"; "ollama"; "dvc"].
Definition packages : list string :=
  ["fastapi"; "pandas"; "sklearn"; "torch"; "tensorflow"].

(** [detect_environment] *)
Definition detect_environment : Cmd dict :=
  let '(major, minor, micro) := version_info env in
  working_directory <- host (cwd env) ;;
  has_gpu <- detect_gpu_availability ;;
  available_ports <- get_available_ports 8000 10 ;;
  environment <- host (fun t => Ok (default "development"
                                      (environ env t "ENVIRONMENT"))) ;;
  let env_info : dict :=
    [ ("python_version",
        VStr (str_of_Z major ++ "." ++ str_of_Z minor ++ "."
              ++ str_of_Z micro));
      ("platform", VStr (platform env));
      ("working_directory", VStr working_directory);
      ("has_gpu", VBool has_gpu);
      ("available_ports", VList (map VInt available_ports));
      ("dev_mode", VBool (String.eqb environment "development")) ] in
  env_info <- for_each tools env_info
    (fun tool env_info =>
       b <- check_command_availability tool ;;
       ret (dict_set ("has_" ++ tool) (VBool b) env_info)) ;;
  env_info <- for_each packages env_info
    (fun package env_info =>
       b <- check_module_availability package ;;
       ret (dict_set ("has_" ++ package) (VBool b) env_info)) ;;
  ret env_info.

(** [get_dynamic_paths] *)
Definition get_dynamic_paths : Cmd dict :=
  base <- self_base_path ;;
  let paths : list (string * string) :=
    [ ("base", base);
      ("data_dir", path_join base "data");
      ("models_dir", path_join base "models");
      ("reports_dir", path_join base "reports");
      ("logs_dir", path_join base "logs");
      ("config_file", path_join base "config.yaml") ] in
  for_each paths tt
    (fun '(key, path) _ =>
       if negb (String.eqb key "config_file") && negb (String.eqb key "base")
       then mkdir path else ret tt) ;;;
  ret (map (fun '(key, path) => (key, VStr path)) paths).

(** [get_data_config] *)
Definition get_data_config : Cmd dict :=
  base <- self_base_path ;;
  let data_path := path_join base "data" in
  ret [ ("raw_data", VStr (path_join data_path "raw"));
        ("processed_data", VStr (path_join data_path "processed"));
        ("sample_size", VInt 1000);
        ("validation_split", VFloat 2 (-1));
        ("test_split", VFloat 1 (-1)) ].

(** [get_model_config] *)
Definition get_model_config : Cmd dict :=
  has_gpu <- detect_gpu_availability ;;
  base <- self_base_path ;;
  ret [ ("type", VStr "sklearn_ensemble");
        ("algorithm", VStr "RandomForestClassifier");
        ("parameters",
          VDict [ ("n_estimators", VInt 100);
                  ("random_state", VInt 42);
                  ("n_jobs", VInt (if negb has_gpu then (-1) else 1)) ]);
        ("use_gpu", VBool has_gpu);
        ("model_path",
          VStr (path_join (path_join base "models") "model.joblib")) ].

Definition fallback_models : list string :=
  ["phi3:mini"; "llama3.2:3b"; "llama3.1:8b"; "mistral:7b"].

(** The first part of [detect_available_ollama_model]: what the
    [ollama list] output selects, if anything. *)
Definition first_listed_model (cp : CompletedProcess) : option string :=
  if (returncode cp =? 0)%Z then
    let lines := split_on newline (strip (stdout cp)) in
    if (1 <? length lines)%nat then
      match split_ws (nth 1 lines "") with
      | first_model :: _ => Some first_model
      | [] => Some "phi3:mini"
      end
    else None
  else None.

(** The loop over [fallback_models]: [Some model] stands for
    [return model] from inside the loop. *)
Fixpoint probe_fallback_models (models : list string) : Cmd (option string) :=
  match models with
  | [] => ret None
  | model :: models' =>
      r <- try_except
             (result <- subprocess_run ["ollama"; "show"; model] false
                          (Some 3%Z) ;;
              ret (if (returncode result =? 0)%Z then Some model else None))
             subprocess_errors
             (fun _ => ret None) ;;
      match r with
      | Some m => ret (Some m)
      | None => probe_fallback_models models'
      end
  end.

(** [detect_available_ollama_model] *)
Definition detect_available_ollama_model : Cmd string :=
  r <- try_except
         (result <- subprocess_run ["ollama"; "list"] false (Some 5%Z) ;;
          ret (first_listed_model result))
         subprocess_errors
         (fun _ => ret None) ;;
  match r with
  | Some first_model => ret first_model
  | None =>
      r' <- probe_fallback_models fallback_models ;;
      match r' with
      | Some model => ret model
      | None => ret "phi3:mini"
      end
  end.

(** [get_llm_config] *)
Definition get_llm_config : Cmd dict :=
  has_ollama <- check_command_availability "ollama" ;;
  available_model <- (if has_ollama then detect_available_ollama_model
                      else ret "phi3:mini") ;;
  let config : dict :=
    [ ("enabled", VBool has_ollama);
      ("provider", VStr (if has_ollama then "ollama" else "none"));
      ("model", VStr available_model);
      ("api_base", VStr "http://localhost:11434");
      ("temperature", VFloat 7 (-1));
      ("max_tokens", VInt 2000) ] in
  ret (if negb has_ollama
       then dict_set "fallback_message"
              (VStr "LLM features disabled - Ollama not available") config
       else config).

(** [get_monitoring_config] *)
Definition get_monitoring_config : Cmd dict :=
  has_prometheus <- check_module_availability "prometheus_client" ;;
  ret [ ("metrics_enabled", VBool has_prometheus);
        ("metrics_port", VInt 9090);
        ("logging_level", VStr "INFO");
        ("health_check_interval", VInt 30) ].

(** [d.get(k, dflt)[0]] *)
Definition get_first (k : string) (dflt : PyVal) (d : dict) : Cmd PyVal :=
  match default dflt (dict_get k d) with
  | VList (x :: _) => ret x
  | VList [] => raise (Exn IndexError "list index out of range")
  | VStr s =>
      match s with
      | String c _ => ret (VStr (String c EmptyString))
      | EmptyString => raise (Exn IndexError "string index out of range")
      end
  | VDict _ => raise (Exn KeyError "0")
  | _ => raise (Exn TypeError "object is not subscriptable")
  end.

(** [get_dynamic_config] *)
Definition get_dynamic_config : Cmd dict :=
  env_info <- detect_environment ;;
  port <- get_first "available_ports" (VList [VInt 8000]) env_info ;;
  let reload := default (VBool true) (dict_get "dev_mode" env_info) in
  paths <- get_dynamic_paths ;;
  data <- get_data_config ;;
  models <- get_model_config ;;
  llm <- get_llm_config ;;
  monitoring <- get_monitoring_config ;;
  ret [ ("project",
          VDict [ ("name", VStr "omnitide-ai-suite");
                  ("version", VStr "1.0.0");
                  ("description", VStr "Dynamic MLOps & LLM Platform") ]);
        ("api",
          VDict [ ("host", VStr "0.0.0.0");
                  ("port", port);
                  ("reload", reload) ]);
        ("paths", VDict paths);
        ("data", VDict data);
        ("models", VDict models);
        ("llm", VDict llm);
        ("monitoring", VDict monitoring);
        ("environment", VDict env_info) ].

(** [DataFrame(data).to_csv(path, index=False)]: the header line, then
    one line per row. *)
Definition to_csv (columns : list string) (rows : list (list string))
    : string :=
  join "," columns ++ nl
  ++ String.concat "" (map (fun r => join "," r ++ nl) rows).

Definition data_csv (base : string) : string :=
  path_join (path_join base "data/raw") "data.csv".

(** [IntelligentConfig.create_sample_data] *)
Definition create_sample_data : Cmd unit :=
  try_except
    (py_import "pandas" ;;;
     py_import "numpy" ;;;
     let data_columns := ["feature_1"; "feature_2"; "feature_3"; "target"] in
     base <- self_base_path ;;
     mkdir_parents base "data/raw" ;;;
     write_file (data_csv base) (to_csv data_columns (sample_rows env)))
    [ImportError]
    (fun _ =>
       base <- self_base_path ;;
       mkdir_parents base "data/raw" ;;;
       write_file (data_csv base)
         ("feature_1,feature_2,feature_3,target" ++ nl
          ++ "0.1,0.2,0.3,1" ++ nl
          ++ "0.4,0.5,0.6,0" ++ nl
          ++ "0.7,0.8,0.9,1" ++ nl)).

Definition required_dirs : list string :=
  ["data/raw"; "data/processed"; "models"; "reports"; "logs"].
Definition critical_deps : list string :=
  ["fastapi"; "uvicorn"; "pandas"; "scikit-learn"].

(** [heal_project] *)
Definition heal_project : Cmd (list string) :=
  actions <- for_each required_dirs []
    (fun dir_path actions =>
       base <- self_base_path ;;
       present <- path_exists (path_join base dir_path) ;;
       if negb present
       then mkdir_parents base dir_path ;;;
            ret (append actions ("Created directory: " ++ dir_path))
       else ret actions) ;;
  missing_deps <- for_each critical_deps []
    (fun dep missing =>
       b <- check_module_availability dep ;;
       ret (if negb b then append missing dep else missing)) ;;
  actions <-
    (if negb (bool_decide (missing_deps = []))
     then try_except
            (subprocess_run
               ([executable env; "-m"; "pip"; "install"] ++ missing_deps)%list
               true None ;;;
             ret (append actions ("Installed missing dependencies: "
                                  ++ join ", " missing_deps)))
            [CalledProcessError]
            (fun e =>
               ret (append actions ("Failed to install dependencies: "
                                    ++ exn_str e)))
     else ret actions) ;;
  base <- self_base_path ;;
  present <- path_exists (data_csv base) ;;
  actions <-
    (if negb present
     then create_sample_data ;;;
          ret (append actions "Created sample data file")
     else ret actions) ;;
  try_except
    (get_dynamic_config ;;;
     ret (append actions "Configuration validated successfully"))
    [Exception]
    (fun e =>
       ret (append actions ("Configuration validation failed: "
                            ++ exn_str e))).

(** The strings of a list of values, if all of them are strings. *)
Fixpoint as_strings (l : list PyVal) : option (list string) :=
  match l with
  | [] => Some []
  | VStr s :: l' => option_map (cons s) (as_strings l')
  | _ :: _ => None
  end.

(** [[sys.executable, "-m", "pip", "install"] + missing_deps] passed to
    [subprocess.run], which wants a list of strings. *)
Definition pip_install (missing_deps : PyVal) : Cmd (list string) :=
  match missing_deps with
  | VList l =>
      match as_strings l with
      | Some deps =>
          subprocess_run
            ([executable env; "-m"; "pip"; "install"] ++ deps)%list
            true None ;;;
          ret deps
      | None =>
          raise (Exn TypeError "expected str, bytes or os.PathLike object")
      end
  | _ => raise (Exn TypeError "can only concatenate list to list")
  end.

Definition success (b : bool) (key : string) (v : PyVal) : dict :=
  [("success", VBool b); (key, v)].

(** [orchestrate_agent_task] *)
Definition orchestrate_agent_task (task_name : string)
    (params : option dict) : Cmd dict :=
  let params := default [] params in
  try_except
    (if String.eqb task_name "heal" then
       actions <- heal_project ;;
       ret (success true "result" (VList (map VStr actions)))
     else if String.eqb task_name "detect" then
       env_info <- detect_environment ;;
       ret (success true "result" (VDict env_info))
     else if String.eqb task_name "adapt" then
       config <- get_dynamic_config ;;
       ret (success true "result" (VDict config))
     else if String.eqb task_name "install_deps" then
       let missing_deps :=
         default (VList []) (dict_get "dependencies" params) in
       try_except
         (if truthy missing_deps then
            deps <- pip_install missing_deps ;;
            ret (success true "result"
                   (VStr ("Installed: " ++ join ", " deps)))
          else ret (success true "result" (VStr "No dependencies to install")))
         [CalledProcessError]
         (fun e =>
            ret (success false "error"
                   (VStr ("Installation failed: " ++ exn_str e))))
     else
       ret (success false "error" (VStr ("Unknown task: " ++ task_name))))
    [Exception]
    (fun e => ret (success false "error" (VStr (exn_str e)))).

End WithEnv.
End IntelligentConfig.

(** ** [src/data_processor.py] *)

Module DataProcessor.
Import Py.
Local Open Scope py_scope.

Section WithEnv.
Variable env : IntelligentConfig.Env.

(** [os.makedirs("data/raw", exist_ok=True)] *)
Definition makedirs_data_raw : M IntelligentConfig.State unit :=
  IntelligentConfig.host_may_fail
    (fun t => IntelligentConfig.mkdir_error env t "data/raw") ;;;
  modify (IntelligentConfig.add_dirs ["data"; "data/raw"]).

(** the module-level [create_sample_data] *)
Definition create_sample_data : M IntelligentConfig.State string :=
  let data_path := "data/raw/data.csv" in
  makedirs_data_raw ;;;
  IntelligentConfig.write_file env data_path
    ("feature1,feature2,feature3,target" ++ nl
     ++ "0.1,0.2,0.3,1" ++ nl
     ++ "0.4,0.5,0.6,0" ++ nl
     ++ "0.7,0.8,0.9,1" ++ nl) ;;;
  ret data_path.

End WithEnv.

(** [src/config.py]: [config['data']['expected_columns']], the columns
    [validate_data] insists on. *)
Definition expected_columns : list string :=
  ["feature1"; "feature2"; "feature3"; "target"].

End DataProcessor.

(** ** What the three applications share: requests, responses, estimators *)

Module Serving.
Import Py.

(** A number of a request body: a decimal, or the NaN pandas pads with. *)
Inductive pyfloat :=
  | Dec (m e : Z)
  | NaN.

(** [PredictionInput.data]: a list of rows. *)
Definition matrix := list (list pyfloat).

Record Response := { status_code : Z; body : PyVal }.

(** A handler that returns [content] answers 200. *)
Definition returns (content : dict) : Response :=
  {| status_code := 200; body := VDict content |}.

(** [raise HTTPException(status_code=code, detail=detail)] *)
Definition http_exception (code : Z) (detail : string) : Response :=
  {| status_code := code; body := VDict [("detail", VStr detail)] |}.

Definition is_2xx (r : Response) : bool :=
  (200 <=? status_code r)%Z && (status_code r <? 300)%Z.

(** The interface the handlers expect of a deserialized artifact:
    [obj.transform(X)] and [obj.predict(X).tolist()]. *)
Class Estimator (A : Type) := {
  transform : A -> matrix -> result matrix;
  predict : A -> matrix -> result (list PyVal)
}.

(** [pd.DataFrame(data)] of a list of rows: the same rows in the same
    order, the short ones padded with NaN to the longest. *)
Definition width (X : matrix) : nat :=
  foldr (fun r w => Nat.max (length r) w) 0%nat X.

Definition pad (w : nat) (r : list pyfloat) : list pyfloat :=
  (r ++ repeat NaN (w - length r))%list.

Definition DataFrame (data : matrix) : matrix := map (pad (width data)) data.

(** *** The fitted scikit-learn objects of the synthetic fallback *)

(** A [StandardScaler] after [fit]: the number of columns it saw and what
    it does to a row. *)
Record StandardScaler := {
  scaler_features : nat;
  scale : list pyfloat -> list pyfloat
}.

(** A [RandomForestClassifier] after [fit]; whether [predict] accepts NaN
    depends on the installed scikit-learn. *)
Record RandomForestClassifier := {
  forest_features : nat;
  forest_allows_nan : bool;
  classify : list pyfloat -> PyVal
}.

(** scikit-learn's input validation: a two-dimensional array with at
    least one row and as many columns as at [fit], else [ValueError]. *)
Definition check_array (n_features : nat) (X : matrix) : result unit :=
  match X with
  | [] => Raise (Exn ValueError "Found array with 0 sample(s)")
  | _ :: _ =>
      if forallb (fun r => Nat.eqb (length r) n_features) X then Ok tt
      else Raise (Exn ValueError
                    "X has a different number of features than at fit")
  end.

Definition has_nan (X : matrix) : bool :=
  existsb
    (existsb (fun x => match x with NaN => true | Dec _ _ => false end)) X.

(** [scaler.transform(np.array(X))] *)
Definition scaler_transform (sc : StandardScaler) (X : matrix)
    : result matrix :=
  match check_array (scaler_features sc) X with
  | Ok _ => Ok (map (scale sc) X)
  | Raise e => Raise e
  end.

(** [model.predict(np.array(X)).tolist()] *)
Definition forest_predict (rf : RandomForestClassifier) (X : matrix)
    : result (list PyVal) :=
  match check_array (forest_features rf) X with
  | Ok _ =>
      if has_nan X && negb (forest_allows_nan rf)
      then Raise (Exn ValueError "Input X contains NaN.")
      else Ok (map (classify rf) X)
  | Raise e => Raise e
  end.

End Serving.

(** ** [main_intelligent.py] *)

Module MainIntelligent.
Import Py Serving.
Local Open Scope py_scope.

(** Which strategy of the loader produced an object. *)
Inductive Provenance := RemoteVersioned | LocalDisk | SyntheticFallback.

Section WithArtifacts.
(** What [joblib.load] returns: some deserialized estimator object. *)
Context {A : Type} `{Estimator A}.

(** The objects [self.model] and [self.preprocessor] can hold.  Each of
    them is true where the routes test [not model_loader.model]. *)
Inductive PyObject :=
  | Unpickled (origin : Provenance) (a : A)
  | IntelligentFallbackModel (model : RandomForestClassifier)
  | IntelligentPreprocessor (scaler : StandardScaler).

Definition provenance (o : PyObject) : Provenance :=
  match o with
  | Unpickled origin _ => origin
  | IntelligentFallbackModel _ => SyntheticFallback
  | IntelligentPreprocessor _ => SyntheticFallback
  end.

(** The attributes of an [IntelligentModelLoader]. *)
Record Loader := {
  model : option PyObject;
  preprocessor : option PyObject;
  model_available : bool
}.

Definition set_model (o : PyObject) (l : Loader) : Loader :=
  {| model := Some o; preprocessor := preprocessor l;
     model_available := model_available l |}.
Definition set_preprocessor (o : PyObject) (l : Loader) : Loader :=
  {| model := model l; preprocessor := Some o;
     model_available := model_available l |}.
Definition set_model_available (b : bool) (l : Loader) : Loader :=
  {| model := model l; preprocessor := preprocessor l;
     model_available := b |}.

(** The module-level flags and [config], and the host as one run of the
    loader meets it. *)
Record Env := {
  JOBLIB_AVAILABLE : bool;
  PANDAS_AVAILABLE : bool;
  models_dir : string;
  model_filename : string;
  preprocessor_filename : string;
  (** [import name]: [None] when it succeeds *)
  import_error : string -> option exn;
  (** [with dvc.api.open(path, rev='HEAD') as f: joblib.load(f)] *)
  dvc_load : string -> result A;
  (** [Path(path).exists()] *)
  exists_on_disk : string -> bool;
  (** [joblib.load(path)] *)
  joblib_load : string -> result A;
  (** [IntelligentFallbackModel()]: the forest fitted on random rows *)
  fit_forest : result RandomForestClassifier;
  (** [IntelligentPreprocessor()]: the scaler fitted on random rows *)
  fit_scaler : result StandardScaler
}.

Variable env : Env.

Definition py_import (name : string) : M Loader unit :=
  match import_error env name with
  | Some e => raise e
  | None => ret tt
  end.

(** [_load_with_dvc] *)
Definition _load_with_dvc : M Loader unit :=
  if negb (JOBLIB_AVAILABLE env)
  then raise (Exn ImportError "joblib not available")
  else
    py_import "dvc.api" ;;;
    let model_path := models_dir env ++ "/" ++ model_filename env in
    let preprocessor_path :=
      models_dir env ++ "/" ++ preprocessor_filename env in
    m <- lift (dvc_load env model_path) ;;
    modify (set_model (Unpickled RemoteVersioned m)) ;;;
    p <- lift (dvc_load env preprocessor_path) ;;
    modify (set_preprocessor (Unpickled RemoteVersioned p)) ;;;
    modify (set_model_available true).

(** [_load_from_disk] *)
Definition _load_from_disk : M Loader unit :=
  if negb (JOBLIB_AVAILABLE env)
  then raise (Exn ImportError "joblib not available")
  else
    let model_path := models_dir env ++ "/" ++ model_filename env in
    let preprocessor_path :=
      models_dir env ++ "/" ++ preprocessor_filename env in
    if exists_on_disk env model_path && exists_on_disk env preprocessor_path
    then
      m <- lift (joblib_load env model_path) ;;
      modify (set_model (Unpickled LocalDisk m)) ;;;
      p <- lift (joblib_load env preprocessor_path) ;;
      modify (set_preprocessor (Unpickled LocalDisk p)) ;;;
      modify (set_model_available true)
    else raise (Exn FileNotFoundError "Model files not found on disk").

(** [_create_dummy_model] *)
Definition _create_dummy_model : M Loader unit :=
  py_import "sklearn.ensemble" ;;;
  py_import "sklearn.preprocessing" ;;;
  py_import "numpy" ;;;
  rf <- lift (fit_forest env) ;;
  modify (set_model (IntelligentFallbackModel rf)) ;;;
  sc <- lift (fit_scaler env) ;;
  modify (set_preprocessor (IntelligentPreprocessor sc)) ;;;
  modify (set_model_available true).

(** [load_models] *)
Definition load_models : M Loader unit :=
  try_except _load_with_dvc [Exception]
    (fun e =>
       try_except _load_from_disk [Exception]
         (fun e2 => _create_dummy_model)).

(** [IntelligentModelLoader()]: [__init__] on a fresh object. *)
Definition init : result unit * Loader :=
  load_models {| model := None; preprocessor := None;
                 model_available := false |}.

(** [obj.transform(X)] *)
Definition call_transform (o : PyObject) (X : matrix) : result matrix :=
  match o with
  | Unpickled _ a => transform a X
  | IntelligentPreprocessor sc => scaler_transform sc X
  | IntelligentFallbackModel _ =>
      Raise (Exn AttributeError
               "'IntelligentFallbackModel' object has no attribute 'transform'")
  end.

(** [obj.predict(X)], and [tolist] of its result *)
Definition call_predict (o : PyObject) (X : matrix) : result (list PyVal) :=
  match o with
  | Unpickled _ a => predict a X
  | IntelligentFallbackModel rf => forest_predict rf X
  | IntelligentPreprocessor _ =>
      Raise (Exn AttributeError
               "'IntelligentPreprocessor' object has no attribute 'predict'")
  end.

(** The [predict] route, run against the global [model_loader]. *)
Definition predict_route (model_loader : Loader) (data : matrix) : Response :=
  match model model_loader, preprocessor model_loader with
  | Some the_model, Some the_preprocessor =>
      let attempt : result (list PyVal) :=
        match call_transform the_preprocessor
                (if PANDAS_AVAILABLE env then DataFrame data else data) with
        | Ok X_processed => call_predict the_model X_processed
        | Raise e => Raise e
        end in
      match attempt with
      | Ok prediction => returns [("prediction", VList prediction)]
      | Raise e => http_exception 500 (exn_str e)
      end
  | _, _ => http_exception 503 "Model is not available. Check health endpoint."
  end.

End WithArtifacts.
Arguments PyObject A : clear implicits.
Arguments Loader A : clear implicits.
Arguments Env A : clear implicits.
End MainIntelligent.

(** ** [main.py] *)

Module Main.
Import Py Serving.
Local Open Scope py_scope.

Section WithArtifacts.
Context {A : Type} `{Estimator A}.

(** The module-level [MODEL], [PREPROCESSOR] and [MODEL_LOADED]. *)
Record Globals := {
  MODEL : option A;
  PREPROCESSOR : option A;
  MODEL_LOADED : bool
}.

Record Env := {
  (** [config['paths']['models_dir']] *)
  models_dir : string;
  exists_on_disk : string -> bool;
  joblib_load : string -> result A
}.

Variable env : Env.

Definition set_MODEL (a : A) (g : Globals) : Globals :=
  {| MODEL := Some a; PREPROCESSOR := PREPROCESSOR g;
     MODEL_LOADED := MODEL_LOADED g |}.
Definition set_PREPROCESSOR (a : A) (g : Globals) : Globals :=
  {| MODEL := MODEL g; PREPROCESSOR := Some a;
     MODEL_LOADED := MODEL_LOADED g |}.
Definition set_MODEL_LOADED (g : Globals) : Globals :=
  {| MODEL := MODEL g; PREPROCESSOR := PREPROCESSOR g;
     MODEL_LOADED := true |}.

(** The module-level loading block. *)
Definition startup : result unit * Globals :=
  try_except
    (let model_path := models_dir env ++ "/" ++ "model.joblib" in
     let preprocessor_path := models_dir env ++ "/" ++ "preprocessor.joblib" in
     (if exists_on_disk env model_path
      then m <- lift (joblib_load env model_path) ;; modify (set_MODEL m)
      else ret tt) ;;;
     (if exists_on_disk env preprocessor_path
      then p <- lift (joblib_load env preprocessor_path) ;;
           modify (set_PREPROCESSOR p)
      else ret tt) ;;;
     g <- get ;;
     match MODEL g, PREPROCESSOR g with
     | Some _, Some _ => modify set_MODEL_LOADED
     | _, _ => ret tt
     end)
    [Exception]
    (fun _ => ret tt)
    {| MODEL := None; PREPROCESSOR := None; MODEL_LOADED := false |}.

Definition none_has_no (attr : string) : exn :=
  Exn AttributeError ("'NoneType' object has no attribute '" ++ attr ++ "'").

(** The [predict] route. *)
Definition predict_route (g : Globals) (data : matrix) : Response :=
  if negb (MODEL_LOADED g)
  then http_exception 503 "Model is not available for predictions."
  else
    let attempt : result (list PyVal) :=
      match PREPROCESSOR g with
      | None => Raise (none_has_no "transform")
      | Some the_preprocessor =>
          match transform the_preprocessor data with
          | Raise e => Raise e
          | Ok processed_data =>
              match MODEL g with
              | None => Raise (none_has_no "predict")
              | Some the_model => predict the_model processed_data
              end
          end
      end in
    match attempt with
    | Ok predictions => returns [("prediction", VList predictions)]
    | Raise e => http_exception 500 ("Prediction error: " ++ exn_str e)
    end.

End WithArtifacts.
Arguments Globals A : clear implicits.
Arguments Env A : clear implicits.
End Main.

(** ** [main_simple.py] *)

Module MainSimple.
Import Py Serving.

Section WithArtifacts.
Context {A : Type} `{Estimator A}.

(** [joblib.load(path)] at the moment of a request. *)
Variable joblib_load : string -> result A.

(** [src/config.py] *)
Definition preprocessor_filename : string := "models/preprocessor.pkl".
Definition model_filename : string := "models/model.pkl".

(** The [predict] route: it loads both artifacts on every request and
    returns a dictionary on either path. *)
Definition predict_route (data : matrix) : Response :=
  let attempt : result (list PyVal) :=
    match joblib_load preprocessor_filename with
    | Raise e => Raise e
    | Ok the_preprocessor =>
        match joblib_load model_filename with
        | Raise e => Raise e
        | Ok the_model =>
            match transform the_preprocessor data with
            | Raise e => Raise e
            | Ok processed_data => predict the_model processed_data
            end
        end
    end in
  match attempt with
  | Ok prediction => returns [("prediction", VList prediction)]
  | Raise e => returns [("error", VStr (exn_str e))]
  end.

End WithArtifacts.
End MainSimple.

(** ** The bundle invariant of the design note, and sample hosts *)

Module Bundle.
Import Py Serving MainIntelligent.

Section WithArtifacts.
Context {A : Type} `{Estimator A}.

(** Both halves set and the flag raised. *)
Definition fully_present (l : Loader A) : Prop :=
  is_Some (model l) /\ is_Some (preprocessor l) /\ model_available l = true.

(** Both halves unset and the flag down. *)
Definition fully_absent (l : Loader A) : Prop :=
  model l = None /\ preprocessor l = None /\ model_available l = false.

Definition bundle_invariant (l : Loader A) : Prop :=
  fully_present l \/ fully_absent l.

(** The state the third strategy leaves. *)
Definition synthetic_fallback (l : Loader A) : Prop :=
  exists rf sc,
    l = {| model := Some (IntelligentFallbackModel rf);
           preprocessor := Some (IntelligentPreprocessor sc);
           model_available := true |}.

(** The usable halves are missing: what the routes of
    [main_intelligent.py] test. *)
Definition absent (l : Loader A) : Prop :=
  model l = None \/ preprocessor l = None.

End WithArtifacts.
End Bundle.

(** ** The probes and the synthesizer, in the words of the design note *)

Module ProbeSpec.
Import Py IntelligentConfig.

(** The probed command failed in one of the ways the checks provide for:
    it exited with a non-zero status, it could not be found, or it timed
    out. *)
Definition probe_failed (env : Env) (t : nat) (args : list string)
    (timeout : option Z) : bool :=
  match spawn env t args timeout with
  | Ok cp => negb (returncode cp =? 0)%Z
  | Raise e => caught e subprocess_errors
  end.

(** What the torch check says at moment [t]. *)
Definition torch_answer (env : Env) (t : nat) : result bool :=
  match torch env with
  | TorchWithCuda =>
      match cuda_is_available env t with
      | Ok b => Ok b
      | Raise e => if caught e [ImportError] then Ok false else Raise e
      end
  | _ => Ok false
  end.

(** The ports of [ports] that can be bound, the first one tried at moment
    [t], the next at [t + 1], and so on. *)
Fixpoint bound_from (env : Env) (t : nat) (ports : list Z) : list Z :=
  match ports with
  | [] => []
  | q :: ports' =>
      if can_bind env t q then q :: bound_from env (S t) ports'
      else bound_from env (S t) ports'
  end.

(** Every port of the scan is a port number. *)
Definition valid_ports (p n : Z) : Prop :=
  forall q, (p <= q < p + n)%Z -> (0 <= q <= 65535)%Z.

(** [ollama show model] confirms the model at moment [t]. *)
Definition show_confirms (env : Env) (t : nat) (model : string) : bool :=
  match spawn env t ["ollama"; "show"; model] (Some 3%Z) with
  | Ok cp => (returncode cp =? 0)%Z
  | Raise _ => false
  end.

(** Walking a preference list: the first entry the probe confirms. *)
Fixpoint first_confirmed (env : Env) (t : nat) (models : list string)
    : option string :=
  match models with
  | [] => None
  | m :: models' =>
      if show_confirms env t m then Some m
      else first_confirmed env (S t) models'
  end.

(** No probe of the walk, up to the entry it stops at, raises anything
    but the exceptions the loop provides for. *)
Fixpoint walk_undisturbed (env : Env) (t : nat) (models : list string) : bool :=
  match models with
  | [] => true
  | m :: models' =>
      match spawn env t ["ollama"; "show"; m] (Some 3%Z) with
      | Ok cp => (returncode cp =? 0)%Z || walk_undisturbed env (S t) models'
      | Raise e =>
          caught e subprocess_errors && walk_undisturbed env (S t) models'
      end
  end.

(** [ollama list] names no model at moment [t]: it failed in a way the
    code provides for, or printed no line after the header. *)
Definition nothing_listed (env : Env) (t : nat) : bool :=
  match spawn env t ["ollama"; "list"] (Some 5%Z) with
  | Ok cp => bool_decide (first_listed_model cp = None)
  | Raise e => caught e subprocess_errors
  end.

(** An unchanged environment: the host answers every question the same
    way at every moment. *)
Record stationary (env : Env) : Prop := {
  import_module_fixed :
    forall t name, import_module env t name = import_module env 0 name;
  spawn_fixed :
    forall t args timeout,
      spawn env t args timeout = spawn env 0 args timeout;
  sockets_fixed : forall t, sockets_available env t = sockets_available env 0;
  bindable_fixed : forall t q, bindable env t q = bindable env 0 q;
  cuda_fixed : forall t, cuda_is_available env t = cuda_is_available env 0;
  cwd_fixed : forall t, cwd env t = cwd env 0;
  environ_fixed : forall t name, environ env t name = environ env 0 name;
  mkdir_fixed : forall t p, mkdir_error env t p = mkdir_error env 0 p
}.

(** What an uncached [check_module_availability] answers on a stationary
    host. *)
Definition fresh_answer (env : Env) (name : string) : result bool :=
  match import_module env 0 name with
  | None => Ok true
  | Some e => if caught e [ImportError] then Ok false else Raise e
  end.

(** [s'] is [s] after some more probing: the same instance, with a cache
    that has the entries of [s] and, besides them, only answers the host
    gives. *)
Definition later (env : Env) (s s' : State) : Prop :=
  base_path s = base_path s' /\
  forall name,
    available_modules s' !! name = available_modules s !! name \/
    (available_modules s !! name = None /\
     exists b, available_modules s' !! name = Some b /\
               fresh_answer env name = Ok b).

(** A computation is steady when probing some more beforehand does not
    change what it returns, and when it only ever probes some more. *)
Definition steady {A} (env : Env) (c : M State A) : Prop :=
  (forall s, later env s (snd (c s))) /\
  (forall s s', later env s s' ->
     fst (c s) = fst (c s') /\ later env (snd (c s)) (snd (c s'))).

(** The header row of a CSV text. *)
Definition header (content : string) : string :=
  hd "" (split_on newline content).

Definition known_tasks : list string :=
  ["heal"; "detect"; "adapt"; "install_deps"].

(** A dictionary with a boolean [success] entry. *)
Definition reports (d : dict) : Prop :=
  exists b, dict_get "success" d = Some (VBool b).

End ProbeSpec.

Module RowOrder.
Import Py Serving.

(** An estimator method works row by row when whatever it returns is the
    image of the rows it was given, in their order. *)
Definition rowwise {B} (method : matrix -> result (list B))
    (per_row : list pyfloat -> B) : Prop :=
  forall X Y, method X = Ok Y -> Y = map per_row X.

(** On a matrix, [pd.DataFrame] changes nothing. *)
Definition rectangular (data : matrix) : Prop :=
  Forall (fun r => length r = width data) data.

(** The exception the estimators raise on a request, if any: that of
    [transform] on the rows, else that of [predict] on what [transform]
    returned. *)
Definition raised_on {B} (transform : matrix -> result matrix)
    (predict : matrix -> result (list B)) (X : matrix) : option exn :=
  match transform X with
  | Raise e => Some e
  | Ok Y =>
      match predict Y with
      | Raise e => Some e
      | Ok _ => None
      end
  end.

(** What a route owes its caller on a request of [data]: a 500 without
    predictions when an estimator raised, and when none did a 200 whose
    list is the image of the rows. *)
Definition rows_preserved (per_row : list pyfloat -> PyVal) (data : matrix)
    (raised : option exn) (r : Response) : Prop :=
  match raised with
  | Some _ =>
      status_code r = 500%Z /\
      forall content,
        body r = VDict content -> dict_get "prediction" content = None
  | None =>
      exists L,
        r = returns [("prediction", VList L)] /\
        length L = length data /\
        forall i row, data !! i = Some row -> L !! i = Some (per_row row)
  end.

End RowOrder.

Module Samples.
Import Py Serving.

(** A deserialized object that is no estimator at all. *)
Inductive Junk := junk.

#[global] Instance Junk_estimator : Estimator Junk := {|
  transform _ _ :=
    Raise (Exn AttributeError "'Junk' object has no attribute 'transform'");
  predict _ _ :=
    Raise (Exn AttributeError "'Junk' object has no attribute 'predict'")
|}.

(** A host with neither joblib nor scikit-learn, and no artifact. *)
Definition bare_host : MainIntelligent.Env Junk := {|
  MainIntelligent.JOBLIB_AVAILABLE := false;
  MainIntelligent.PANDAS_AVAILABLE := false;
  MainIntelligent.models_dir := "models";
  MainIntelligent.model_filename := "latest_model.joblib";
  MainIntelligent.preprocessor_filename := "preprocessor.joblib";
  MainIntelligent.import_error name :=
    Some (Exn ModuleNotFoundError ("No module named '" ++ name ++ "'"));
  MainIntelligent.dvc_load _ := Raise (Exn FileNotFoundError "no such file");
  MainIntelligent.exists_on_disk _ := false;
  MainIntelligent.joblib_load _ := Raise (Exn FileNotFoundError "no such file");
  MainIntelligent.fit_forest := Raise (Exn RuntimeError "not reached");
  MainIntelligent.fit_scaler := Raise (Exn RuntimeError "not reached")
|}.

(** The objects of the synthetic fallback: three columns each. *)
Definition sample_forest : RandomForestClassifier := {|
  forest_features := 3;
  forest_allows_nan := false;
  classify r :=
    VInt (match r with
          | Dec m _ :: _ => if (0 <? m)%Z then 1 else 0
          | _ => 0
          end)
|}.

Definition sample_scaler : StandardScaler := {|
  scaler_features := 3;
  scale r := r
|}.

(** A host with scikit-learn but no artifact anywhere: joblib is there,
    DVC is not, and the models directory is empty. *)
Definition sklearn_host : MainIntelligent.Env Junk := {|
  MainIntelligent.JOBLIB_AVAILABLE := true;
  MainIntelligent.PANDAS_AVAILABLE := true;
  MainIntelligent.models_dir := "models";
  MainIntelligent.model_filename := "latest_model.joblib";
  MainIntelligent.preprocessor_filename := "preprocessor.joblib";
  MainIntelligent.import_error name :=
    if String.eqb name "dvc.api"
    then Some (Exn ModuleNotFoundError "No module named 'dvc'")
    else None;
  MainIntelligent.dvc_load _ := Raise (Exn FileNotFoundError "no such file");
  MainIntelligent.exists_on_disk _ := false;
  MainIntelligent.joblib_load _ := Raise (Exn FileNotFoundError "no such file");
  MainIntelligent.fit_forest := Ok sample_forest;
  MainIntelligent.fit_scaler := Ok sample_scaler
|}.

(** The remote store has the model but not the preprocessor; nothing is
    on disk. *)
Definition half_remote_host : MainIntelligent.Env Junk := {|
  MainIntelligent.JOBLIB_AVAILABLE := true;
  MainIntelligent.PANDAS_AVAILABLE := true;
  MainIntelligent.models_dir := "models";
  MainIntelligent.model_filename := "latest_model.joblib";
  MainIntelligent.preprocessor_filename := "preprocessor.joblib";
  MainIntelligent.import_error _ := None;
  MainIntelligent.dvc_load path :=
    if String.eqb path "models/latest_model.joblib" then Ok junk
    else Raise (Exn FileNotFoundError "no such file in the remote store");
  MainIntelligent.exists_on_disk _ := false;
  MainIntelligent.joblib_load _ := Raise (Exn FileNotFoundError "no such file");
  MainIntelligent.fit_forest := Ok sample_forest;
  MainIntelligent.fit_scaler := Ok sample_scaler
|}.

Definition fresh_loader : MainIntelligent.Loader Junk := {|
  MainIntelligent.model := None;
  MainIntelligent.preprocessor := None;
  MainIntelligent.model_available := false
|}.

(** The bundle the third strategy builds on [sklearn_host]. *)
Definition fallback_loader : MainIntelligent.Loader Junk := {|
  MainIntelligent.model :=
    Some (MainIntelligent.IntelligentFallbackModel sample_forest);
  MainIntelligent.preprocessor :=
    Some (MainIntelligent.IntelligentPreprocessor sample_scaler);
  MainIntelligent.model_available := true
|}.

(** Deserialized scikit-learn objects. *)
Inductive Fitted :=
  | FittedScaler (sc : StandardScaler)
  | FittedForest (rf : RandomForestClassifier).

#[global] Instance Fitted_estimator : Estimator Fitted := {|
  transform o X :=
    match o with
    | FittedScaler sc => scaler_transform sc X
    | FittedForest _ =>
        Raise (Exn AttributeError
                 "'RandomForestClassifier' object has no attribute 'transform'")
    end;
  predict o X :=
    match o with
    | FittedForest rf => forest_predict rf X
    | FittedScaler _ =>
        Raise (Exn AttributeError
                 "'StandardScaler' object has no attribute 'predict'")
    end
|}.

(** [main.py] before any artifact was found, and with both loaded. *)
Definition nothing_loaded : Main.Globals Fitted := {|
  Main.MODEL := None; Main.PREPROCESSOR := None; Main.MODEL_LOADED := false
|}.

Definition both_loaded : Main.Globals Fitted := {|
  Main.MODEL := Some (FittedForest sample_forest);
  Main.PREPROCESSOR := Some (FittedScaler sample_scaler);
  Main.MODEL_LOADED := true
|}.

(** A deserialized pipeline that is not row-wise: its [transform] drops
    the rows that begin with a negative number, its [predict] labels every
    row it is given with 1. *)
Inductive Dropper := dropper.

#[global] Instance Dropper_estimator : Estimator Dropper := {|
  transform _ X :=
    Ok (List.filter (fun r => match r with
                              | Dec m _ :: _ => (0 <=? m)%Z
                              | _ => true
                              end) X);
  predict _ X := Ok (map (fun _ => VInt 1) X)
|}.

(** [main.py] with that pipeline loaded as both artifacts. *)
Definition dropper_loaded : Main.Globals Dropper := {|
  Main.MODEL := Some dropper;
  Main.PREPROCESSOR := Some dropper;
  Main.MODEL_LOADED := true
|}.

(** [joblib.load] where the artifact files do not exist. *)
Definition no_artifacts (path : string) : result Fitted :=
  Raise (Exn FileNotFoundError
           ("[Errno 2] No such file or directory: '" ++ path ++ "'")).

(** Request bodies: two rows of three numbers, one row of two. *)
Definition two_rows : matrix :=
  [ [Dec 1 0; Dec 2 0; Dec 3 0]; [Dec (-4) 0; Dec 5 0; Dec 6 0] ].
Definition narrow_row : matrix := [ [Dec 1 0; Dec 2 0] ].

(** *** Hosts for the configuration layer *)

(** A fresh [IntelligentConfig] at [/app]. *)
Definition s0 : IntelligentConfig.State := {|
  IntelligentConfig.clock := 0;
  IntelligentConfig.base_path := "/app";
  IntelligentConfig.available_modules := ∅;
  IntelligentConfig.fs_dirs := {["/app"]};
  IntelligentConfig.fs_files := ∅
|}.

Definition no_such_file (what : string) : exn :=
  Exn FileNotFoundError
      ("[Errno 2] No such file or directory: '" ++ what ++ "'").

Definition no_module (name : string) : exn :=
  Exn ModuleNotFoundError ("No module named '" ++ name ++ "'").

Definition exited (code : Z) (out : string)
    : result IntelligentConfig.CompletedProcess :=
  Ok {| IntelligentConfig.returncode := code;
        IntelligentConfig.stdout := out |}.

(** A host described by what its commands do and which modules import;
    every port is free and nothing else ever fails. *)
Definition host_with
    (commands : list string -> result IntelligentConfig.CompletedProcess)
    (modules : string -> option exn) (free : Z -> bool)
    : IntelligentConfig.Env := {|
  IntelligentConfig.import_module _ name := modules name;
  IntelligentConfig.spawn _ args _ := commands args;
  IntelligentConfig.sockets_available _ := true;
  IntelligentConfig.bindable _ q := free q;
  IntelligentConfig.torch := IntelligentConfig.TorchMissing;
  IntelligentConfig.cuda_is_available _ := Ok false;
  IntelligentConfig.version_info := (3, 11, 4)%Z;
  IntelligentConfig.platform := "linux";
  IntelligentConfig.cwd _ := Ok "/app";
  IntelligentConfig.environ _ _ := None;
  IntelligentConfig.mkdir_error _ _ := None;
  IntelligentConfig.open_error _ _ := None;
  IntelligentConfig.executable := "/usr/bin/python3";
  IntelligentConfig.sample_rows := [["0.4967"; "-0.1382"; "0.2905"; "1"]]
|}.

(** Nothing is installed. *)
Definition quiet_host : IntelligentConfig.Env :=
  host_with (fun args => Raise (no_such_file (hd "" args)))
            (fun name => Some (no_module name))
            (fun _ => true).

(** The same, with pandas and numpy. *)
Definition pandas_host : IntelligentConfig.Env :=
  host_with (fun args => Raise (no_such_file (hd "" args)))
            (fun name => if String.eqb name "pandas" || String.eqb name "numpy"
                         then None else Some (no_module name))
            (fun _ => true).

(** [docker] is on the path but may not be executed. *)
Definition locked_host : IntelligentConfig.Env :=
  host_with (fun args =>
               if String.eqb (hd "" args) "docker"
               then Raise (Exn PermissionError
                             "[Errno 13] Permission denied: 'docker'")
               else Raise (no_such_file (hd "" args)))
            (fun name => Some (no_module name))
            (fun _ => true).

(** A container with the CUDA libraries and torch but no [nvidia-smi]. *)
Definition cuda_container : IntelligentConfig.Env := {|
  IntelligentConfig.import_module _ name := Some (no_module name);
  IntelligentConfig.spawn _ args _ := Raise (no_such_file (hd "" args));
  IntelligentConfig.sockets_available _ := true;
  IntelligentConfig.bindable _ _ := true;
  IntelligentConfig.torch := IntelligentConfig.TorchWithCuda;
  IntelligentConfig.cuda_is_available _ := Ok true;
  IntelligentConfig.version_info := (3, 11, 4)%Z;
  IntelligentConfig.platform := "linux";
  IntelligentConfig.cwd _ := Ok "/app";
  IntelligentConfig.environ _ _ := None;
  IntelligentConfig.mkdir_error _ _ := None;
  IntelligentConfig.open_error _ _ := None;
  IntelligentConfig.executable := "/usr/bin/python3";
  IntelligentConfig.sample_rows := []
|}.

(** Port 8000 is taken, the others are free. *)
Definition busy_8000 : IntelligentConfig.Env :=
  host_with (fun args => Raise (no_such_file (hd "" args)))
            (fun name => Some (no_module name))
            (fun q => negb (q =? 8000)%Z).

(** Every port is taken. *)
Definition all_busy : IntelligentConfig.Env :=
  host_with (fun args => Raise (no_such_file (hd "" args)))
            (fun name => Some (no_module name))
            (fun _ => false).

(** Ollama is installed with two models, [gemma:2b] listed first and
    [phi3:mini] after it. *)
Definition ollama_list_output : string :=
  "NAME         ID      SIZE    MODIFIED" ++ nl ++
  "gemma:2b     b50d6c  1.7 GB  2 days ago" ++ nl ++
  "phi3:mini    4f2222  2.2 GB  3 weeks ago" ++ nl.

Definition ollama_host : IntelligentConfig.Env :=
  host_with (fun args =>
               match args with
               | ["ollama"; "--version"] => exited 0 "ollama version is 0.3.12"
               | ["ollama"; "list"] => exited 0 ollama_list_output
               | ["ollama"; "show"; m] =>
                   if String.eqb m "gemma:2b" || String.eqb m "phi3:mini"
                   then exited 0 "" else exited 1 ""
               | _ => Raise (no_such_file (hd "" args))
               end)
            (fun name => Some (no_module name))
            (fun _ => true).

(** Ollama is installed with [llama3.1:8b] only, and [ollama list] times
    out. *)
Definition slow_ollama_host : IntelligentConfig.Env :=
  host_with (fun args =>
               match args with
               | ["ollama"; "--version"] => exited 0 "ollama version is 0.3.12"
               | ["ollama"; "list"] =>
                   Raise (Exn TimeoutExpired
                            "Command '['ollama', 'list']' timed out")
               | ["ollama"; "show"; m] =>
                   if String.eqb m "llama3.1:8b" then exited 0 ""
                   else exited 1 ""
               | _ => Raise (no_such_file (hd "" args))
               end)
            (fun name => Some (no_module name))
            (fun _ => true).

(** No tool and no package is installed, but pip is there and installs
    what it is asked for. *)
Definition pip_host : IntelligentConfig.Env :=
  host_with (fun args =>
               match args with
               | _ :: "-m" :: "pip" :: "install" :: _ => exited 0 ""
               | _ => Raise (no_such_file (hd "" args))
               end)
            (fun name => Some (no_module name))
            (fun _ => true).

(** An [IntelligentConfig] at [/app] whose layout is in place. *)
Definition healed_project : IntelligentConfig.State := {|
  IntelligentConfig.clock := 0;
  IntelligentConfig.base_path := "/app";
  IntelligentConfig.available_modules := ∅;
  IntelligentConfig.fs_dirs :=
    {["/app"; "/app/data"; "/app/data/raw"; "/app/data/processed";
      "/app/models"; "/app/reports"; "/app/logs"]};
  IntelligentConfig.fs_files :=
    {["/app/data/raw/data.csv" :=
        "feature_1,feature_2,feature_3,target" ++ nl ++ "0.1,0.2,0.3,1" ++ nl]}
|}.

(** [main.py] with both artifact files on disk. *)
Definition artifacts_host : Main.Env Fitted := {|
  Main.models_dir := "/app/models";
  Main.exists_on_disk _ := true;
  Main.joblib_load path :=
    if String.eqb path "/app/models/model.joblib"
    then Ok (FittedForest sample_forest)
    else Ok (FittedScaler sample_scaler)
|}.

End Samples.

(** ** [main.py]: the other routes *)

Module MainApp.
Import Py Serving IntelligentConfig.
Local Open Scope py_scope.

(** [raise HTTPException(status_code=code, detail=detail)] with a
    detail that is not a string. *)
Definition http_exception_with (code : Z) (detail : PyVal) : Response :=
  {| status_code := code; body := VDict [("detail", detail)] |}.

(** [global_exception_handler] *)
Definition global_exception_handler (exc : exn) : Response :=
  {| status_code := 500;
     body := VDict [("detail",
                     VStr ("An internal server error occurred: "
                           ++ exn_str exc))] |}.

(** What the application answers for a route: the response of the route,
    or that of [global_exception_handler] when the route raised. *)
Definition served (route : M State Response) (s : State)
    : Response * State :=
  match route s with
  | (Ok response, s') => (response, s')
  | (Raise exc, s') => (global_exception_handler exc, s')
  end.

(** [v[k]] for a string [k] that holds no quote and no escape. *)
Definition subscript (k : string) (v : PyVal) : result PyVal :=
  match v with
  | VDict d =>
      match dict_get k d with
      | Some x => Ok x
      | None => Raise (Exn KeyError ("'" ++ k ++ "'"))
      end
  | VStr _ =>
      Raise (Exn TypeError "string indices must be integers, not 'str'")
  | VList _ =>
      Raise (Exn TypeError "list indices must be integers or slices, not str")
  | VNone => Raise (Exn TypeError "'NoneType' object is not subscriptable")
  | VBool _ => Raise (Exn TypeError "'bool' object is not subscriptable")
  | VInt _ => Raise (Exn TypeError "'int' object is not subscriptable")
  | VFloat _ _ => Raise (Exn TypeError "'float' object is not subscriptable")
  end.

(** [d[k1][k2]] *)
Definition subscript2 (k1 k2 : string) (d : dict) : result PyVal :=
  match subscript k1 (VDict d) with
  | Ok v => subscript k2 v
  | Raise e => Raise e
  end.

Section WithEnv.
Variable env : Env.

(** [execute_agent_task], on a validated [AgentTask]. *)
Definition execute_agent_task (task_name : string)
    (parameters : option dict) : M State Response :=
  result <- orchestrate_agent_task env task_name parameters ;;
  if negb (truthy (default VNone (dict_get "success" result)))
  then ret (http_exception_with 400 (VDict result))
  else ret (returns result).

(** [trigger_healing] *)
Definition trigger_healing : M State Response :=
  actions <- heal_project env ;;
  ret (returns [("actions", VList (map VStr actions))]).

(** The module-level code of [main.py] from the construction of
    [intelligent_config] to the decorator of the first route under the
    versioned prefix, run on the fresh instance; the result is the
    prefix.  The loading block in between catches every exception (see
    [Main.startup]); logging and the metric objects are left out. *)
Definition module_level : M State PyVal :=
  healing_actions <- heal_project env ;;
  config <- get_dynamic_config env ;;
  (* app = FastAPI(..., version=config['project']['version']) *)
  version <- lift (subscript2 "project" "version" config) ;;
  (* @app.get(f"{config['api']['version']}/health", ...) *)
  prefix <- lift (subscript2 "api" "version" config) ;;
  ret prefix.

End WithEnv.

Section WithArtifacts.
Context {A : Type} `{Estimator A}.

(** [readiness_check] *)
Definition readiness_check (g : Main.Globals A) : Response :=
  if negb (Main.MODEL_LOADED g)
  then http_exception 503 "Service Unavailable: Model not loaded."
  else returns [("status", VStr "ready");
                ("message", VStr "API is ready to serve predictions.")].

End WithArtifacts.
End MainApp.

(** ** [main_intelligent.py]: the health and readiness routes *)

Module IntelligentApp.
Import Py Serving MainIntelligent.

Section WithArtifacts.
Context {A : Type} `{Estimator A}.
Variable env : Env A.

(** [type(obj).__name__] of a deserialized object. *)
Variable type_name : A -> string.

(** [obj.transform(pd.DataFrame([{'feature1': 1, 'feature2': 2}]))] of a
    deserialized object: a frame with named columns, which the interface
    of the [predict] route does not cover. *)
Variable transform_named_frame : A -> result matrix.

(** The module-level flags [PYDANTIC_AVAILABLE] and [CONFIG_AVAILABLE]. *)
Variable PYDANTIC_AVAILABLE CONFIG_AVAILABLE : bool.

Definition class_name (o : PyObject A) : string :=
  match o with
  | Unpickled _ a => type_name a
  | IntelligentFallbackModel _ => "IntelligentFallbackModel"
  | IntelligentPreprocessor _ => "IntelligentPreprocessor"
  end.

(** [health_check]; the route exists only where FastAPI was imported. *)
Definition health_check (model_loader : Loader A) : dict :=
  let health_status : dict :=
    [ ("status", VStr "ok");
      ("dependencies",
        VDict [ ("fastapi", VBool true);
                ("pandas", VBool (PANDAS_AVAILABLE env));
                ("joblib", VBool (JOBLIB_AVAILABLE env));
                ("prometheus", VBool true);
                ("pydantic", VBool PYDANTIC_AVAILABLE);
                ("config", VBool CONFIG_AVAILABLE) ]);
      ("model_status",
        VDict [ ("available", VBool (model_available model_loader));
                ("type", match model model_loader with
                         | Some o => VStr (class_name o)
                         | None => VNone
                         end) ]) ] in
  if negb (model_available model_loader)
  then dict_set "message" (VStr "Model not available, using fallbacks")
         (dict_set "status" (VStr "degraded") health_status)
  else health_status.

(** The one row of the dummy request: the numbers 1 and 2. *)
Definition dummy_data : matrix := [ [Dec 1 0; Dec 2 0] ].

(** [model_loader.preprocessor.transform(dummy_data)] *)
Definition transform_dummy (o : PyObject A) : result matrix :=
  match o with
  | Unpickled _ a =>
      if PANDAS_AVAILABLE env then transform_named_frame a
      else transform a dummy_data
  | _ => call_transform o dummy_data
  end.

(** [JSONResponse(status_code=503, content=...)] of [readiness_check] *)
Definition not_ready (message : string) : Response :=
  {| status_code := 503;
     body := VDict [("status", VStr "not_ready");
                    ("message", VStr message)] |}.

(** [readiness_check] *)
Definition readiness_check (model_loader : Loader A) : Response :=
  match model model_loader, preprocessor model_loader with
  | Some the_model, Some the_preprocessor =>
      let attempt : result (list PyVal) :=
        match transform_dummy the_preprocessor with
        | Ok preprocessed => call_predict the_model preprocessed
        | Raise e => Raise e
        end in
      match attempt with
      | Ok _ => returns [("status", VStr "ready");
                         ("message",
                          VStr "Model is ready to serve predictions")]
      | Raise e => not_ready ("Dummy prediction failed: " ++ exn_str e)
      end
  | _, _ => not_ready "Model is not available"
  end.

End WithArtifacts.
End IntelligentApp.

(** ** Further notions used to state what the configuration layer does *)

Module HostSpec.
Import Py IntelligentConfig.

(** A host on which no probe fails in a way the code does not provide
    for: commands run or fail with one of the three subprocess
    exceptions, imports succeed or raise [ImportError], the CUDA query
    answers or raises [ImportError], the working directory is known and
    directories can be created. *)
Record benign (env : Env) : Prop := {
  spawn_benign : forall t args timeout,
    match spawn env t args timeout with
    | Ok _ => True
    | Raise e => caught e subprocess_errors = true
    end;
  import_benign : forall t name,
    match import_module env t name with
    | None => True
    | Some e => caught e [ImportError] = true
    end;
  cuda_benign : forall t,
    match cuda_is_available env t with
    | Ok _ => True
    | Raise e => caught e [ImportError] = true
    end;
  cwd_benign : forall t, is_ok (cwd env t) = true;
  mkdir_benign : forall t p, mkdir_error env t p = None
}.

(** A computation that returns from every state. *)
Definition always_returns {A} (c : M State A) : Prop :=
  forall s, exists a s', c s = (Ok a, s').

(** The keys of the tree [get_dynamic_config] builds. *)
Definition config_sections : list string :=
  ["project"; "api"; "paths"; "data"; "models"; "llm"; "monitoring";
   "environment"].

(** The keys of the dictionary [detect_environment] builds. *)
Definition environment_keys : list string :=
  ["python_version"; "platform"; "working_directory"; "has_gpu";
   "available_ports"; "dev_mode";
   "has_git"; "has_docker"; "has_ollama"; "has_dvc";
   "has_fastapi"; "has_pandas"; "has_sklearn"; "has_torch";
   "has_tensorflow"].

(** [d[k1][k2]] *)
Definition dict_get2 (k1 k2 : string) (d : dict) : option PyVal :=
  match dict_get k1 d with
  | Some (VDict d') => dict_get k2 d'
  | _ => None
  end.

(** [s.startswith(pre)] *)
Fixpoint startswith (pre s : string) : bool :=
  match pre with
  | EmptyString => true
  | String a pre' =>
      match s with
      | String b s' => Ascii.eqb a b && startswith pre' s'
      | EmptyString => false
      end
  end.

(** The [has_...] entries a loop of [detect_environment] writes. *)
Definition set_flags (flags : list (string * bool)) (d : dict) : dict :=
  fold_left (fun d '(name, b) => dict_set ("has_" ++ name) (VBool b) d)
            flags d.

(** The list [get_available_ports] returns when the ports of [bound]
    could be bound. *)
Definition ports_or_base (base : Z) (bound : list Z) : list Z :=
  if bool_decide (bound = []) then [base] else bound.

(** The moment the port scan of [detect_environment] begins when it is
    called in state [s]: the working directory and the GPU have been
    asked for. *)
Definition scan_moment (env : Env) (s : State) : nat :=
  clock (snd (detect_gpu_availability env (snd (host (cwd env) s)))).

(** [p] is the lowest port of 8000..8009 that can be bound in a scan that
    begins at moment [t] and tries one port per moment, or 8000 when none
    of them can. *)
Definition lowest_bindable (env : Env) (t : nat) (p : Z) : Prop :=
  let tried q := can_bind env (t + Z.to_nat (q - 8000)) q in
  (8000 <= p <= 8009)%Z /\
  ((tried p = true /\
    forall q, (8000 <= q < p)%Z -> tried q = false) \/
   (p = 8000%Z /\
    forall q, (8000 <= q <= 8009)%Z -> tried q = false)).

(** The path is there, as a directory or as a file. *)
Definition exists_in (s : State) (p : string) : bool :=
  bool_decide (p ∈ fs_dirs s) || bool_decide (is_Some (fs_files s !! p)).

(** Nothing was removed between [s] and [s']: the instance is at the same
    place and every path of [s] is still there. *)
Definition grows (s s' : State) : Prop :=
  base_path s' = base_path s /\
  fs_dirs s ⊆ fs_dirs s' /\
  forall p, is_Some (fs_files s !! p) -> is_Some (fs_files s' !! p).

(** A computation that removes nothing. *)
Definition keeps {A} (c : M State A) : Prop :=
  forall s, grows s (snd (c s)).

(** An action that reports something created. *)
Definition reports_creation (action : string) : bool :=
  startswith "Created " action.

(** The layout [heal_project] is after. *)
Definition healed (s : State) : Prop :=
  (forall d, In d required_dirs ->
             exists_in s (path_join (base_path s) d) = true) /\
  exists_in s (data_csv (base_path s)) = true.

End HostSpec.

(** ** [src/config.py] and [process_data] of [src/data_processor.py] *)

Module DataPipeline.
Import Py IntelligentConfig.
Local Open Scope py_scope.

(** [src/config.py]: the module-level [config]. *)
Definition config : dict :=
  [ ("paths",
      VDict [ ("preprocessor_filename", VStr "models/preprocessor.pkl");
              ("model_filename", VStr "models/model.pkl");
              ("data_raw", VStr "data/raw/data.csv");
              ("data_processed", VStr "data/processed/data.csv") ]);
    ("data",
      VDict [ ("test_size", VFloat 2 (-1));
              ("random_state", VInt 42);
              ("target_column", VStr "target");
              ("expected_columns",
                VList (map VStr DataProcessor.expected_columns)) ]);
    ("api",
      VDict [ ("version", VStr "/v1");
              ("host", VStr "0.0.0.0");
              ("port", VInt 8000) ]);
    ("project",
      VDict [ ("name", VStr "omnitide-ai-suite");
              ("description",
                VStr "An intelligent, self-healing MLOps platform.") ]) ].

Section WithHost.
Variable env : Env.

(** What pandas and scikit-learn make of the data is left to the host:
    the frame read, the fitted and transformed features, the split. *)
Variables Frame Processed Split : Type.

(** [df.columns] and [df.isnull().values.any()] *)
Variable columns : Frame -> list string.
Variable has_nan : Frame -> bool.

(** [pd.read_csv(path)] on the disk of a state. *)
Variable read_path : State -> string -> result Frame.

(** From [X = df.drop(target_col, axis=1)] to
    [preprocessor.fit_transform(X)]. *)
Variable fit_transform : Frame -> string -> result Processed.

(** The statements after [models_dir = config['paths']['models_dir']]:
    the directory, the dump of the preprocessor and the split. *)
Variable finish : PyVal -> Frame -> Processed -> M State Split.

(** [validate_data]; [config['data']] has the key [expected_columns]. *)
Definition validate_data (df : Frame) : result unit :=
  if negb (forallb (fun col => bool_decide (col ∈ columns df))
             DataProcessor.expected_columns)
  then Raise (Exn ValueError
                "Input data is missing one or more expected columns.")
  else if has_nan df
  then Raise (Exn ValueError "Input data contains missing (NaN) values.")
  else Ok tt.

(** [pd.read_csv(data_path)], where [data_path] may be [None]. *)
Definition read_csv (data_path : option string) : M State Frame :=
  match data_path with
  | Some path => s <- get ;; lift (read_path s path)
  | None =>
      raise (Exn ValueError
               "Invalid file path or buffer object type: <class 'NoneType'>")
  end.

(** The target column: [config['data'].get('target_column', 'target')],
    or the last column when the frame has no such column. *)
Definition target_column (df : Frame) : result string :=
  if bool_decide ("target" ∈ columns df) then Ok "target"
  else match last (columns df) with
       | Some col => Ok col
       | None =>
           Raise (Exn IndexError
                    "index -1 is out of bounds for axis 0 with size 0")
       end.

(** [process_data], on the module-level [intelligent_config]. *)
Definition process_data (data_path : string) : M State Split :=
  present <- path_exists data_path ;;
  data_path <-
    (if negb present
     then try_except
            (* create_sample_data has no return statement *)
            (create_sample_data env ;;; ret None)
            [ImportError]
            (fun _ =>
               raise (Exn FileNotFoundError
                        ("Data file not found: " ++ data_path)))
     else ret (Some data_path)) ;;
  df <- read_csv data_path ;;
  lift (validate_data df) ;;;
  target_col <- lift (target_column df) ;;
  X_processed <- lift (fit_transform df target_col) ;;
  models_dir <- lift (MainApp.subscript2 "paths" "models_dir" config) ;;
  finish models_dir df X_processed.

End WithHost.
End DataPipeline.

(** * Properties *)

(** ** The exception monad *)

Module PyFacts.
Import Py.

(** [except Exception] matches every exception of the model. *)
Lemma caught_Exception (e : exn) : caught e [Exception] = true.
Proof. destruct e as [c msg]. destruct c; reflexivity. Qed.

Lemma bind_ok {St A B} (c : M St A) (k : A -> M St B) s a s' :
  c s = (Ok a, s') -> bind c k s = k a s'.
Proof. intros Hc. unfold bind. now rewrite Hc. Qed.

Lemma bind_raise {St A B} (c : M St A) (k : A -> M St B) s e s' :
  c s = (Raise e, s') -> bind c k s = (Raise e, s').
Proof. intros Hc. unfold bind. now rewrite Hc. Qed.

(** A [try] whose handler catches [Exception] runs the handler exactly
    when the body raises. *)
Lemma try_except_all {St A} (body : M St A) (h : exn -> M St A) s :
  try_except body [Exception] h s =
  match body s with
  | (Ok a, s') => (Ok a, s')
  | (Raise e, s') => h e s'
  end.
Proof.
  unfold try_except. destruct (body s) as [[a|e] s']; [reflexivity|].
  now rewrite caught_Exception.
Qed.

End PyFacts.

(** ** The model loader of [main_intelligent.py] *)

Module LoaderProps.
Import Py Serving MainIntelligent Bundle PyFacts.

Section WithArtifacts.
Context {A : Type} `{Estimator A}.
Variable env : Env A.

(** A strategy that returns has set both halves and raised the flag. *)
Lemma _load_with_dvc_ok s s' :
  _load_with_dvc env s = (Ok tt, s') -> fully_present s'.
Proof.
  unfold _load_with_dvc, py_import, bind, lift, modify, raise, ret.
  destruct (JOBLIB_AVAILABLE env); simpl; [|discriminate].
  destruct (import_error env "dvc.api"); [discriminate|].
  destruct (dvc_load env _); [|discriminate].
  destruct (dvc_load env _); [|discriminate].
  intros [= <-]. repeat split; simpl; eauto.
Qed.

Lemma _load_from_disk_ok s s' :
  _load_from_disk env s = (Ok tt, s') -> fully_present s'.
Proof.
  unfold _load_from_disk, bind, lift, modify, raise, ret.
  destruct (JOBLIB_AVAILABLE env); simpl; [|discriminate].
  destruct (_ && _); [|discriminate].
  destruct (joblib_load env _); [|discriminate].
  destruct (joblib_load env _); [|discriminate].
  intros [= <-]. repeat split; simpl; eauto.
Qed.

Lemma _create_dummy_model_ok s s' :
  _create_dummy_model env s = (Ok tt, s') -> synthetic_fallback s'.
Proof.
  unfold _create_dummy_model, py_import, bind, lift, modify, raise, ret.
  destruct (import_error env "sklearn.ensemble"); [discriminate|].
  destruct (import_error env "sklearn.preprocessing"); [discriminate|].
  destruct (import_error env "numpy"); [discriminate|].
  destruct (fit_forest env) as [rf|]; [|discriminate].
  destruct (fit_scaler env) as [sc|]; [|discriminate].
  intros [= <-]. now exists rf, sc.
Qed.

Lemma synthetic_fallback_present (l : Loader A) :
  synthetic_fallback l -> fully_present l.
Proof. intros (rf & sc & ->). repeat split; simpl; eauto. Qed.

(** [load_models] unfolded into its three strategies. *)
Lemma load_models_eq s :
  load_models env s =
  match _load_with_dvc env s with
  | (Ok a, s1) => (Ok a, s1)
  | (Raise _, s1) =>
      match _load_from_disk env s1 with
      | (Ok a, s2) => (Ok a, s2)
      | (Raise _, s2) => _create_dummy_model env s2
      end
  end.
Proof.
  unfold load_models. rewrite try_except_all.
  destruct (_load_with_dvc env s) as [[[]|e] s1]; [reflexivity|].
  now rewrite try_except_all.
Qed.

Lemma load_models_ok s s' :
  load_models env s = (Ok tt, s') -> fully_present s'.
Proof.
  rewrite load_models_eq.
  destruct (_load_with_dvc env s) as [[[]|e1] s1] eqn:Hdvc.
  - intros [= <-]. eapply _load_with_dvc_ok, Hdvc.
  - destruct (_load_from_disk env s1) as [[[]|e2] s2] eqn:Hdisk.
    + intros [= <-]. eapply _load_from_disk_ok, Hdisk.
    + intros Hdummy.
      eapply synthetic_fallback_present, _create_dummy_model_ok, Hdummy.
Qed.

(** No strategy ever unsets a half or lowers the flag: a bundle that is
    fully present stays so through a reload, even one that raises. *)
Lemma load_models_keeps_present s r s' :
  fully_present s -> load_models env s = (r, s') -> fully_present s'.
Proof.
  intros (Hm & Hp & Ha). rewrite load_models_eq.
  unfold _load_with_dvc, _load_from_disk, _create_dummy_model, py_import,
    bind, lift, modify, raise, ret.
  destruct s as [m p a]; simpl in *; subst a.
  repeat (match goal with
          | |- context [match ?x with _ => _ end] =>
              match type of x with
              | bool => destruct x
              | option _ => destruct x
              | result _ => destruct x
              | unit => destruct x
              end; simpl
          | |- context [if ?x then _ else _] => destruct x; simpl
          end);
    intros [= <- <-]; repeat split; simpl; eauto.
Qed.

(** C1 (as amended): when the remote-versioned strategy raises, the
    local-disk strategy raises, and the synthetic strategy itself does not
    raise, [load_models] returns without an exception and leaves the
    synthetic fallback: the fallback model, the fallback preprocessor and
    [model_available = True]. *)
Theorem load_models_falls_back s e1 s1 e2 s2 s3 :
  _load_with_dvc env s = (Raise e1, s1) ->
  _load_from_disk env s1 = (Raise e2, s2) ->
  _create_dummy_model env s2 = (Ok tt, s3) ->
  load_models env s = (Ok tt, s3) /\
  synthetic_fallback s3 /\
  model_available s3 = true /\
  (exists m p, model s3 = Some m /\ preprocessor s3 = Some p /\
               provenance m = SyntheticFallback /\
               provenance p = SyntheticFallback).
Proof.
  intros Hdvc Hdisk Hdummy.
  pose proof (_create_dummy_model_ok _ _ Hdummy) as Hsyn.
  split; [|split; [exact Hsyn|]].
  - rewrite load_models_eq, Hdvc, Hdisk. exact Hdummy.
  - destruct Hsyn as (rf & sc & ->). simpl. split; [reflexivity|].
    eexists _, _. repeat split.
Qed.

(** C2: a run of the loader that completes, at construction or as a
    reload from any earlier state, leaves both halves set with
    [model_available = True] or both unset with [model_available = False],
    whatever strategy failed on the way and wherever it failed.  A bundle
    that is fully present, as it is after construction, stays so through
    any later run of [load_models], even one that ends in an exception. *)
Theorem completed_load_is_never_partial :
  (forall s', init env = (Ok tt, s') -> bundle_invariant s') /\
  (forall s s', load_models env s = (Ok tt, s') -> bundle_invariant s') /\
  (forall s r s',
     fully_present s -> load_models env s = (r, s') -> bundle_invariant s').
Proof.
  split; [|split].
  - intros s'. unfold init. intros Hload. left. eapply load_models_ok, Hload.
  - intros s s' Hload. left. eapply load_models_ok, Hload.
  - intros s r s' Hpresent Hreload. left.
    eapply load_models_keeps_present; [exact Hpresent | exact Hreload].
Qed.

End WithArtifacts.
End LoaderProps.

Module LoaderExamples.
Import Py Serving MainIntelligent Bundle Samples LoaderProps.

Lemma load_models_falls_back_witness :
  load_models sklearn_host fresh_loader = (Ok tt, fallback_loader) /\
  synthetic_fallback fallback_loader.
Proof.
  destruct (load_models_falls_back sklearn_host fresh_loader
              (Exn ModuleNotFoundError "No module named 'dvc'") fresh_loader
              (Exn FileNotFoundError "Model files not found on disk")
              fresh_loader fallback_loader)
    as (Hrun & Hsyn & _); [reflexivity..|].
  split; [exact Hrun | exact Hsyn].
Defined.

(** C1 as stated fails: on a host without joblib and without scikit-learn
    the first two strategies raise, and so does the third; [load_models]
    raises to its caller and nothing is loaded. *)
Lemma load_models_raises_without_sklearn :
  fst (_load_with_dvc bare_host fresh_loader)
    = Raise (Exn ImportError "joblib not available") /\
  fst (_load_from_disk bare_host fresh_loader)
    = Raise (Exn ImportError "joblib not available") /\
  load_models bare_host fresh_loader
    = (Raise (Exn ModuleNotFoundError "No module named 'sklearn.ensemble'"),
       fresh_loader) /\
  model_available fresh_loader = false.
Proof. repeat split. Qed.

(** The remote strategy fails half way, with the model already stored;
    the run goes on to the fallback, which replaces both halves. *)
Example half_loaded_remote_is_replaced :
  _load_with_dvc half_remote_host fresh_loader
    = (Raise (Exn FileNotFoundError "no such file in the remote store"),
       {| model := Some (Unpickled RemoteVersioned junk);
          preprocessor := None; model_available := false |}) /\
  init half_remote_host = (Ok tt, fallback_loader).
Proof. split; reflexivity. Qed.

Lemma completed_load_is_never_partial_witness :
  init sklearn_host = (Ok tt, fallback_loader) /\
  bundle_invariant fallback_loader.
Proof.
  split; [reflexivity|].
  apply (proj1 (completed_load_is_never_partial sklearn_host) fallback_loader).
  reflexivity.
Defined.

End LoaderExamples.

(** ** The [predict] routes *)

Module ServingProps.
Import Py Serving Bundle RowOrder.

Lemma http_exception_not_2xx code detail :
  (code < 200 \/ 300 <= code)%Z -> is_2xx (http_exception code detail) = false.
Proof. unfold is_2xx, http_exception; simpl. lia. Qed.

Lemma pad_full w r : length r = w -> pad w r = r.
Proof.
  intros <-. unfold pad. rewrite Nat.sub_diag. simpl. apply app_nil_r.
Qed.

Lemma DataFrame_rectangular data : rectangular data -> DataFrame data = data.
Proof.
  unfold rectangular, DataFrame. generalize (width data) as w.
  intros w Hall. induction Hall as [|r data Hr _ IH]; simpl; [reflexivity|].
  now rewrite pad_full, IH.
Qed.

Lemma DataFrame_length data : length (DataFrame data) = length data.
Proof. unfold DataFrame. apply length_map. Qed.

(** The fitted objects of the synthetic fallback work row by row. *)
Lemma scaler_transform_rowwise sc : rowwise (scaler_transform sc) (scale sc).
Proof.
  intros X Y. unfold scaler_transform.
  destruct (check_array _ X); [|discriminate]. now intros [= <-].
Qed.

Lemma forest_predict_rowwise rf : rowwise (forest_predict rf) (classify rf).
Proof.
  intros X Y. unfold forest_predict.
  destruct (check_array _ X); [|discriminate].
  destruct (_ && _); [discriminate|]. now intros [= <-].
Qed.

Lemma rows_preserved_map per_row data :
  rows_preserved per_row data None
    (returns [("prediction", VList (map per_row data))]).
Proof.
  exists (map per_row data). split; [reflexivity|].
  split; [apply length_map|].
  intros i row Hi. change (map per_row data) with (per_row <$> data).
  rewrite list_lookup_fmap. unfold matrix in *. now rewrite Hi.
Qed.

Lemma rows_preserved_500 per_row data e detail :
  rows_preserved per_row data (Some e) (http_exception 500 detail).
Proof.
  split; [reflexivity|]. simpl. now intros content [= <-].
Qed.

Section WithArtifacts.
Context {A : Type} `{Estimator A}.

(** [main.py] raises [MODEL_LOADED] at startup only with both artifacts
    in hand. *)
Lemma startup_loaded_has_both (env : Main.Env A) r g :
  Main.startup env = (r, g) -> Main.MODEL_LOADED g = true ->
  is_Some (Main.MODEL g) /\ is_Some (Main.PREPROCESSOR g).
Proof.
  unfold Main.startup. rewrite PyFacts.try_except_all.
  unfold bind, lift, modify, ret, get.
  repeat match goal with
         | |- context [match ?x with _ => _ end] =>
             match type of x with
             | result _ => destruct x
             end; simpl
         | |- context [if ?x then _ else _] => destruct x; simpl
         end;
    intros [= <- <-]; simpl; try discriminate; intros _; split; eauto.
Qed.

(** C3 (as amended): [main.py] answers a request made while
    [MODEL_LOADED] is false, and [main_intelligent.py] one made while the
    model or the preprocessor is unset, with 503 and never with a 2xx;
    [main_simple.py], which keeps no bundle, answers every request with
    200, with an [error] field when an artifact cannot be loaded. *)
Theorem absent_bundle_is_refused (data : matrix) :
  (forall g : Main.Globals A,
     Main.MODEL_LOADED g = false ->
     status_code (Main.predict_route g data) = 503%Z /\
     is_2xx (Main.predict_route g data) = false) /\
  (forall (env : MainIntelligent.Env A) (l : MainIntelligent.Loader A),
     absent l ->
     status_code (MainIntelligent.predict_route env l data) = 503%Z /\
     is_2xx (MainIntelligent.predict_route env l data) = false) /\
  (forall (joblib_load : string -> result A),
     status_code (MainSimple.predict_route joblib_load data) = 200%Z /\
     forall e,
       joblib_load MainSimple.preprocessor_filename = Raise e ->
       MainSimple.predict_route joblib_load data
         = returns [("error", VStr (exn_str e))]).
Proof.
  split; [|split].
  - intros g Hg. unfold Main.predict_route. rewrite Hg. now split.
  - intros env l Habs. unfold MainIntelligent.predict_route.
    destruct Habs as [-> | Hp].
    + now split.
    + rewrite Hp. destruct (MainIntelligent.model l); now split.
  - intros joblib_load. unfold MainSimple.predict_route. split.
    + now destruct (match joblib_load _ with Ok _ => _ | Raise _ => _ end).
    + intros e He. now rewrite He.
Qed.

(** C8 (as amended): against an available bundle whose [transform] and
    [predict] work row by row, a request with a matrix of k rows is
    answered with 500 and no prediction when the preprocessor raises on
    the rows or the model raises on the preprocessed rows, and otherwise
    with 200 and a list of exactly k entries whose entry i is the
    prediction for row i. *)
Theorem predict_preserves_rows (f : list pyfloat -> list pyfloat)
    (g : list pyfloat -> PyVal) (data : matrix) :
  (forall (st : Main.Globals A) p m,
     Main.MODEL_LOADED st = true ->
     Main.PREPROCESSOR st = Some p -> Main.MODEL st = Some m ->
     rowwise (transform p) f -> rowwise (predict m) g ->
     rows_preserved (fun row => g (f row)) data
       (raised_on (transform p) (predict m) data)
       (Main.predict_route st data)) /\
  (forall (env : MainIntelligent.Env A) (l : MainIntelligent.Loader A) p m,
     MainIntelligent.preprocessor l = Some p ->
     MainIntelligent.model l = Some m ->
     rowwise (MainIntelligent.call_transform p) f ->
     rowwise (MainIntelligent.call_predict m) g ->
     rectangular data ->
     rows_preserved (fun row => g (f row)) data
       (raised_on (MainIntelligent.call_transform p)
          (MainIntelligent.call_predict m) data)
       (MainIntelligent.predict_route env l data)).
Proof.
  split.
  - intros st p m Hloaded Hp Hm Hf Hg.
    unfold Main.predict_route, raised_on. rewrite Hloaded, Hp, Hm. simpl.
    destruct (transform p data) as [Y|e] eqn:Ht;
      [|apply rows_preserved_500].
    destruct (predict m Y) as [L|e] eqn:Hpr; [|apply rows_preserved_500].
    rewrite (Hg _ _ Hpr), (Hf _ _ Ht), map_map.
    apply rows_preserved_map.
  - intros env l p m Hp Hm Hf Hg Hrect.
    unfold MainIntelligent.predict_route, raised_on. rewrite Hp, Hm.
    replace (if MainIntelligent.PANDAS_AVAILABLE env
             then DataFrame data else data) with data
      by (destruct (MainIntelligent.PANDAS_AVAILABLE env);
          [now rewrite DataFrame_rectangular | reflexivity]).
    destruct (MainIntelligent.call_transform p data) as [Y|e] eqn:Ht;
      [|apply rows_preserved_500].
    destruct (MainIntelligent.call_predict m Y) as [L|e] eqn:Hpr;
      [|apply rows_preserved_500].
    rewrite (Hg _ _ Hpr), (Hf _ _ Ht), map_map.
    apply rows_preserved_map.
Qed.

End WithArtifacts.
End ServingProps.

Module ServingExamples.
Import Py Serving Bundle RowOrder Samples ServingProps.

Lemma absent_bundle_is_refused_witness :
  status_code (Main.predict_route nothing_loaded two_rows) = 503%Z /\
  status_code (MainIntelligent.predict_route sklearn_host fresh_loader two_rows)
    = 503%Z /\
  MainSimple.predict_route no_artifacts two_rows
    = returns [("error",
                VStr "[Errno 2] No such file or directory: 'models/preprocessor.pkl'")].
Proof.
  split; [|split].
  - apply (proj1 (absent_bundle_is_refused (A := Fitted) two_rows)).
    reflexivity.
  - apply (proj1 (proj2 (absent_bundle_is_refused (A := Junk) two_rows))).
    left. reflexivity.
  - apply (proj2 (proj2 (proj2 (absent_bundle_is_refused (A := Fitted)
                                  two_rows)) no_artifacts)
             (Exn FileNotFoundError
                "[Errno 2] No such file or directory: 'models/preprocessor.pkl'")).
    reflexivity.
Defined.

(** C3 as stated fails on [main_simple.py]: with no artifact to load, the
    route answers 200, a 2xx, not 503. *)
Lemma main_simple_answers_200_without_artifacts :
  status_code (MainSimple.predict_route no_artifacts two_rows) = 200%Z /\
  is_2xx (MainSimple.predict_route no_artifacts two_rows) = true.
Proof. split; reflexivity. Qed.

Lemma predict_preserves_rows_witness :
  rows_preserved (classify sample_forest) two_rows None
    (Main.predict_route both_loaded two_rows) /\
  rows_preserved (classify sample_forest) two_rows None
    (MainIntelligent.predict_route sklearn_host fallback_loader two_rows) /\
  rows_preserved (classify sample_forest) narrow_row
    (Some (Exn ValueError "X has a different number of features than at fit"))
    (MainIntelligent.predict_route sklearn_host fallback_loader narrow_row).
Proof.
  split; [|split].
  - exact (proj1 (predict_preserves_rows (A := Fitted)
                    (scale sample_scaler) (classify sample_forest) two_rows)
             both_loaded (FittedScaler sample_scaler)
             (FittedForest sample_forest) eq_refl eq_refl eq_refl
             (scaler_transform_rowwise sample_scaler)
             (forest_predict_rowwise sample_forest)).
  - assert (Hrect : rectangular two_rows) by repeat constructor.
    exact (proj2 (predict_preserves_rows (A := Junk)
                    (scale sample_scaler) (classify sample_forest) two_rows)
             sklearn_host fallback_loader
             (MainIntelligent.IntelligentPreprocessor sample_scaler)
             (MainIntelligent.IntelligentFallbackModel sample_forest)
             eq_refl eq_refl
             (scaler_transform_rowwise sample_scaler)
             (forest_predict_rowwise sample_forest) Hrect).
  - assert (Hrect : rectangular narrow_row) by repeat constructor.
    exact (proj2 (predict_preserves_rows (A := Junk)
                    (scale sample_scaler) (classify sample_forest) narrow_row)
             sklearn_host fallback_loader
             (MainIntelligent.IntelligentPreprocessor sample_scaler)
             (MainIntelligent.IntelligentFallbackModel sample_forest)
             eq_refl eq_refl
             (scaler_transform_rowwise sample_scaler)
             (forest_predict_rowwise sample_forest) Hrect).
Defined.

Example two_rows_two_predictions :
  MainIntelligent.predict_route sklearn_host fallback_loader two_rows
    = returns [("prediction", VList [VInt 1; VInt 0])].
Proof. reflexivity. Qed.

(** C8 as stated fails, in two ways.  The synthetic fallback is fitted on
    three columns, and a request with one row of two numbers against it
    is answered with 500 and no prediction list at all.  And the routes
    pass on whatever the loaded artifacts return: against a loaded
    pipeline that is not row-wise, here one that drops a row, a request
    of two rows is answered with 200 and a list of one entry. *)
Lemma predict_does_not_always_preserve_rows :
  (Bundle.fully_present fallback_loader /\
   length narrow_row = 1%nat /\
   MainIntelligent.predict_route sklearn_host fallback_loader narrow_row
     = http_exception 500 "X has a different number of features than at fit")
  /\
  (Main.MODEL_LOADED dropper_loaded = true /\
   length two_rows = 2%nat /\
   Main.predict_route dropper_loaded two_rows
     = returns [("prediction", VList [VInt 1])] /\
   ~ rowwise (transform dropper) (fun row => row)).
Proof.
  split.
  - split; [|split]; [|reflexivity..].
    repeat split; simpl; eauto.
  - split; [reflexivity|]. split; [reflexivity|]. split; [reflexivity|].
    intros Hrowwise. specialize (Hrowwise two_rows _ eq_refl).
    discriminate Hrowwise.
Qed.

End ServingExamples.

(** ** The capability probes of [src/intelligent_config.py] *)

Module ProbeProps.
Import Py IntelligentConfig ProbeSpec PyFacts.

(** Unfolds the monad down to functions on states. *)
Ltac run :=
  unfold host, host_may_fail in *;
  unfold try_except, bind, ret, raise, lift, modify, get, tick,
    self_base_path in *;
  simpl in *.

Lemma called_process_error_caught args rc :
  caught (called_process_error args rc) subprocess_errors = true.
Proof. reflexivity. Qed.

Section WithEnv.
Variable env : Env.

(** [subprocess.run] asks the host once. *)
Lemma subprocess_run_eq args check timeout s :
  subprocess_run env args check timeout s =
  (match spawn env (clock s) args timeout with
   | Ok cp => if check && negb (returncode cp =? 0)%Z
              then Raise (called_process_error args (returncode cp))
              else Ok cp
   | Raise e => Raise e
   end, set_clock (S (clock s)) s).
Proof.
  unfold subprocess_run. run.
  destruct (spawn env (clock s) args timeout) as [cp|e]; [|reflexivity].
  now destruct (check && _).
Qed.

(** [check_command_availability] in one step: the tool answers, or the
    failure is one of the three the [except] clause names, or it is not. *)
Lemma check_command_availability_eq command s :
  check_command_availability env command s =
  (match spawn env (clock s) [command; "--version"] (Some 5%Z) with
   | Ok cp => Ok (returncode cp =? 0)%Z
   | Raise e => if caught e subprocess_errors then Ok false else Raise e
   end, set_clock (S (clock s)) s).
Proof.
  unfold check_command_availability, try_except, bind.
  rewrite subprocess_run_eq.
  destruct (spawn env (clock s) _ _) as [cp|e].
  - cbn [andb]. destruct (returncode cp =? 0)%Z; cbn [negb]; [reflexivity|].
    now rewrite called_process_error_caught.
  - now destruct (caught e subprocess_errors).
Qed.

Lemma check_torch_cuda_eq s :
  fst (check_torch_cuda env s) =
  match torch env with
  | TorchWithCuda => cuda_is_available env (clock s)
  | _ => Ok false
  end.
Proof. unfold check_torch_cuda. destruct (torch env); reflexivity. Qed.

(** [detect_gpu_availability]: [nvidia-smi] decides when it runs; when it
    fails as provided for, the torch check decides. *)
Lemma detect_gpu_availability_eq s :
  fst (detect_gpu_availability env s) =
  match spawn env (clock s) ["nvidia-smi"] (Some 5%Z) with
  | Ok cp => if (returncode cp =? 0)%Z then Ok true
             else torch_answer env (S (clock s))
  | Raise e => if caught e subprocess_errors
               then torch_answer env (S (clock s)) else Raise e
  end.
Proof.
  assert (Htorch : forall s',
    clock s' = S (clock s) ->
    fst ((r' <- try_except (b <- check_torch_cuda env ;; ret (Some b))
                  [ImportError] (fun _ => ret None) ;;
          match r' with Some b => ret b | None => ret false end)%py s')
    = torch_answer env (S (clock s))).
  { intros s' Hs'. unfold torch_answer, check_torch_cuda.
    destruct (torch env); run; try reflexivity.
    rewrite Hs'. destruct (cuda_is_available env _) as [b|e]; [reflexivity|].
    now destruct (caught e [ImportError]). }
  unfold detect_gpu_availability.
  unfold bind at 1. unfold try_except at 1. unfold bind at 1.
  rewrite subprocess_run_eq.
  destruct (spawn env (clock s) _ _) as [cp|e]; simpl.
  - destruct (returncode cp =? 0)%Z; simpl; [reflexivity|].
    now apply Htorch.
  - destruct (caught e subprocess_errors); simpl; [|reflexivity].
    now apply Htorch.
Qed.

(** An uncached [check_module_availability] asks the host once and
    records the answer. *)
Lemma check_module_availability_fresh name s :
  available_modules s !! name = None ->
  check_module_availability env name s =
  match import_module env (clock s) name with
  | None => (Ok true, set_available name true (set_clock (S (clock s)) s))
  | Some e =>
      if caught e [ImportError]
      then (Ok false, set_available name false (set_clock (S (clock s)) s))
      else (Raise e, set_clock (S (clock s)) s)
  end.
Proof.
  intros Hmiss. unfold check_module_availability, py_import. run.
  rewrite Hmiss.
  destruct (import_module env (clock s) name) as [e|]; [|reflexivity].
  now destruct (caught e [ImportError]).
Qed.

Lemma check_module_availability_cached name b s :
  available_modules s !! name = Some b ->
  check_module_availability env name s = (Ok b, s).
Proof.
  intros Hhit. unfold check_module_availability. run. now rewrite Hhit.
Qed.

(** C4 (as amended): a probed command that exits with a non-zero status,
    cannot be found or times out makes [check_command_availability] return
    false; an [ImportError] makes [check_module_availability] return
    false; such a failure of [nvidia-smi] makes the GPU query return what
    the torch check says, which is false when torch or [torch.cuda] is
    missing or the check raises [ImportError].  None of these exceptions
    leaves the check. *)
Theorem checks_fail_closed s :
  (forall command,
     probe_failed env (clock s) [command; "--version"] (Some 5%Z) = true ->
     fst (check_command_availability env command s) = Ok false) /\
  (forall name e,
     available_modules s !! name = None ->
     import_module env (clock s) name = Some e ->
     caught e [ImportError] = true ->
     fst (check_module_availability env name s) = Ok false) /\
  (probe_failed env (clock s) ["nvidia-smi"] (Some 5%Z) = true ->
     fst (detect_gpu_availability env s) = torch_answer env (S (clock s)) /\
     (torch env <> TorchWithCuda ->
        fst (detect_gpu_availability env s) = Ok false) /\
     (forall e, cuda_is_available env (S (clock s)) = Raise e ->
        caught e [ImportError] = true ->
        fst (detect_gpu_availability env s) = Ok false)).
Proof.
  split; [|split].
  - intros command. unfold probe_failed.
    rewrite check_command_availability_eq.
    destruct (spawn env (clock s) _ _) as [cp|e]; simpl.
    + now intros ->%negb_true_iff.
    + now intros ->.
  - intros name e Hmiss Himp Hcaught.
    now rewrite check_module_availability_fresh, Himp, Hcaught.
  - unfold probe_failed. intros Hfail.
    assert (Hgpu : fst (detect_gpu_availability env s)
                   = torch_answer env (S (clock s))).
    { rewrite detect_gpu_availability_eq.
      destruct (spawn env (clock s) _ _) as [cp|e].
      - apply negb_true_iff in Hfail. now rewrite Hfail.
      - now rewrite Hfail. }
    rewrite Hgpu. split; [reflexivity|]. unfold torch_answer. split.
    + now destruct (torch env).
    + intros e He Hcaught. destruct (torch env); try reflexivity.
      now rewrite He, Hcaught.
Qed.

End WithEnv.
End ProbeProps.

(** ** Port probing *)

Module PortProps.
Import Py IntelligentConfig ProbeSpec PyFacts ProbeProps.

Lemma set_clock_same s : set_clock (clock s) s = s.
Proof. now destruct s. Qed.

Lemma set_clock_twice n m s : set_clock n (set_clock m s) = set_clock n s.
Proof. reflexivity. Qed.

Lemma range_nil a b : (b <= a)%Z -> range a b = [].
Proof.
  intros Hle. unfold range. now replace (Z.to_nat (b - a)) with 0%nat by lia.
Qed.

Lemma range_cons a b : (a < b)%Z -> range a b = a :: range (a + 1) b.
Proof.
  intros Hlt. unfold range.
  replace (Z.to_nat (b - a)) with (S (Z.to_nat (b - (a + 1)))) by lia.
  cbn [seq map]. f_equal; [lia|].
  rewrite <- seq_shift, map_map. apply map_ext. intros i. lia.
Qed.

(** Induction along [range a b]. *)
Lemma range_ind (P : Z -> list Z -> Prop) b :
  (forall a, (b <= a)%Z -> P a []) ->
  (forall a, (a < b)%Z -> P (a + 1)%Z (range (a + 1) b) ->
             P a (a :: range (a + 1) b)) ->
  forall a, P a (range a b).
Proof.
  intros Hnil Hcons a.
  remember (Z.to_nat (b - a)) as k eqn:Hk. revert a Hk.
  induction k as [|k IH]; intros a Hk.
  - rewrite range_nil by lia. apply Hnil. lia.
  - rewrite range_cons by lia. apply Hcons; [lia|]. apply IH. lia.
Qed.

Section WithEnv.
Variable env : Env.

(** The bound ports of a scan are ports of the scan, each taken at the
    moment its turn came, and they come out in ascending order. *)
Lemma elem_of_bound_from b : forall a t q,
  q ∈ bound_from env t (range a b) <->
  (a <= q < b)%Z /\ can_bind env (t + Z.to_nat (q - a)) q = true.
Proof.
  intros a. pattern a, (range a b). apply range_ind; clear a.
  - intros a Hle t q. simpl. rewrite elem_of_nil. lia.
  - intros a Hlt IH t q. simpl.
    assert (Hhere : q = a ->
      can_bind env (t + Z.to_nat (q - a)) q = can_bind env t a).
    { intros ->. now replace (t + Z.to_nat (a - a))%nat with t by lia. }
    assert (Hthere : (a + 1 <= q)%Z ->
      (S t + Z.to_nat (q - (a + 1)))%nat = (t + Z.to_nat (q - a))%nat) by lia.
    destruct (can_bind env t a) eqn:Hbind.
    + rewrite elem_of_cons, IH. split.
      * intros [-> | [Hq Hb]].
        -- split; [lia|]. now rewrite Hhere.
        -- rewrite Hthere in Hb by lia. split; [lia | exact Hb].
      * intros [Hq Hb]. destruct (decide (q = a)) as [->|Hne]; [now left|].
        right. split; [lia|]. now rewrite Hthere by lia.
    + rewrite IH. split.
      * intros [Hq Hb]. rewrite Hthere in Hb by lia. split; [lia | exact Hb].
      * intros [Hq Hb]. destruct (decide (q = a)) as [->|Hne].
        -- rewrite Hhere in Hb by reflexivity. congruence.
        -- split; [lia|]. now rewrite Hthere by lia.
Qed.

Lemma bound_from_ascending b : forall a t,
  StronglySorted Z.lt (bound_from env t (range a b)).
Proof.
  intros a. pattern a, (range a b). apply range_ind; clear a.
  - intros a _ t. constructor.
  - intros a Hlt IH t. simpl. destruct (can_bind env t a); [|apply IH].
    constructor; [apply IH|].
    apply Forall_forall. intros q Hq%elem_of_bound_from. lia.
Qed.

(** One turn of the loop on a port number. *)
Lemma socket_bind_eq q s :
  (0 <= q <= 65535)%Z ->
  exists e,
    caught e [OSError] = true /\
    socket_bind env q s =
    (if can_bind env (clock s) q then Ok tt else Raise e,
     set_clock (S (clock s)) s).
Proof.
  intros Hq. unfold socket_bind, can_bind. run.
  replace ((q <? 0)%Z || (65535 <? q)%Z) with false by lia.
  destruct (sockets_available env (clock s)); simpl.
  - exists (Exn OSError "[Errno 98] Address already in use").
    split; [reflexivity|]. now destruct (bindable env (clock s) q).
  - exists (Exn OSError "[Errno 24] Too many open files").
    split; reflexivity.
Qed.

(** One turn of the loop of [get_available_ports]. *)
Lemma turn_eq q acc s :
  (0 <= q <= 65535)%Z ->
  try_except (socket_bind env q ;;; ret (append acc q))%py
    [OSError] (fun _ => ret acc) s
  = (Ok (if can_bind env (clock s) q then append acc q else acc),
     set_clock (S (clock s)) s).
Proof.
  intros Hq. unfold try_except, bind.
  destruct (socket_bind_eq q s Hq) as (e & Hcaught & ->).
  destruct (can_bind env (clock s) q); [reflexivity|]. now rewrite Hcaught.
Qed.

(** The loop of [get_available_ports] over port numbers. *)
Lemma scan_eq ports : forall acc s,
  Forall (fun q => (0 <= q <= 65535)%Z) ports ->
  for_each ports acc
    (fun port available_ports =>
       try_except (socket_bind env port ;;; ret (append available_ports port))%py
         [OSError] (fun _ => ret available_ports)) s
  = (Ok (acc ++ bound_from env (clock s) ports)%list,
     set_clock (clock s + length ports) s).
Proof.
  induction ports as [|q ports IH]; intros acc s Hvalid.
  - simpl. unfold ret. rewrite app_nil_r, Nat.add_0_r.
    now rewrite set_clock_same.
  - inversion_clear Hvalid as [|? ? Hq Hrest].
    cbn [for_each bound_from].
    erewrite bind_ok by (apply turn_eq; exact Hq).
    rewrite IH by exact Hrest.
    change (clock (set_clock (S (clock s)) s)) with (S (clock s)).
    rewrite set_clock_twice. cbn [length]. rewrite Nat.add_succ_r.
    destruct (can_bind env (clock s) q); [|reflexivity].
    unfold append. now rewrite <- app_assoc.
Qed.

Lemma range_valid p n :
  valid_ports p n -> Forall (fun q => (0 <= q <= 65535)%Z) (range p (p + n)).
Proof.
  intros Hvalid. apply Forall_forall. intros q Hq. apply Hvalid.
  unfold range in Hq. apply list_elem_of_fmap in Hq as (i & -> & Hi).
  apply elem_of_seq in Hi. lia.
Qed.

(** C5 (as amended): when every port of [p, p+n) is a port number (0 to
    65535), [get_available_ports p n] returns exactly the ports of
    [p, p+n) that could be bound, in ascending order, and the list [[p]]
    alone when none could; the result is never empty. *)
Theorem get_available_ports_spec s p n :
  valid_ports p n ->
  let bound := bound_from env (clock s) (range p (p + n)) in
  fst (get_available_ports env p n s)
    = Ok (if bool_decide (bound = []) then [p] else bound) /\
  (forall q, q ∈ bound <->
             (p <= q < p + n)%Z /\
             can_bind env (clock s + Z.to_nat (q - p)) q = true) /\
  StronglySorted Z.lt bound /\
  (if bool_decide (bound = []) then [p] else bound) <> [].
Proof.
  intros Hvalid bound. split; [|split; [|split]].
  - unfold get_available_ports, bind.
    rewrite scan_eq by now apply range_valid. reflexivity.
  - intros q. apply elem_of_bound_from.
  - apply bound_from_ascending.
  - case_bool_decide; [discriminate | assumption].
Qed.

End WithEnv.
End PortProps.

(** ** Choosing the LLM backend model *)

Module OllamaProps.
Import Py IntelligentConfig ProbeSpec PyFacts ProbeProps.

Section WithEnv.
Variable env : Env.

(** One turn of the loop over [fallback_models]. *)
Lemma show_turn_eq model s :
  try_except
    (result <- subprocess_run env ["ollama"; "show"; model] false (Some 3%Z) ;;
     ret (if (returncode result =? 0)%Z then Some model else None))%py
    subprocess_errors (fun _ => ret None) s
  = (match spawn env (clock s) ["ollama"; "show"; model] (Some 3%Z) with
     | Ok cp => Ok (if (returncode cp =? 0)%Z then Some model else None)
     | Raise e => if caught e subprocess_errors then Ok None else Raise e
     end, set_clock (S (clock s)) s).
Proof.
  unfold try_except, bind. rewrite subprocess_run_eq.
  destruct (spawn env (clock s) _ _) as [cp|e]; [reflexivity|].
  now destruct (caught e subprocess_errors).
Qed.

(** The loop is the walk along the preference list. *)
Lemma probe_fallback_models_walk models : forall s,
  walk_undisturbed env (clock s) models = true ->
  fst (probe_fallback_models env models s)
    = Ok (first_confirmed env (clock s) models).
Proof.
  induction models as [|m models IH]; intros s Hwalk; [reflexivity|].
  cbn [probe_fallback_models first_confirmed walk_undisturbed] in *.
  unfold bind at 1. rewrite show_turn_eq. unfold show_confirms.
  destruct (spawn env (clock s) _ _) as [cp|e].
  - destruct (returncode cp =? 0)%Z; [reflexivity|].
    cbn [orb] in Hwalk. now rewrite IH.
  - apply andb_true_iff in Hwalk as [-> Hwalk]. now rewrite IH.
Qed.

(** The first part of [detect_available_ollama_model]. *)
Lemma list_turn_eq s :
  try_except
    (result <- subprocess_run env ["ollama"; "list"] false (Some 5%Z) ;;
     ret (first_listed_model result))%py
    subprocess_errors (fun _ => ret None) s
  = (match spawn env (clock s) ["ollama"; "list"] (Some 5%Z) with
     | Ok cp => Ok (first_listed_model cp)
     | Raise e => if caught e subprocess_errors then Ok None else Raise e
     end, set_clock (S (clock s)) s).
Proof.
  unfold try_except, bind. rewrite subprocess_run_eq.
  destruct (spawn env (clock s) _ _) as [cp|e]; [reflexivity|].
  now destruct (caught e subprocess_errors).
Qed.

(** C6 (as amended): with the LLM integration enabled, the model name is
    the one [ollama list] names first when that command exits with 0 and
    prints a line after its header ([phi3:mini] if that line is blank);
    when [ollama list] names nothing, it is the first entry of the fixed
    preference list that [ollama show] confirms, and the first element of
    that list, [phi3:mini], when none is confirmed. *)
Theorem ollama_model_selection s :
  (forall cp name,
     spawn env (clock s) ["ollama"; "list"] (Some 5%Z) = Ok cp ->
     first_listed_model cp = Some name ->
     fst (detect_available_ollama_model env s) = Ok name) /\
  (nothing_listed env (clock s) = true ->
   walk_undisturbed env (S (clock s)) fallback_models = true ->
   fst (detect_available_ollama_model env s)
     = Ok (default (hd "" fallback_models)
             (first_confirmed env (S (clock s)) fallback_models))) /\
  (forall s1 name s2,
     check_command_availability env "ollama" s = (Ok true, s1) ->
     detect_available_ollama_model env s1 = (Ok name, s2) ->
     exists config,
       get_llm_config env s = (Ok config, s2) /\
       dict_get "enabled" config = Some (VBool true) /\
       dict_get "model" config = Some (VStr name)).
Proof.
  split; [|split].
  - intros cp name Hlist Hname. unfold detect_available_ollama_model.
    unfold bind at 1. now rewrite list_turn_eq, Hlist, Hname.
  - unfold nothing_listed. intros Hlist Hwalk.
    unfold detect_available_ollama_model. unfold bind at 1.
    rewrite list_turn_eq.
    assert (Hrest : fst ((r' <- probe_fallback_models env fallback_models ;;
                          match r' with
                          | Some model => ret model
                          | None => ret "phi3:mini"
                          end)%py (set_clock (S (clock s)) s))
                    = Ok (default (hd "" fallback_models)
                            (first_confirmed env (S (clock s)) fallback_models))).
    { pose proof (probe_fallback_models_walk fallback_models
                    (set_clock (S (clock s)) s) Hwalk) as Hprobe.
      unfold bind.
      destruct (probe_fallback_models env fallback_models _) as [r s'].
      cbn [fst] in Hprobe. rewrite Hprobe. cbn [clock set_clock].
      now destruct (first_confirmed env _ fallback_models). }
    destruct (spawn env (clock s) _ _) as [cp|e].
    + apply bool_decide_eq_true in Hlist. now rewrite Hlist.
    + now rewrite Hlist.
  - intros s1 name s2 Hcmd Hdetect. unfold get_llm_config.
    erewrite bind_ok by exact Hcmd.
    erewrite bind_ok by exact Hdetect.
    eexists. split; [reflexivity|]. now split.
Qed.

End WithEnv.
End OllamaProps.

(** ** The configuration synthesizer *)

Module ConfigProps.
Import Py IntelligentConfig ProbeSpec PyFacts ProbeProps.

Section Later.
Variable env : Env.

Lemma later_refl s : later env s s.
Proof. split; [reflexivity|]. intros name. now left. Qed.

Lemma later_trans s1 s2 s3 :
  later env s1 s2 -> later env s2 s3 -> later env s1 s3.
Proof.
  intros [Hb12 H12] [Hb23 H23]. split; [congruence|]. intros name.
  destruct (H12 name) as [E12 | (N1 & b & E2 & Hb)],
           (H23 name) as [E23 | (N2 & b' & E3 & Hb')].
  - left. congruence.
  - right. split; [congruence|]. eauto.
  - right. split; [exact N1|]. exists b. split; [congruence | exact Hb].
  - congruence.
Qed.

(** The relation looks at the instance only, not at the clock or the
    file system. *)
Lemma later_same_instance s1 s2 s1' s2' :
  base_path s1' = base_path s1 ->
  available_modules s1' = available_modules s1 ->
  base_path s2' = base_path s2 ->
  available_modules s2' = available_modules s2 ->
  later env s1 s2 -> later env s1' s2'.
Proof.
  intros Hb1 Hm1 Hb2 Hm2 [Hb H]. split; [congruence|].
  intros name. rewrite Hm1, Hm2. apply H.
Qed.

Lemma steady_ext {A} (c c' : M State A) :
  (forall s, c s = c' s) -> steady env c' -> steady env c.
Proof.
  intros Heq [Hext Hsim]. split.
  - intros s. rewrite Heq. apply Hext.
  - intros s s' Hl. rewrite !Heq. now apply Hsim.
Qed.

Lemma steady_ret {A} (a : A) : steady env (ret a).
Proof. split; [intros s; apply later_refl | intros s s' Hl; now split]. Qed.

Lemma steady_raise {A} e : steady env (@raise State A e).
Proof. split; [intros s; apply later_refl | intros s s' Hl; now split]. Qed.

Lemma steady_lift {A} (r : result A) : steady env (lift r).
Proof. split; [intros s; apply later_refl | intros s s' Hl; now split]. Qed.

Lemma steady_bind {A B} (c : M State A) (k : A -> M State B) :
  steady env c -> (forall a, steady env (k a)) -> steady env (bind c k).
Proof.
  intros [Hext Hsim] Hk. split.
  - intros s. unfold bind. specialize (Hext s).
    destruct (c s) as [[a|e] s1]; [|exact Hext].
    eapply later_trans; [exact Hext|]. apply (Hk a).
  - intros s s' Hl. unfold bind. specialize (Hsim s s' Hl).
    destruct (c s) as [[a|e] s1], (c s') as [[a'|e'] s1'];
      cbn [fst snd] in Hsim; destruct Hsim as [Heq Hl1];
      try discriminate; injection Heq as <-.
    + now apply (Hk a).
    + now split.
Qed.

Lemma steady_try {A} (body : M State A) classes (h : exn -> M State A) :
  steady env body -> (forall e, steady env (h e)) ->
  steady env (try_except body classes h).
Proof.
  intros [Hext Hsim] Hh. split.
  - intros s. unfold try_except. specialize (Hext s).
    destruct (body s) as [[a|e] s1]; [exact Hext|].
    destruct (caught e classes); [|exact Hext].
    eapply later_trans; [exact Hext|]. apply (Hh e).
  - intros s s' Hl. unfold try_except. specialize (Hsim s s' Hl).
    destruct (body s) as [[a|e] s1], (body s') as [[a'|e'] s1'];
      cbn [fst snd] in Hsim; destruct Hsim as [Heq Hl1];
      try discriminate; injection Heq as <-.
    + now split.
    + destruct (caught e classes); [now apply (Hh e) | now split].
Qed.

Lemma steady_for_each {A B} (l : list A) (body : A -> B -> M State B) :
  (forall x acc, steady env (body x acc)) ->
  forall acc, steady env (for_each l acc body).
Proof.
  intros Hbody. induction l as [|x l IH]; intros acc; cbn [for_each].
  - apply steady_ret.
  - apply steady_bind; [apply Hbody | exact IH].
Qed.

Lemma steady_self_base_path : steady env self_base_path.
Proof.
  split; [intros s; apply later_refl|].
  intros s s' Hl. split; [|exact Hl]. unfold self_base_path; simpl.
  now destruct Hl as [-> _].
Qed.

(** A question whose answer does not depend on the moment. *)
Lemma steady_host {A} (f : nat -> result A) :
  (forall t, f t = f 0%nat) -> steady env (host f).
Proof.
  intros Hf. split.
  - intros s. unfold host. run.
    now apply later_same_instance with (s1 := s) (s2 := s), later_refl.
  - intros s s' Hl. unfold host. run. split.
    + now rewrite (Hf (clock s)), (Hf (clock s')).
    + now apply later_same_instance with (s1 := s) (s2 := s').
Qed.

Lemma steady_host_may_fail (f : nat -> option exn) :
  (forall t, f t = f 0%nat) -> steady env (host_may_fail f).
Proof.
  intros Hf. split.
  - intros s. unfold host_may_fail. run.
    destruct (f (clock s)); simpl;
      now apply later_same_instance with (s1 := s) (s2 := s), later_refl.
  - intros s s' Hl. unfold host_may_fail. run.
    rewrite (Hf (clock s)), (Hf (clock s')).
    destruct (f 0%nat); simpl; (split; [reflexivity|]);
      now apply later_same_instance with (s1 := s) (s2 := s').
Qed.

Lemma steady_add_dirs ps : steady env (modify (add_dirs ps)).
Proof.
  split.
  - intros s.
    now apply later_same_instance with (s1 := s) (s2 := s), later_refl.
  - intros s s' Hl. split; [reflexivity|].
    now apply later_same_instance with (s1 := s) (s2 := s').
Qed.

End Later.

Section Stationary.
Variable env : Env.
Hypothesis Hfixed : stationary env.

Lemma later_learn s name b n :
  available_modules s !! name = None -> fresh_answer env name = Ok b ->
  later env s (set_available name b (set_clock n s)).
Proof.
  intros Hmiss Hans. split; [reflexivity|]. intros name'. simpl.
  destruct (decide (name = name')) as [<-|Hne].
  - right. split; [exact Hmiss|]. exists b. now rewrite lookup_insert_eq.
  - left. now rewrite lookup_insert_ne.
Qed.

Lemma later_learn_both s s' name b n n' :
  later env s s' ->
  later env (set_available name b (set_clock n s))
            (set_available name b (set_clock n' s')).
Proof.
  intros [Hb H]. split; [exact Hb|]. intros name'. simpl.
  destruct (decide (name = name')) as [<-|Hne].
  - left. now rewrite !lookup_insert_eq.
  - rewrite !lookup_insert_ne by exact Hne. apply H.
Qed.

Lemma later_catch_up s s' name b n :
  later env s s' -> available_modules s' !! name = Some b ->
  later env (set_available name b (set_clock n s)) s'.
Proof.
  intros [Hb H] Hhit. split; [exact Hb|]. intros name'. simpl.
  destruct (decide (name = name')) as [<-|Hne].
  - left. now rewrite lookup_insert_eq.
  - rewrite lookup_insert_ne by exact Hne. apply H.
Qed.

Lemma steady_check_module_availability name :
  steady env (check_module_availability env name).
Proof.
  split.
  - intros s. destruct (available_modules s !! name) as [b|] eqn:E.
    + rewrite (check_module_availability_cached _ _ _ _ E). apply later_refl.
    + rewrite (check_module_availability_fresh _ _ _ E).
      pose proof (import_module_fixed _ Hfixed (clock s) name) as Hnow.
      destruct (import_module env (clock s) name) as [e|] eqn:I.
      * destruct (caught e [ImportError]) eqn:C; simpl.
        -- apply later_learn; [exact E|]. unfold fresh_answer.
           now rewrite <- Hnow, C.
        -- now apply later_same_instance with (s1 := s) (s2 := s), later_refl.
      * simpl. apply later_learn; [exact E|]. unfold fresh_answer.
        now rewrite <- Hnow.
  - intros s s' Hl. pose proof Hl as [_ H].
    pose proof (import_module_fixed _ Hfixed (clock s) name) as Hnow.
    pose proof (import_module_fixed _ Hfixed (clock s') name) as Hnow'.
    destruct (available_modules s !! name) as [b|] eqn:E.
    + assert (E' : available_modules s' !! name = Some b).
      { destruct (H name) as [Eq | (N & _)]; congruence. }
      rewrite (check_module_availability_cached _ _ _ _ E),
              (check_module_availability_cached _ _ _ _ E').
      now split.
    + rewrite (check_module_availability_fresh _ _ _ E), Hnow.
      destruct (H name) as [Eq | (_ & b & E' & Hb)].
      * rewrite E in Eq.
        rewrite (check_module_availability_fresh _ _ _ Eq), Hnow'.
        destruct (import_module env 0 name) as [e|].
        -- destruct (caught e [ImportError]); simpl;
             (split; [reflexivity|]);
             [now apply later_learn_both
             | now apply later_same_instance with (s1 := s) (s2 := s')].
        -- simpl. split; [reflexivity|]. now apply later_learn_both.
      * rewrite (check_module_availability_cached _ _ _ _ E').
        unfold fresh_answer in Hb.
        destruct (import_module env 0 name) as [e|].
        -- destruct (caught e [ImportError]); [|discriminate].
           injection Hb as <-. simpl. split; [reflexivity|].
           now apply later_catch_up.
        -- injection Hb as <-. simpl. split; [reflexivity|].
           now apply later_catch_up.
Qed.

Lemma steady_subprocess_run args check timeout :
  steady env (subprocess_run env args check timeout).
Proof.
  unfold subprocess_run. apply steady_bind.
  - apply steady_host. intros t. apply (spawn_fixed _ Hfixed).
  - intros cp. destruct (check && _); [apply steady_raise | apply steady_ret].
Qed.

Lemma steady_check_command_availability command :
  steady env (check_command_availability env command).
Proof.
  unfold check_command_availability. apply steady_try.
  - apply steady_bind; [apply steady_subprocess_run|].
    intros _. apply steady_ret.
  - intros _. apply steady_ret.
Qed.

Lemma steady_check_torch_cuda : steady env (check_torch_cuda env).
Proof.
  unfold check_torch_cuda. destruct (torch env); try apply steady_ret.
  apply steady_host. intros t. apply (cuda_fixed _ Hfixed).
Qed.

Lemma steady_detect_gpu_availability : steady env (detect_gpu_availability env).
Proof.
  unfold detect_gpu_availability. apply steady_bind.
  - apply steady_try.
    + apply steady_bind; [apply steady_subprocess_run|].
      intros _. apply steady_ret.
    + intros _. apply steady_ret.
  - intros [b|]; [apply steady_ret|]. apply steady_bind.
    + apply steady_try.
      * apply steady_bind; [apply steady_check_torch_cuda|].
        intros b. apply steady_ret.
      * intros _. apply steady_ret.
    + intros [b|]; apply steady_ret.
Qed.

(** [socket_bind] is one question to the host. *)
Lemma socket_bind_host port s :
  socket_bind env port s =
  host (fun t =>
          if negb (sockets_available env t)
          then Raise (Exn OSError "[Errno 24] Too many open files")
          else if (port <? 0)%Z || (65535 <? port)%Z
          then Raise (Exn OverflowError "bind(): port must be 0-65535.")
          else if bindable env t port then Ok tt
          else Raise (Exn OSError "[Errno 98] Address already in use")) s.
Proof.
  unfold socket_bind. run.
  destruct (sockets_available env (clock s)); [|reflexivity]. simpl.
  destruct (_ || _); [reflexivity|].
  now destruct (bindable env (clock s) port).
Qed.

Lemma steady_socket_bind port : steady env (socket_bind env port).
Proof.
  eapply steady_ext; [apply socket_bind_host|].
  apply steady_host. intros t.
  now rewrite (sockets_fixed _ Hfixed), (bindable_fixed _ Hfixed).
Qed.

Lemma steady_get_available_ports p n : steady env (get_available_ports env p n).
Proof.
  unfold get_available_ports. apply steady_bind.
  - apply steady_for_each. intros port acc. apply steady_try.
    + apply steady_bind; [apply steady_socket_bind|].
      intros _. apply steady_ret.
    + intros _. apply steady_ret.
  - intros ports. apply steady_ret.
Qed.

Lemma steady_detect_environment : steady env (detect_environment env).
Proof.
  unfold detect_environment.
  destruct (version_info env) as [[major minor] micro].
  apply steady_bind;
    [apply steady_host; intros t; apply (cwd_fixed _ Hfixed)|].
  intros wd. apply steady_bind; [apply steady_detect_gpu_availability|].
  intros gpu. apply steady_bind; [apply steady_get_available_ports|].
  intros ports. apply steady_bind;
    [apply steady_host; intros t; now rewrite (environ_fixed _ Hfixed)|].
  intros environment. apply steady_bind.
  { apply steady_for_each. intros tool d.
    apply steady_bind; [apply steady_check_command_availability|].
    intros b. apply steady_ret. }
  intros d. apply steady_bind; [|intros d'; apply steady_ret].
  apply steady_for_each. intros package d'.
  apply steady_bind; [apply steady_check_module_availability|].
  intros b. apply steady_ret.
Qed.

Lemma steady_mkdir p : steady env (mkdir env p).
Proof.
  unfold mkdir. apply steady_bind.
  - apply steady_host_may_fail. intros t. apply (mkdir_fixed _ Hfixed).
  - intros _. apply steady_add_dirs.
Qed.

Lemma steady_get_dynamic_paths : steady env (get_dynamic_paths env).
Proof.
  unfold get_dynamic_paths. apply steady_bind; [apply steady_self_base_path|].
  intros base. apply steady_bind; [|intros _; apply steady_ret].
  apply steady_for_each. intros [key path] _.
  destruct (_ && _); [apply steady_mkdir | apply steady_ret].
Qed.

Lemma steady_get_data_config : steady env get_data_config.
Proof.
  unfold get_data_config. apply steady_bind; [apply steady_self_base_path|].
  intros base. apply steady_ret.
Qed.

Lemma steady_get_model_config : steady env (get_model_config env).
Proof.
  unfold get_model_config.
  apply steady_bind; [apply steady_detect_gpu_availability|].
  intros gpu. apply steady_bind; [apply steady_self_base_path|].
  intros base. apply steady_ret.
Qed.

Lemma steady_probe_fallback_models models :
  steady env (probe_fallback_models env models).
Proof.
  induction models as [|m models IH]; cbn [probe_fallback_models];
    [apply steady_ret|].
  apply steady_bind.
  - apply steady_try; [|intros _; apply steady_ret].
    apply steady_bind; [apply steady_subprocess_run|].
    intros cp. apply steady_ret.
  - intros [name|]; [apply steady_ret | exact IH].
Qed.

Lemma steady_detect_available_ollama_model :
  steady env (detect_available_ollama_model env).
Proof.
  unfold detect_available_ollama_model. apply steady_bind.
  - apply steady_try; [|intros _; apply steady_ret].
    apply steady_bind; [apply steady_subprocess_run|].
    intros cp. apply steady_ret.
  - intros [name|]; [apply steady_ret|].
    apply steady_bind; [apply steady_probe_fallback_models|].
    intros [name|]; apply steady_ret.
Qed.

Lemma steady_get_llm_config : steady env (get_llm_config env).
Proof.
  unfold get_llm_config.
  apply steady_bind; [apply steady_check_command_availability|].
  intros has_ollama. apply steady_bind; [|intros name; apply steady_ret].
  destruct has_ollama;
    [apply steady_detect_available_ollama_model | apply steady_ret].
Qed.

Lemma steady_get_monitoring_config : steady env (get_monitoring_config env).
Proof.
  unfold get_monitoring_config.
  apply steady_bind; [apply steady_check_module_availability|].
  intros b. apply steady_ret.
Qed.

Lemma steady_get_first k dflt d : steady env (get_first k dflt d).
Proof.
  unfold get_first.
  destruct (default dflt (dict_get k d)) as [| | | |str|l|d'];
    try apply steady_raise.
  - destruct str; [apply steady_raise | apply steady_ret].
  - destruct l; [apply steady_raise | apply steady_ret].
Qed.

Lemma steady_get_dynamic_config : steady env (get_dynamic_config env).
Proof.
  unfold get_dynamic_config.
  apply steady_bind; [apply steady_detect_environment|]. intros env_info.
  apply steady_bind; [apply steady_get_first|]. intros port.
  apply steady_bind; [apply steady_get_dynamic_paths|]. intros paths.
  apply steady_bind; [apply steady_get_data_config|]. intros data.
  apply steady_bind; [apply steady_get_model_config|]. intros models.
  apply steady_bind; [apply steady_get_llm_config|]. intros llm.
  apply steady_bind; [apply steady_get_monitoring_config|]. intros monitoring.
  apply steady_ret.
Qed.

End Stationary.

(** C7: in an unchanged environment, two successive calls of
    [get_dynamic_config] give the same outcome: the second call returns a
    configuration tree equal to the first in every field (and raises the
    same exception if the first one raised). *)
Theorem get_dynamic_config_idempotent (env : Env) (s : State) :
  stationary env ->
  let first := get_dynamic_config env s in
  let second := get_dynamic_config env (snd first) in
  fst second = fst first /\
  (forall config, fst first = Ok config -> fst second = Ok config).
Proof.
  intros Hfixed first second.
  destruct (steady_get_dynamic_config env Hfixed) as [Hext Hsim].
  assert (Heq : fst second = fst first).
  { symmetry. apply (Hsim s (snd first)), Hext. }
  split; [exact Heq|]. intros config Hfirst. now rewrite Heq.
Qed.

End ConfigProps.

(** ** Healing and the agent tasks *)

Module AgentProps.
Import Py IntelligentConfig ProbeSpec PyFacts ProbeProps.

Section WithEnv.
Variable env : Env.

(** Both branches of [IntelligentConfig.create_sample_data] write the
    same header, with underscores in the feature names. *)
Lemma create_sample_data_header s s' :
  create_sample_data env s = (Ok tt, s') ->
  exists content,
    fs_files s' !! data_csv (base_path s) = Some content /\
    header content = "feature_1,feature_2,feature_3,target".
Proof.
  unfold create_sample_data, py_import, mkdir_parents, write_file. run.
  repeat match goal with
         | |- context [match ?x with _ => _ end] =>
             match type of x with
             | option exn => destruct x
             | bool => destruct x
             end; simpl
         end;
    intros [= <-]; simpl; rewrite lookup_insert_eq;
    eexists; (split; [reflexivity|]); reflexivity.
Qed.

Lemma success_reports b key v : reports (success b key v).
Proof. now exists b. Qed.

(** C10: for every task name and every parameter dictionary, also none,
    [orchestrate_agent_task] returns a dictionary with a boolean
    [success] entry and raises nothing; for a task name other than
    [heal], [detect], [adapt] and [install_deps] that dictionary is
    [success = False] with the error [Unknown task: <task_name>]. *)
Theorem orchestrate_agent_task_total task_name params s :
  exists d,
    fst (orchestrate_agent_task env task_name params s) = Ok d /\
    reports d /\
    (~ In task_name known_tasks ->
     d = [("success", VBool false);
          ("error", VStr ("Unknown task: " ++ task_name))]).
Proof.
  assert (Hknown : forall name,
            In name known_tasks -> String.eqb task_name name = true ->
            ~ ~ In task_name known_tasks).
  { intros name Hin ->%String.eqb_eq Hnot. now apply Hnot. }
  unfold orchestrate_agent_task. rewrite try_except_all.
  destruct (String.eqb task_name "heal") eqn:E1.
  { assert (Hin : ~ ~ In task_name known_tasks)
      by (eapply Hknown; [|exact E1]; simpl; auto).
    unfold bind. destruct (heal_project env s) as [[actions|e] s1];
      eexists; (split; [reflexivity|]);
      (split; [apply success_reports | intros Hnot; now destruct Hin]). }
  destruct (String.eqb task_name "detect") eqn:E2.
  { assert (Hin : ~ ~ In task_name known_tasks)
      by (eapply Hknown; [|exact E2]; simpl; auto).
    unfold bind. destruct (detect_environment env s) as [[env_info|e] s1];
      eexists; (split; [reflexivity|]);
      (split; [apply success_reports | intros Hnot; now destruct Hin]). }
  destruct (String.eqb task_name "adapt") eqn:E3.
  { assert (Hin : ~ ~ In task_name known_tasks)
      by (eapply Hknown; [|exact E3]; simpl; auto).
    unfold bind. destruct (get_dynamic_config env s) as [[config|e] s1];
      eexists; (split; [reflexivity|]);
      (split; [apply success_reports | intros Hnot; now destruct Hin]). }
  destruct (String.eqb task_name "install_deps") eqn:E4.
  { assert (Hin : ~ ~ In task_name known_tasks)
      by (eapply Hknown; [|exact E4]; simpl; auto).
    unfold try_except.
    destruct (truthy _).
    - unfold bind.
      destruct (pip_install env _ s) as [[deps|e] s1].
      + eexists; (split; [reflexivity|]).
        split; [apply success_reports | intros Hnot; now destruct Hin].
      + destruct (caught e [CalledProcessError]);
          eexists; (split; [reflexivity|]);
          (split; [apply success_reports | intros Hnot; now destruct Hin]).
    - eexists; (split; [reflexivity|]).
      split; [apply success_reports | intros Hnot; now destruct Hin]. }
  eexists. split; [reflexivity|]. split; [apply success_reports|].
  reflexivity.
Qed.

End WithEnv.
End AgentProps.

Module ConfigExamples.
Import Py IntelligentConfig ProbeSpec Samples.
Import ProbeProps PortProps OllamaProps ConfigProps AgentProps.

Lemma checks_fail_closed_witness :
  fst (check_command_availability quiet_host "git" s0) = Ok false /\
  fst (check_module_availability quiet_host "torch" s0) = Ok false /\
  fst (detect_gpu_availability quiet_host s0) = Ok false.
Proof.
  destruct (checks_fail_closed quiet_host s0) as (Hcmd & Hmod & Hgpu).
  split; [|split].
  - apply Hcmd. reflexivity.
  - apply (Hmod "torch" (no_module "torch")); reflexivity.
  - apply Hgpu; [reflexivity | discriminate].
Defined.

(** C4 as stated fails: [docker] is found but may not be executed, the
    [PermissionError] is none of the three exceptions the check names,
    and it leaves [check_command_availability]. *)
Lemma permission_error_leaves_the_check :
  spawn locked_host 0 ["docker"; "--version"] (Some 5%Z)
    = Raise (Exn PermissionError "[Errno 13] Permission denied: 'docker'") /\
  fst (check_command_availability locked_host "docker" s0)
    = Raise (Exn PermissionError "[Errno 13] Permission denied: 'docker'").
Proof. split; reflexivity. Qed.

(** A failing [nvidia-smi] does not make the GPU query answer false when
    torch reports CUDA. *)
Example gpu_found_without_nvidia_smi :
  probe_failed cuda_container 0 ["nvidia-smi"] (Some 5%Z) = true /\
  fst (detect_gpu_availability cuda_container s0) = Ok true.
Proof. split; reflexivity. Qed.

Lemma get_available_ports_spec_witness :
  valid_ports 8000 10 /\
  fst (get_available_ports busy_8000 8000 10 s0)
    = Ok [8001; 8002; 8003; 8004; 8005; 8006; 8007; 8008; 8009]%Z.
Proof.
  assert (Hvalid : valid_ports 8000 10) by (intros q; lia).
  split; [exact Hvalid|].
  exact (proj1 (get_available_ports_spec busy_8000 s0 8000 10 Hvalid)).
Defined.

Example no_free_port_gives_the_base_port :
  fst (get_available_ports all_busy 8000 10 s0) = Ok [8000%Z].
Proof. reflexivity. Qed.

(** C5 as stated fails: a scan that runs past port 65535 does not return
    a list; the [OverflowError] of [bind] is no [OSError] and leaves
    [get_available_ports]. *)
Lemma scan_past_65535_raises :
  fst (get_available_ports quiet_host 65530 10 s0)
    = Raise (Exn OverflowError "bind(): port must be 0-65535.").
Proof. reflexivity. Qed.

Lemma ollama_model_selection_witness :
  fst (detect_available_ollama_model ollama_host s0) = Ok "gemma:2b" /\
  fst (detect_available_ollama_model slow_ollama_host s0) = Ok "llama3.1:8b".
Proof.
  split.
  - apply (proj1 (ollama_model_selection ollama_host s0)
             {| returncode := 0; stdout := ollama_list_output |} "gemma:2b");
      reflexivity.
  - apply (proj1 (proj2 (ollama_model_selection slow_ollama_host s0)));
      reflexivity.
Defined.

(** C6 as stated fails: with Ollama installed, [phi3:mini] is the first
    entry of the preference list the probe confirms, yet the selected
    name is [gemma:2b], the first line of [ollama list], which is not on
    the preference list at all. *)
Lemma listed_model_wins_over_preference_list :
  fst (check_command_availability ollama_host "ollama" s0) = Ok true /\
  (forall t, first_confirmed ollama_host t fallback_models = Some "phi3:mini") /\
  fst (detect_available_ollama_model ollama_host s0) = Ok "gemma:2b" /\
  (exists config,
     fst (get_llm_config ollama_host s0) = Ok config /\
     dict_get "enabled" config = Some (VBool true) /\
     dict_get "model" config = Some (VStr "gemma:2b")) /\
  ~ In "gemma:2b" fallback_models.
Proof.
  split; [reflexivity|]. split; [intros t; reflexivity|].
  split; [reflexivity|]. split.
  - eexists. split; [reflexivity|]. split; reflexivity.
  - simpl. intros [H|[H|[H|[H|[]]]]]; discriminate H.
Qed.

Lemma get_dynamic_config_idempotent_witness :
  fst (get_dynamic_config quiet_host (snd (get_dynamic_config quiet_host s0)))
    = fst (get_dynamic_config quiet_host s0) /\
  is_ok (fst (get_dynamic_config quiet_host s0)) = true.
Proof.
  split.
  - assert (Hfixed : stationary quiet_host) by (constructor; reflexivity).
    exact (proj1 (get_dynamic_config_idempotent quiet_host s0 Hfixed)).
  - vm_compute. reflexivity.
Defined.

(** C9 fails on the code: [IntelligentConfig.create_sample_data], the
    function [heal_project] and [process_data] call, writes the header
    [feature_1,feature_2,feature_3,target] with or without pandas, which
    is not the schema [feature1,feature2,feature3,target] that
    [src/config.py] expects and that the [create_sample_data] of
    [src/data_processor.py] writes. *)
Theorem sample_data_header_has_underscores :
  (header <$> fs_files (snd (create_sample_data quiet_host s0))
              !! "/app/data/raw/data.csv")
    = Some "feature_1,feature_2,feature_3,target" /\
  (header <$> fs_files (snd (create_sample_data pandas_host s0))
              !! "/app/data/raw/data.csv")
    = Some "feature_1,feature_2,feature_3,target" /\
  (header <$> fs_files (snd (DataProcessor.create_sample_data quiet_host s0))
              !! "data/raw/data.csv")
    = Some "feature1,feature2,feature3,target" /\
  join "," DataProcessor.expected_columns
    = "feature1,feature2,feature3,target" /\
  "feature_1,feature_2,feature_3,target" <> "feature1,feature2,feature3,target".
Proof.
  split; [vm_compute; reflexivity|].
  split; [vm_compute; reflexivity|].
  split; [vm_compute; reflexivity|].
  split; [reflexivity | discriminate].
Qed.

Lemma orchestrate_agent_task_total_witness :
  fst (orchestrate_agent_task quiet_host "deploy" None s0)
    = Ok [("success", VBool false); ("error", VStr "Unknown task: deploy")].
Proof.
  destruct (orchestrate_agent_task_total quiet_host "deploy" None s0)
    as (d & Hrun & _ & Hunknown).
  rewrite Hrun, Hunknown; [reflexivity|].
  simpl. intros [H|[H|[H|[H|[]]]]]; discriminate H.
Defined.

End ConfigExamples.

(** ** More on the probes and the synthesizer *)

Module SynthesisProps.
Import Py IntelligentConfig ProbeSpec HostSpec PyFacts ProbeProps PortProps.

Lemma bind_inv {St A B} (c : M St A) (k : A -> M St B) s b s' :
  bind c k s = (Ok b, s') ->
  exists a s1, c s = (Ok a, s1) /\ k a s1 = (Ok b, s').
Proof.
  unfold bind. destruct (c s) as [[a|e] s1]; [|discriminate]. eauto.
Qed.

Lemma ret_inv {St A} (a b : A) (s s' : St) :
  ret a s = (Ok b, s') -> b = a /\ s' = s.
Proof. unfold ret. now intros [= <- <-]. Qed.

(** Inverts a returning [bind] in hypothesis [H]. *)
Ltac unbind H :=
  let a := fresh "a" in
  let s1 := fresh "s" in
  let Hc := fresh "Hc" in
  apply bind_inv in H as (a & s1 & Hc & H).

Section WithEnv.
Variable env : Env.

(** X1: a check that answered is not made again: the answer is in the cache,
    and the next check of the module returns it without asking the host,
    whatever the host would say by then. *)
Theorem module_check_is_remembered (env' : Env) name s b s' :
  check_module_availability env name s = (Ok b, s') ->
  available_modules s' !! name = Some b /\
  check_module_availability env' name s' = (Ok b, s').
Proof.
  intros Hcheck.
  assert (Hhit : available_modules s' !! name = Some b).
  { destruct (available_modules s !! name) as [b0|] eqn:E.
    - rewrite (check_module_availability_cached _ _ _ _ E) in Hcheck.
      now injection Hcheck as <- <-.
    - rewrite (check_module_availability_fresh _ _ _ E) in Hcheck.
      destruct (import_module env (clock s) name) as [e|].
      + destruct (caught e [ImportError]); [|discriminate].
        injection Hcheck as <- <-. simpl. apply lookup_insert_eq.
      + injection Hcheck as <- <-. simpl. apply lookup_insert_eq. }
  split; [exact Hhit|]. now apply check_module_availability_cached.
Qed.

(** What a loop of [detect_environment] leaves in the dictionary. *)
Lemma flags_loop (check : string -> M State bool) names : forall d s d' s',
  for_each names d
    (fun name d => b <- check name ;;
                   ret (dict_set ("has_" ++ name) (VBool b) d))%py s
    = (Ok d', s') ->
  exists bs, length bs = length names /\
             d' = set_flags (combine names bs) d.
Proof.
  induction names as [|name names IH]; intros d s d' s' Hloop.
  - apply ret_inv in Hloop as [-> _]. now exists [].
  - cbn [for_each] in Hloop. unbind Hloop. unbind Hc.
    apply ret_inv in Hc as [-> ->].
    apply IH in Hloop as (bs & Hlen & ->).
    exists (a0 :: bs). split; [simpl; now rewrite Hlen | reflexivity].
Qed.

(** [get_available_ports] on port numbers, outcome and state. *)
Lemma get_available_ports_eq p n s :
  valid_ports p n ->
  get_available_ports env p n s =
  (Ok (ports_or_base p (bound_from env (clock s) (range p (p + n)))),
   set_clock (clock s + length (range p (p + n))) s).
Proof.
  intros Hvalid. unfold get_available_ports.
  erewrite bind_ok by (apply scan_eq; now apply range_valid).
  reflexivity.
Qed.

Lemma ports_or_base_in_range p n t :
  (0 < n)%Z ->
  let ports := ports_or_base p (bound_from env t (range p (p + n))) in
  ports <> [] /\ Forall (fun q => (p <= q < p + n)%Z) ports.
Proof.
  intros Hn ports. subst ports. unfold ports_or_base.
  case_bool_decide as Hnil.
  - split; [discriminate|]. constructor; [lia | constructor].
  - split; [exact Hnil|]. apply Forall_forall.
    intros q Hq%elem_of_bound_from. lia.
Qed.

(** The dictionary [detect_environment] returns, entry by entry. *)
Lemma detect_environment_shape s d s' :
  detect_environment env s = (Ok d, s') ->
  exists wd gpu t dev b1 b2 b3 b4 b5 b6 b7 b8 b9,
    let '(major, minor, micro) := version_info env in
    d = [ ("python_version",
            VStr (str_of_Z major ++ "." ++ str_of_Z minor ++ "."
                  ++ str_of_Z micro));
          ("platform", VStr (platform env));
          ("working_directory", VStr wd);
          ("has_gpu", VBool gpu);
          ("available_ports",
            VList (map VInt (ports_or_base 8000
                               (bound_from env t (range 8000 8010)))));
          ("dev_mode", VBool dev);
          ("has_git", VBool b1); ("has_docker", VBool b2);
          ("has_ollama", VBool b3); ("has_dvc", VBool b4);
          ("has_fastapi", VBool b5); ("has_pandas", VBool b6);
          ("has_sklearn", VBool b7); ("has_torch", VBool b8);
          ("has_tensorflow", VBool b9) ].
Proof.
  unfold detect_environment.
  destruct (version_info env) as [[major minor] micro].
  intros Hrun. unbind Hrun. unbind Hrun. unbind Hrun. unbind Hrun.
  unbind Hrun. unbind Hrun. apply ret_inv in Hrun as [-> _].
  assert (Hvalid : valid_ports 8000 10) by (intros q; lia).
  rewrite (get_available_ports_eq _ _ _ Hvalid) in Hc1.
  injection Hc1 as <- _.
  apply flags_loop in Hc3 as (bs & Hlen & ->).
  apply flags_loop in Hc4 as (bs' & Hlen' & ->).
  destruct bs as [|b1 [|b2 [|b3 [|b4 [|]]]]]; try discriminate Hlen.
  destruct bs' as [|b5 [|b6 [|b7 [|b8 [|b9 [|]]]]]]; try discriminate Hlen'.
  now exists a, a0, (clock s1), (String.eqb a2 "development"),
    b1, b2, b3, b4, b5, b6, b7, b8, b9.
Qed.

(** The scan of [detect_environment] begins at [scan_moment]. *)
Lemma detect_environment_scan s d s' :
  detect_environment env s = (Ok d, s') ->
  dict_get "available_ports" d
    = Some (VList (map VInt
              (ports_or_base 8000
                 (bound_from env (scan_moment env s) (range 8000 8010))))).
Proof.
  intros Hrun. pose proof Hrun as Hshape.
  apply detect_environment_shape in Hshape
    as (wd & gpu & t & dev & b1 & b2 & b3 & b4 & b5 & b6 & b7 & b8 & b9 & Hd).
  unfold detect_environment in Hrun.
  destruct (version_info env) as [[major minor] micro].
  unbind Hrun. unbind Hrun. unbind Hrun. unbind Hrun.
  unbind Hrun. unbind Hrun. apply ret_inv in Hrun as [-> _].
  assert (Hvalid : valid_ports 8000 10) by (intros q; lia).
  rewrite (get_available_ports_eq _ _ _ Hvalid) in Hc1.
  injection Hc1 as <- _.
  apply flags_loop in Hc3 as (bs & Hlen & ->).
  apply flags_loop in Hc4 as (bs' & Hlen' & ->).
  destruct bs as [|c1 [|c2 [|c3 [|c4 [|]]]]]; try discriminate Hlen.
  destruct bs' as [|c5 [|c6 [|c7 [|c8 [|c9 [|]]]]]]; try discriminate Hlen'.
  unfold scan_moment. rewrite Hc. cbn [snd]. rewrite Hc0. reflexivity.
Qed.

Lemma map_VInt_inj l1 l2 : map VInt l1 = map VInt l2 -> l1 = l2.
Proof.
  revert l2. induction l1 as [|x l1 IH]; intros [|y l2]; simpl;
    try discriminate; [reflexivity|].
  intros [= -> Hrest]. f_equal. now apply IH.
Qed.

(** The first port of a scan of 8000..8009 is the lowest that could be
    bound, or 8000. *)
Lemma first_port_is_lowest_bindable t p rest :
  ports_or_base 8000 (bound_from env t (range 8000 8010)) = p :: rest ->
  lowest_bindable env t p.
Proof.
  unfold ports_or_base, lowest_bindable. cbv zeta.
  case_bool_decide as Hnil.
  - intros [= <- _]. split; [lia|]. right. split; [reflexivity|].
    intros q Hq.
    destruct (can_bind env (t + Z.to_nat (q - 8000)) q) eqn:Hbind;
      [|reflexivity].
    assert (Hin : q ∈ bound_from env t (range 8000 8010))
      by (apply elem_of_bound_from; split; [lia | exact Hbind]).
    rewrite Hnil in Hin. now apply elem_of_nil in Hin.
  - intros Hports.
    pose proof (bound_from_ascending env 8010 8000 t) as Hsorted.
    rewrite Hports in Hsorted.
    assert (Hp : p ∈ bound_from env t (range 8000 8010))
      by (rewrite Hports; left).
    apply elem_of_bound_from in Hp as [Hrange Hbind].
    split; [lia|]. left. split; [exact Hbind|].
    intros q Hq.
    destruct (can_bind env (t + Z.to_nat (q - 8000)) q) eqn:Hq_bind;
      [|reflexivity].
    assert (Hin : q ∈ bound_from env t (range 8000 8010))
      by (apply elem_of_bound_from; split; [lia | exact Hq_bind]).
    rewrite Hports in Hin. apply elem_of_cons in Hin as [->|Hin]; [lia|].
    apply StronglySorted_inv in Hsorted as [_ Hall].
    rewrite Forall_forall in Hall. specialize (Hall q Hin). lia.
Qed.

(** The ports [detect_environment] reports. *)
Lemma detect_environment_ports s d s' :
  detect_environment env s = (Ok d, s') ->
  exists p rest,
    dict_get "available_ports" d = Some (VList (map VInt (p :: rest))) /\
    Forall (fun q => (8000 <= q <= 8009)%Z) (p :: rest).
Proof.
  intros Hrun. apply detect_environment_shape in Hrun
    as (wd & gpu & t & dev & b1 & b2 & b3 & b4 & b5 & b6 & b7 & b8 & b9 & Hd).
  destruct (version_info env) as [[major minor] micro]. subst d.
  destruct (ports_or_base_in_range 8000 10 t ltac:(lia)) as [Hne Hrange].
  destruct (ports_or_base 8000 _) as [|p rest]; [now destruct Hne|].
  exists p, rest. split; [reflexivity|].
  eapply Forall_impl; [exact Hrange|]. simpl. lia.
Qed.

(** X2: [detect_environment] reports under fifteen fixed keys, every [has_]
    entry is a boolean, and the list of available ports is never empty
    and stays within 8000..8009. *)
Theorem detect_environment_entries s d s' :
  detect_environment env s = (Ok d, s') ->
  map fst d = environment_keys /\
  (forall k, In k environment_keys -> startswith "has_" k = true ->
             exists b, dict_get k d = Some (VBool b)) /\
  (exists p rest,
     dict_get "available_ports" d = Some (VList (map VInt (p :: rest))) /\
     Forall (fun q => (8000 <= q <= 8009)%Z) (p :: rest)).
Proof.
  intros Hrun. pose proof (detect_environment_ports _ _ _ Hrun) as Hports.
  apply detect_environment_shape in Hrun
    as (wd & gpu & t & dev & b1 & b2 & b3 & b4 & b5 & b6 & b7 & b8 & b9 & Hd).
  destruct (version_info env) as [[major minor] micro]. subst d.
  split; [reflexivity|]. split; [|exact Hports].
  intros k Hk Hhas. simpl in Hk.
  repeat (destruct Hk as [<-|Hk]; [try discriminate Hhas; eauto|]).
  destruct Hk.
Qed.

(** The tree [get_dynamic_config] returns: its sections, and inside them
    the port the API is to listen on. *)
Lemma get_dynamic_config_shape s config s' :
  get_dynamic_config env s = (Ok config, s') ->
  exists env_info port reload paths data models llm monitoring s0 s1,
    detect_environment env s = (Ok env_info, s0) /\
    get_first "available_ports" (VList [VInt 8000]) env_info s0
      = (Ok port, s1) /\
    config =
      [ ("project",
          VDict [ ("name", VStr "omnitide-ai-suite");
                  ("version", VStr "1.0.0");
                  ("description", VStr "Dynamic MLOps & LLM Platform") ]);
        ("api",
          VDict [ ("host", VStr "0.0.0.0");
                  ("port", port);
                  ("reload", reload) ]);
        ("paths", VDict paths);
        ("data", VDict data);
        ("models", VDict models);
        ("llm", VDict llm);
        ("monitoring", VDict monitoring);
        ("environment", VDict env_info) ].
Proof.
  unfold get_dynamic_config. intros Hrun.
  unbind Hrun. unbind Hrun. unbind Hrun. unbind Hrun. unbind Hrun.
  unbind Hrun. unbind Hrun. apply ret_inv in Hrun as [-> _].
  repeat eexists; eassumption.
Qed.

(** X3: the port [get_dynamic_config] puts under [api] is the first of the
    available ports it reports under [environment], a port of 8000..8009:
    the lowest of them that could be bound when the scan, which begins
    after the working directory and the GPU were asked for, tried it, or
    8000 when none of them could.  The tree has its eight sections. *)
Theorem api_port_is_first_available_port s config s' :
  get_dynamic_config env s = (Ok config, s') ->
  map fst config = config_sections /\
  exists p rest,
    dict_get2 "api" "port" config = Some (VInt p) /\
    dict_get2 "environment" "available_ports" config
      = Some (VList (map VInt (p :: rest))) /\
    Forall (fun q => (8000 <= q <= 8009)%Z) (p :: rest) /\
    lowest_bindable env (scan_moment env s) p.
Proof.
  intros Hrun. apply get_dynamic_config_shape in Hrun
    as (env_info & port & reload & paths & data & models & llm & monitoring
        & s0 & s1 & Henv & Hport & ->).
  split; [reflexivity|].
  pose proof (detect_environment_scan _ _ _ Henv) as Hscan.
  apply detect_environment_ports in Henv as (p & rest & Hp & Hrange).
  assert (Hlow : lowest_bindable env (scan_moment env s) p).
  { apply first_port_is_lowest_bindable with (rest := rest).
    rewrite Hp in Hscan.
    remember (ports_or_base 8000
                (bound_from env (scan_moment env s) (range 8000 8010)))
      as l eqn:Hl. clear Hl.
    symmetry. apply map_VInt_inj. congruence. }
  exists p, rest. unfold dict_get2. simpl.
  split; [|split; [exact Hp | split; [exact Hrange | exact Hlow]]].
  unfold get_first in Hport. rewrite Hp in Hport. simpl in Hport.
  now apply ret_inv in Hport as [-> _].
Qed.

(** X4: the LLM section is consistent: the integration is enabled exactly
    when the provider is [ollama], and a disabled integration names the
    model [phi3:mini] and carries the fallback message, which an enabled
    one does not. *)
Theorem llm_section_is_consistent s config s' :
  get_llm_config env s = (Ok config, s') ->
  exists enabled model,
    dict_get "enabled" config = Some (VBool enabled) /\
    dict_get "provider" config
      = Some (VStr (if enabled then "ollama" else "none")) /\
    dict_get "model" config = Some (VStr model) /\
    (enabled = false -> model = "phi3:mini") /\
    dict_get "fallback_message" config
      = (if enabled then None
         else Some (VStr "LLM features disabled - Ollama not available")).
Proof.
  unfold get_llm_config. intros Hrun. unbind Hrun. unbind Hrun.
  apply ret_inv in Hrun as [-> _]. exists a, a0.
  destruct a; simpl.
  - repeat split. discriminate.
  - apply ret_inv in Hc0 as [-> _]. repeat split.
Qed.

End WithEnv.

(** *** On a benign host the synthesizer cannot fail *)

Lemma always_returns_ret {A} (a : A) : always_returns (ret a).
Proof. intros s. now exists a, s. Qed.

Lemma always_returns_bind {A B} (c : M State A) (k : A -> M State B) :
  always_returns c -> (forall a, always_returns (k a)) ->
  always_returns (bind c k).
Proof.
  intros Hc Hk s. destruct (Hc s) as (a & s1 & Ha).
  destruct (Hk a s1) as (b & s2 & Hb). exists b, s2.
  now rewrite (bind_ok _ _ _ _ _ Ha).
Qed.

Lemma always_returns_for_each {A B} (l : list A) (body : A -> B -> M State B) :
  (forall x acc, always_returns (body x acc)) ->
  forall acc, always_returns (for_each l acc body).
Proof.
  intros Hbody. induction l as [|x l IH]; intros acc; cbn [for_each].
  - apply always_returns_ret.
  - apply always_returns_bind; [apply Hbody | exact IH].
Qed.

Lemma always_returns_fst {A} (c : M State A) :
  (forall s, exists a, fst (c s) = Ok a) -> always_returns c.
Proof.
  intros Hc s. destruct (Hc s) as (a & Ha). exists a, (snd (c s)).
  destruct (c s) as [r s']. simpl in *. now subst r.
Qed.

Section Benign.
Variable env : Env.
Hypothesis Hbenign : benign env.

Lemma check_command_availability_returns command :
  always_returns (check_command_availability env command).
Proof.
  intros s. rewrite check_command_availability_eq.
  pose proof (spawn_benign _ Hbenign (clock s) [command; "--version"]
                (Some 5%Z)) as Hspawn.
  destruct (spawn env (clock s) _ _) as [cp|e]; [eauto|].
  rewrite Hspawn. eauto.
Qed.

Lemma check_module_availability_returns name :
  always_returns (check_module_availability env name).
Proof.
  intros s. destruct (available_modules s !! name) as [b|] eqn:E.
  - rewrite (check_module_availability_cached _ _ _ _ E). eauto.
  - rewrite (check_module_availability_fresh _ _ _ E).
    pose proof (import_benign _ Hbenign (clock s) name) as Himport.
    destruct (import_module env (clock s) name) as [e|]; [|eauto].
    rewrite Himport. eauto.
Qed.

Lemma torch_answer_returns t : exists b, torch_answer env t = Ok b.
Proof.
  unfold torch_answer. destruct (torch env); eauto.
  pose proof (cuda_benign _ Hbenign t) as Hcuda.
  destruct (cuda_is_available env t) as [b|e]; [eauto|].
  rewrite Hcuda. eauto.
Qed.

Lemma detect_gpu_availability_returns :
  always_returns (detect_gpu_availability env).
Proof.
  apply always_returns_fst. intros s. rewrite detect_gpu_availability_eq.
  pose proof (spawn_benign _ Hbenign (clock s) ["nvidia-smi"] (Some 5%Z))
    as Hspawn.
  destruct (spawn env (clock s) _ _) as [cp|e].
  - destruct (returncode cp =? 0)%Z; [eauto | apply torch_answer_returns].
  - rewrite Hspawn. apply torch_answer_returns.
Qed.

Lemma detect_environment_returns : always_returns (detect_environment env).
Proof.
  unfold detect_environment.
  destruct (version_info env) as [[major minor] micro].
  apply always_returns_bind.
  { intros s. unfold host. run.
    pose proof (cwd_benign _ Hbenign (clock s)) as Hcwd.
    destruct (cwd env (clock s)); [eauto | discriminate]. }
  intros wd. apply always_returns_bind;
    [apply detect_gpu_availability_returns|].
  intros gpu. apply always_returns_bind.
  { intros s. rewrite get_available_ports_eq by (intros q; lia). eauto. }
  intros ports. apply always_returns_bind.
  { intros s. unfold host. run. eauto. }
  intros environment. apply always_returns_bind.
  { apply always_returns_for_each. intros tool d.
    apply always_returns_bind; [apply check_command_availability_returns|].
    intros b. apply always_returns_ret. }
  intros d. apply always_returns_bind; [|intros d'; apply always_returns_ret].
  apply always_returns_for_each. intros package d'.
  apply always_returns_bind; [apply check_module_availability_returns|].
  intros b. apply always_returns_ret.
Qed.

Lemma mkdir_returns p : always_returns (mkdir env p).
Proof.
  intros s. unfold mkdir, host_may_fail. run.
  rewrite (mkdir_benign _ Hbenign). simpl. eauto.
Qed.

Lemma get_dynamic_paths_returns : always_returns (get_dynamic_paths env).
Proof.
  unfold get_dynamic_paths. apply always_returns_bind.
  { intros s. unfold self_base_path. eauto. }
  intros base. apply always_returns_bind;
    [|intros _; apply always_returns_ret].
  apply always_returns_for_each. intros [key path] _.
  destruct (_ && _); [apply mkdir_returns | apply always_returns_ret].
Qed.

Lemma probe_fallback_models_returns models :
  always_returns (probe_fallback_models env models).
Proof.
  induction models as [|m models IH]; cbn [probe_fallback_models];
    [apply always_returns_ret|].
  apply always_returns_bind.
  - intros s. rewrite OllamaProps.show_turn_eq.
    pose proof (spawn_benign _ Hbenign (clock s) ["ollama"; "show"; m]
                  (Some 3%Z)) as Hspawn.
    destruct (spawn env (clock s) _ _) as [cp|e]; [eauto|].
    rewrite Hspawn. eauto.
  - intros [name|]; [apply always_returns_ret | exact IH].
Qed.

Lemma detect_available_ollama_model_returns :
  always_returns (detect_available_ollama_model env).
Proof.
  unfold detect_available_ollama_model. apply always_returns_bind.
  - intros s. rewrite OllamaProps.list_turn_eq.
    pose proof (spawn_benign _ Hbenign (clock s) ["ollama"; "list"]
                  (Some 5%Z)) as Hspawn.
    destruct (spawn env (clock s) _ _) as [cp|e]; [eauto|].
    rewrite Hspawn. eauto.
  - intros [name|]; [apply always_returns_ret|].
    apply always_returns_bind; [apply probe_fallback_models_returns|].
    intros [name|]; apply always_returns_ret.
Qed.

Lemma get_llm_config_returns : always_returns (get_llm_config env).
Proof.
  unfold get_llm_config.
  apply always_returns_bind; [apply check_command_availability_returns|].
  intros has_ollama. apply always_returns_bind;
    [|intros name; apply always_returns_ret].
  destruct has_ollama;
    [apply detect_available_ollama_model_returns | apply always_returns_ret].
Qed.

(** X5: on a host where every probe answers or fails as the code provides
    for, where the working directory is known and directories can be
    created, [get_dynamic_config] returns a configuration with all its
    sections, whatever is installed and whatever is cached. *)
Theorem get_dynamic_config_returns s :
  exists config s',
    get_dynamic_config env s = (Ok config, s') /\
    map fst config = config_sections.
Proof.
  assert (Hreturns : always_returns (get_dynamic_config env)).
  { unfold get_dynamic_config. intros s0.
    destruct (detect_environment_returns s0) as (env_info & s1 & Henv).
    erewrite bind_ok by exact Henv.
    apply (detect_environment_ports env) in Henv
      as (p & rest & Hp & _).
    unfold get_first at 1. rewrite Hp. cbn [default map].
    erewrite bind_ok by reflexivity.
    revert s1. apply always_returns_bind; [apply get_dynamic_paths_returns|].
    intros paths. apply always_returns_bind.
    { intros s2. unfold get_data_config, self_base_path. run. eauto. }
    intros data. apply always_returns_bind.
    { unfold get_model_config.
      apply always_returns_bind; [apply detect_gpu_availability_returns|].
      intros gpu. apply always_returns_bind;
        [|intros base; apply always_returns_ret].
      intros s2. unfold self_base_path. eauto. }
    intros models. apply always_returns_bind; [apply get_llm_config_returns|].
    intros llm. apply always_returns_bind;
      [|intros monitoring; apply always_returns_ret].
    unfold get_monitoring_config.
    apply always_returns_bind; [apply check_module_availability_returns|].
    intros b. apply always_returns_ret. }
  destruct (Hreturns s) as (config & s' & Hrun). exists config, s'.
  split; [exact Hrun|].
  apply (get_dynamic_config_shape env) in Hrun
    as (env_info & port & reload & paths & data & models & llm & monitoring
        & s0 & s1 & _ & _ & ->).
  reflexivity.
Qed.

End Benign.
End SynthesisProps.

(** ** Healing the project layout *)

Module HealProps.
Import Py IntelligentConfig ProbeSpec HostSpec PyFacts ProbeProps.
Import SynthesisProps.

Lemma append_assoc (a b c : string) : (a ++ b) ++ c = a ++ (b ++ c).
Proof.
  induction a as [|x a IH]; [reflexivity|].
  change (String x ((a ++ b) ++ c) = String x (a ++ (b ++ c))).
  now f_equal.
Qed.

(** [base / a / b] is [base / "a/b"]. *)
Lemma path_join_join base a b :
  path_join (path_join base a) b = path_join base (a ++ "/" ++ b).
Proof. unfold path_join. now rewrite !append_assoc. Qed.

Lemma grows_refl s : grows s s.
Proof. now split; [|split]. Qed.

Lemma grows_trans s1 s2 s3 : grows s1 s2 -> grows s2 s3 -> grows s1 s3.
Proof.
  intros (Hb12 & Hd12 & Hf12) (Hb23 & Hd23 & Hf23).
  split; [congruence|]. split; [set_solver|]. auto.
Qed.

Lemma exists_in_grows s s' p :
  grows s s' -> exists_in s p = true -> exists_in s' p = true.
Proof.
  intros (_ & Hd & Hf). unfold exists_in.
  rewrite !orb_true_iff, !bool_decide_eq_true. intros [Hp|Hp]; [left|right].
  - now apply Hd.
  - now apply Hf.
Qed.

Lemma keeps_ret {A} (a : A) : keeps (ret a).
Proof. intros s. apply grows_refl. Qed.

Lemma keeps_raise {A} e : keeps (@raise State A e).
Proof. intros s. apply grows_refl. Qed.

Lemma keeps_lift {A} (r : result A) : keeps (lift r).
Proof. intros s. apply grows_refl. Qed.

Lemma keeps_get : keeps (@get State).
Proof. intros s. apply grows_refl. Qed.

Lemma keeps_self_base_path : keeps self_base_path.
Proof. intros s. apply grows_refl. Qed.

Lemma keeps_bind {A B} (c : M State A) (k : A -> M State B) :
  keeps c -> (forall a, keeps (k a)) -> keeps (bind c k).
Proof.
  intros Hc Hk s. unfold bind. specialize (Hc s).
  destruct (c s) as [[a|e] s1]; [|exact Hc].
  eapply grows_trans; [exact Hc | apply Hk].
Qed.

Lemma keeps_try {A} (body : M State A) classes (h : exn -> M State A) :
  keeps body -> (forall e, keeps (h e)) -> keeps (try_except body classes h).
Proof.
  intros Hbody Hh s. unfold try_except. specialize (Hbody s).
  destruct (body s) as [[a|e] s1]; [exact Hbody|].
  destruct (caught e classes); [|exact Hbody].
  eapply grows_trans; [exact Hbody | apply Hh].
Qed.

Lemma keeps_for_each {A B} (l : list A) (body : A -> B -> M State B) :
  (forall x acc, keeps (body x acc)) -> forall acc, keeps (for_each l acc body).
Proof.
  intros Hbody. induction l as [|x l IH]; intros acc; cbn [for_each].
  - apply keeps_ret.
  - apply keeps_bind; [apply Hbody | exact IH].
Qed.

Lemma keeps_tick : keeps tick.
Proof. intros s. now split; [|split]. Qed.

Lemma keeps_host {A} (f : nat -> result A) : keeps (host f).
Proof.
  unfold host. apply keeps_bind; [apply keeps_tick|].
  intros t. apply keeps_lift.
Qed.

Lemma keeps_host_may_fail (f : nat -> option exn) : keeps (host_may_fail f).
Proof.
  unfold host_may_fail. apply keeps_bind; [apply keeps_tick|].
  intros t. destruct (f t); [apply keeps_raise | apply keeps_ret].
Qed.

Lemma keeps_add_dirs ps : keeps (modify (add_dirs ps)).
Proof. intros s. split; [reflexivity|]. split; [simpl; set_solver | auto]. Qed.

Lemma keeps_put_file p content : keeps (modify (put_file p content)).
Proof.
  intros s. split; [reflexivity|]. split; [reflexivity|]. simpl.
  intros q Hq. destruct (decide (p = q)) as [<-|Hne].
  - rewrite lookup_insert_eq. eauto.
  - now rewrite lookup_insert_ne.
Qed.

Lemma keeps_set_available name b : keeps (modify (set_available name b)).
Proof. intros s. now split; [|split]. Qed.

Create HintDb keeps discriminated.
#[local] Hint Resolve keeps_ret keeps_raise keeps_lift keeps_get
  keeps_self_base_path keeps_tick keeps_host keeps_host_may_fail
  keeps_add_dirs keeps_put_file keeps_set_available : keeps.

(** Takes a computation apart along its binds, handlers, loops and
    branches, and closes the leaves with the lemmas known so far. *)
Ltac keeps_step :=
  first
    [ solve [auto with keeps]
    | apply keeps_bind
    | apply keeps_try
    | apply keeps_for_each
    | match goal with
      | |- keeps (if ?x then _ else _) => destruct x
      | |- keeps (match ?x with _ => _ end) => destruct x
      | |- keeps (let (_, _) := ?x in _) => destruct x
      end ].
Ltac keeps_all := repeat (intros; keeps_step).

Section WithEnv.
Variable env : Env.

Lemma keeps_py_import name : keeps (py_import env name).
Proof. unfold py_import. keeps_all. Qed.

Lemma keeps_subprocess_run args check timeout :
  keeps (subprocess_run env args check timeout).
Proof. unfold subprocess_run. keeps_all. Qed.

Lemma keeps_path_exists p : keeps (path_exists p).
Proof. unfold path_exists. keeps_all. Qed.

Lemma keeps_mkdir p : keeps (mkdir env p).
Proof. unfold mkdir. keeps_all. Qed.

Lemma keeps_mkdir_parents base rel : keeps (mkdir_parents env base rel).
Proof. unfold mkdir_parents. keeps_all. Qed.

Lemma keeps_write_file p content : keeps (write_file env p content).
Proof. unfold write_file. keeps_all. Qed.

#[local] Hint Resolve keeps_py_import keeps_subprocess_run keeps_path_exists
  keeps_mkdir keeps_mkdir_parents keeps_write_file : keeps.

Lemma keeps_check_module_availability name :
  keeps (check_module_availability env name).
Proof. unfold check_module_availability. keeps_all. Qed.

Lemma keeps_check_command_availability command :
  keeps (check_command_availability env command).
Proof. unfold check_command_availability. keeps_all. Qed.

Lemma keeps_check_torch_cuda : keeps (check_torch_cuda env).
Proof. unfold check_torch_cuda. keeps_all. Qed.

#[local] Hint Resolve keeps_check_module_availability
  keeps_check_command_availability keeps_check_torch_cuda : keeps.

Lemma keeps_detect_gpu_availability : keeps (detect_gpu_availability env).
Proof. unfold detect_gpu_availability. keeps_all. Qed.

Lemma keeps_socket_bind port : keeps (socket_bind env port).
Proof. unfold socket_bind. keeps_all. Qed.

#[local] Hint Resolve keeps_detect_gpu_availability keeps_socket_bind : keeps.

Lemma keeps_get_available_ports p n : keeps (get_available_ports env p n).
Proof. unfold get_available_ports. keeps_all. Qed.

#[local] Hint Resolve keeps_get_available_ports : keeps.

Lemma keeps_detect_environment : keeps (detect_environment env).
Proof. unfold detect_environment. keeps_all. Qed.

Lemma keeps_get_dynamic_paths : keeps (get_dynamic_paths env).
Proof. unfold get_dynamic_paths. keeps_all. Qed.

Lemma keeps_get_data_config : keeps get_data_config.
Proof. unfold get_data_config. keeps_all. Qed.

Lemma keeps_get_model_config : keeps (get_model_config env).
Proof. unfold get_model_config. keeps_all. Qed.

Lemma keeps_probe_fallback_models models :
  keeps (probe_fallback_models env models).
Proof.
  induction models as [|m models IH]; cbn [probe_fallback_models];
    keeps_all.
Qed.

#[local] Hint Resolve keeps_probe_fallback_models : keeps.

Lemma keeps_detect_available_ollama_model :
  keeps (detect_available_ollama_model env).
Proof. unfold detect_available_ollama_model. keeps_all. Qed.

#[local] Hint Resolve keeps_detect_available_ollama_model : keeps.

Lemma keeps_get_llm_config : keeps (get_llm_config env).
Proof. unfold get_llm_config. keeps_all. Qed.

Lemma keeps_get_monitoring_config : keeps (get_monitoring_config env).
Proof. unfold get_monitoring_config. keeps_all. Qed.

Lemma keeps_get_first k dflt d : keeps (get_first k dflt d).
Proof. unfold get_first. keeps_all. Qed.

#[local] Hint Resolve keeps_detect_environment keeps_get_dynamic_paths
  keeps_get_data_config keeps_get_model_config keeps_get_llm_config
  keeps_get_monitoring_config keeps_get_first : keeps.

Lemma keeps_get_dynamic_config : keeps (get_dynamic_config env).
Proof. unfold get_dynamic_config. keeps_all. Qed.

Lemma keeps_create_sample_data : keeps (create_sample_data env).
Proof. unfold create_sample_data. keeps_all. Qed.

#[local] Hint Resolve keeps_get_dynamic_config keeps_create_sample_data
  : keeps.

Lemma keeps_heal_project : keeps (heal_project env).
Proof. unfold heal_project. keeps_all. Qed.

Lemma try_inv {A} (body : M State A) classes (h : exn -> M State A) s r s' :
  try_except body classes h s = (Ok r, s') ->
  body s = (Ok r, s') \/
  exists e s1, body s = (Raise e, s1) /\ caught e classes = true /\
               h e s1 = (Ok r, s').
Proof.
  unfold try_except. destruct (body s) as [[a|e] s1]; [now left|].
  destruct (caught e classes) eqn:Hcaught; [|discriminate].
  right. eauto.
Qed.

Lemma path_exists_eq p s : path_exists p s = (Ok (exists_in s p), s).
Proof. reflexivity. Qed.

Lemma self_base_path_eq s : self_base_path s = (Ok (base_path s), s).
Proof. reflexivity. Qed.

(** Every required directory is among those its [mkdir] creates. *)
Lemma required_dir_is_created base d :
  In d required_dirs ->
  In (path_join base d) (below base (split_on "/"%char d)).
Proof.
  simpl. intros [<-|[<-|[<-|[<-|[<-|[]]]]]]; simpl;
    rewrite ?path_join_join; auto.
Qed.

(** One turn of the first loop of [heal_project]. *)
Lemma dir_turn_post d actions s a s1 :
  In d required_dirs ->
  (base <- self_base_path ;;
   present <- path_exists (path_join base d) ;;
   if negb present
   then mkdir_parents env base d ;;;
        ret (append actions ("Created directory: " ++ d))
   else ret actions)%py s = (Ok a, s1) ->
  grows s s1 /\
  exists_in s1 (path_join (base_path s) d) = true /\
  (exists_in s (path_join (base_path s) d) = true -> a = actions /\ s1 = s).
Proof.
  intros Hd Hturn.
  assert (Hgrows : grows s s1).
  { match type of Hturn with ?c s = _ =>
      assert (Hk : keeps c) by keeps_all; specialize (Hk s);
      now rewrite Hturn in Hk end. }
  split; [exact Hgrows|].
  rewrite (bind_ok _ _ _ _ _ (self_base_path_eq s)) in Hturn.
  rewrite (bind_ok _ _ _ _ _ (path_exists_eq _ s)) in Hturn.
  destruct (exists_in s (path_join (base_path s) d)) eqn:Hpresent;
    cbn [negb] in Hturn.
  - apply ret_inv in Hturn as [-> ->]. now split.
  - split; [|discriminate]. unbind Hturn.
    apply ret_inv in Hturn as [_ ->].
    unfold mkdir_parents in Hc. unbind Hc. unfold modify in Hc.
    injection Hc as _ <-. unfold exists_in. simpl.
    apply orb_true_iff. left. apply bool_decide_eq_true.
    apply elem_of_union_l, elem_of_list_to_set, list_elem_of_In.
    now apply required_dir_is_created.
Qed.

(** The first loop of [heal_project], over a part of the required
    directories. *)
Lemma dirs_loop_post dirs :
  (forall d, In d dirs -> In d required_dirs) ->
  forall actions s a s1,
    for_each dirs actions
      (fun dir_path actions =>
         base <- self_base_path ;;
         present <- path_exists (path_join base dir_path) ;;
         if negb present
         then mkdir_parents env base dir_path ;;;
              ret (append actions ("Created directory: " ++ dir_path))
         else ret actions)%py s = (Ok a, s1) ->
    grows s s1 /\
    (forall d, In d dirs ->
               exists_in s1 (path_join (base_path s) d) = true) /\
    ((forall d, In d dirs ->
                exists_in s (path_join (base_path s) d) = true) ->
     a = actions /\ s1 = s).
Proof.
  induction dirs as [|d dirs IH]; intros Hsub actions s a s1 Hloop.
  - apply ret_inv in Hloop as [-> ->].
    split; [apply grows_refl|]. split; [intros d []|]. now split.
  - cbn [for_each] in Hloop. unbind Hloop.
    apply dir_turn_post in Hc as (Hg1 & Hd1 & Hsame1); [|apply Hsub; now left].
    apply IH in Hloop as (Hg2 & Hd2 & Hsame2);
      [|intros d' Hd'; apply Hsub; now right].
    pose proof Hg1 as (Hbase & _).
    split; [eapply grows_trans; eassumption|]. split.
    + intros d' [<-|Hd'].
      * eapply exists_in_grows; eassumption.
      * rewrite <- Hbase. now apply Hd2.
    + intros Hall. destruct Hsame1 as [-> ->]; [apply Hall; now left|].
      apply Hsame2. intros d' Hd'. apply Hall. now right.
Qed.

(** X6: when [heal_project] returns, the layout is in place: every required
    directory and the sample data file exist.  Nothing that existed
    before was removed, and the list of actions ends with the verdict on
    the configuration. *)
Theorem heal_project_heals s actions s' :
  heal_project env s = (Ok actions, s') ->
  healed s' /\ grows s s' /\
  exists earlier verdict,
    actions = (earlier ++ [verdict])%list /\
    (verdict = "Configuration validated successfully" \/
     startswith "Configuration validation failed: " verdict = true).
Proof.
  intros Hrun.
  assert (Hgrows : grows s s').
  { pose proof (keeps_heal_project s) as Hk. now rewrite Hrun in Hk. }
  unfold heal_project in Hrun. unbind Hrun.
  apply dirs_loop_post in Hc as (Hg0 & Hdirs & _); [|auto].
  assert (Hlater : grows s0 s').
  { match type of Hrun with ?c s0 = _ =>
      assert (Hk : keeps c) by keeps_all; specialize (Hk s0);
      now rewrite Hrun in Hk end. }
  unbind Hrun. unbind Hrun. unbind Hrun. unbind Hrun. unbind Hrun.
  assert (Hverdict : exists earlier verdict,
    actions = (earlier ++ [verdict])%list /\
    (verdict = "Configuration validated successfully" \/
     startswith "Configuration validation failed: " verdict = true)).
  { apply try_inv in Hrun as [Hok | (e & s6 & _ & _ & Hfail)].
    - unbind Hok. apply ret_inv in Hok as [-> _]. eauto.
    - apply ret_inv in Hfail as [-> _].
      exists a4, ("Configuration validation failed: " ++ exn_str e).
      split; [reflexivity|]. now right. }
  assert (Hlast : grows s5 s').
  { match type of Hrun with ?c s5 = _ =>
      assert (Hk : keeps c) by keeps_all; specialize (Hk s5);
      now rewrite Hrun in Hk end. }
  split; [|split; [exact Hgrows | exact Hverdict]].
  destruct Hgrows as (Hbase & _). pose proof Hg0 as (Hbase0 & _).
  split.
  - intros d Hd. rewrite Hbase. eapply exists_in_grows; [exact Hlater|].
    now apply Hdirs.
  - unfold self_base_path in Hc1. injection Hc1 as <- <-.
    rewrite path_exists_eq in Hc2. injection Hc2 as <- <-.
    assert (Hbase2 : base_path s2 = base_path s').
    { destruct Hlast as (Hb5 & _).
      assert (Hg25 : grows s2 s5).
      { match type of Hc3 with ?c s2 = _ =>
          assert (Hk : keeps c) by keeps_all; specialize (Hk s2);
          now rewrite Hc3 in Hk end. }
      destruct Hg25 as (Hb25 & _). congruence. }
    rewrite <- Hbase2. eapply exists_in_grows; [exact Hlast|].
    destruct (exists_in s2 (data_csv (base_path s2))) eqn:Hpresent;
      cbn [negb] in Hc3.
    + apply ret_inv in Hc3 as [_ ->]. exact Hpresent.
    + unbind Hc3. apply ret_inv in Hc3 as [_ ->].
      match goal with
      | H : create_sample_data env _ = (Ok ?u, _) |- _ =>
          destruct u;
          apply AgentProps.create_sample_data_header in H
            as (content & Hfile & _)
      end.
      unfold exists_in. rewrite Hfile. apply orb_true_iff. right.
      apply bool_decide_eq_true. eauto.
Qed.

(** X7: healing a project whose layout is in place creates nothing: no action
    of the list reports a creation. *)
Theorem heal_project_creates_nothing_twice s actions s' :
  healed s ->
  heal_project env s = (Ok actions, s') ->
  Forall (fun action => reports_creation action = false) actions.
Proof.
  intros [Hdirs Hcsv] Hrun. unfold heal_project in Hrun. unbind Hrun.
  apply dirs_loop_post in Hc as (_ & _ & Hsame); [|auto].
  destruct (Hsame Hdirs) as [-> ->]. clear Hsame.
  unbind Hrun. unbind Hrun.
  assert (Hg : grows s s1).
  { assert (Hg0 : grows s s0).
    { match type of Hc with ?c s = _ =>
        assert (Hk : keeps c) by keeps_all; specialize (Hk s);
        now rewrite Hc in Hk end. }
    assert (Hg1 : grows s0 s1).
    { match type of Hc0 with ?c s0 = _ =>
        assert (Hk : keeps c) by keeps_all; specialize (Hk s0);
        now rewrite Hc0 in Hk end. }
    eapply grows_trans; eassumption. }
  assert (Hpip : Forall (fun action => reports_creation action = false) a0).
  { destruct (negb _) in Hc0.
    - apply try_inv in Hc0 as [Hok | (e & s2 & _ & _ & Hfail)].
      + unbind Hok. apply ret_inv in Hok as [-> _]. now repeat constructor.
      + apply ret_inv in Hfail as [-> _]. now repeat constructor.
    - apply ret_inv in Hc0 as [-> _]. constructor. }
  unbind Hrun. unbind Hrun. unbind Hrun.
  unfold self_base_path in Hc1. injection Hc1 as <- <-.
  rewrite path_exists_eq in Hc2. injection Hc2 as <- <-.
  assert (Hpresent : exists_in s1 (data_csv (base_path s1)) = true).
  { pose proof Hg as (Hbase & _). rewrite Hbase.
    eapply exists_in_grows; [exact Hg | exact Hcsv]. }
  rewrite Hpresent in Hc3. cbn [negb] in Hc3.
  apply ret_inv in Hc3 as [-> _].
  apply try_inv in Hrun as [Hok | (e & s5 & _ & _ & Hfail)].
  - unbind Hok. apply ret_inv in Hok as [-> _].
    apply Forall_app. split; [exact Hpip | now repeat constructor].
  - apply ret_inv in Hfail as [-> _].
    apply Forall_app. split; [exact Hpip | now repeat constructor].
Qed.

End WithEnv.
End HealProps.

(** ** The agent tasks and the routes around them *)

Module RouteProps.
Import Py Serving IntelligentConfig ProbeSpec HostSpec PyFacts ProbeProps.
Import SynthesisProps.

Section WithEnv.
Variable env : Env.

(** What [orchestrate_agent_task] returns, and the state it leaves. *)
Lemma orchestrate_agent_task_shape task_name params s :
  exists d s',
    orchestrate_agent_task env task_name params s = (Ok d, s') /\
    ((exists v, d = success true "result" v) \/
     (exists msg, d = success false "error" (VStr msg))) /\
    (~ In task_name known_tasks ->
     d = success false "error" (VStr ("Unknown task: " ++ task_name))).
Proof.
  assert (Hknown : forall name,
            In name known_tasks -> String.eqb task_name name = true ->
            ~ ~ In task_name known_tasks).
  { intros name Hin ->%String.eqb_eq Hnot. now apply Hnot. }
  unfold orchestrate_agent_task. rewrite try_except_all.
  destruct (String.eqb task_name "heal") eqn:E1.
  { assert (Hin : ~ ~ In task_name known_tasks)
      by (eapply Hknown; [|exact E1]; simpl; auto).
    unfold bind. destruct (heal_project env s) as [[actions|e] s1];
      eexists _, _; (split; [reflexivity|]);
      (split; [eauto | intros Hnot; now destruct Hin]). }
  destruct (String.eqb task_name "detect") eqn:E2.
  { assert (Hin : ~ ~ In task_name known_tasks)
      by (eapply Hknown; [|exact E2]; simpl; auto).
    unfold bind. destruct (detect_environment env s) as [[env_info|e] s1];
      eexists _, _; (split; [reflexivity|]);
      (split; [eauto | intros Hnot; now destruct Hin]). }
  destruct (String.eqb task_name "adapt") eqn:E3.
  { assert (Hin : ~ ~ In task_name known_tasks)
      by (eapply Hknown; [|exact E3]; simpl; auto).
    unfold bind. destruct (get_dynamic_config env s) as [[config|e] s1];
      eexists _, _; (split; [reflexivity|]);
      (split; [eauto | intros Hnot; now destruct Hin]). }
  destruct (String.eqb task_name "install_deps") eqn:E4.
  { assert (Hin : ~ ~ In task_name known_tasks)
      by (eapply Hknown; [|exact E4]; simpl; auto).
    unfold try_except.
    destruct (truthy _).
    - unfold bind.
      destruct (pip_install env _ s) as [[deps|e] s1].
      + eexists _, _; (split; [reflexivity|]).
        split; [eauto | intros Hnot; now destruct Hin].
      + destruct (caught e [CalledProcessError]);
          eexists _, _; (split; [reflexivity|]);
          (split; [eauto | intros Hnot; now destruct Hin]).
    - eexists _, _; (split; [reflexivity|]).
      split; [eauto | intros Hnot; now destruct Hin]. }
  eexists _, _. split; [reflexivity|]. split; [eauto | reflexivity].
Qed.

(** X8: the agent route answers 200 with the result of a task that
    succeeded and 400 with the error of one that did not, an unknown task
    among them; no exception of a task reaches the global handler. *)
Theorem agent_route_answers_200_or_400 task_name params s :
  let response :=
    fst (MainApp.served (MainApp.execute_agent_task env task_name params) s) in
  ((status_code response = 200%Z /\
    exists v, body response = VDict (success true "result" v)) \/
   (status_code response = 400%Z /\
    exists msg,
      body response
        = VDict [("detail", VDict (success false "error" (VStr msg)))])) /\
  (~ In task_name known_tasks ->
   response = MainApp.http_exception_with 400
                (VDict (success false "error"
                          (VStr ("Unknown task: " ++ task_name))))).
Proof.
  destruct (orchestrate_agent_task_shape task_name params s)
    as (d & s' & Hrun & Hshape & Hunknown).
  unfold MainApp.served, MainApp.execute_agent_task.
  rewrite (bind_ok _ _ _ _ _ Hrun). split.
  - destruct Hshape as [(v & ->) | (msg & ->)]; simpl; [left | right]; eauto.
  - intros Hnot. now rewrite (Hunknown Hnot).
Qed.

(** X9: the outcomes of the [install_deps] task: with no parameters, no
    [dependencies] entry or an empty one, nothing is installed and the
    host is not asked; with a list of names, pip is run once on exactly
    those names and the task succeeds if and only if pip exits with 0;
    with a value that is not a list, the task fails without running
    anything. *)
Theorem install_deps_outcomes params s :
  let requested :=
    default (VList []) (dict_get "dependencies" (default [] params)) in
  (truthy requested = false ->
   orchestrate_agent_task env "install_deps" params s
     = (Ok (success true "result" (VStr "No dependencies to install")), s)) /\
  (forall deps,
     requested = VList (map VStr deps) -> deps <> [] ->
     exists d,
       orchestrate_agent_task env "install_deps" params s
         = (Ok d, set_clock (S (clock s)) s) /\
       match spawn env (clock s)
               ([executable env; "-m"; "pip"; "install"] ++ deps)%list
               None with
       | Ok cp =>
           if (returncode cp =? 0)%Z
           then d = success true "result"
                      (VStr ("Installed: " ++ join ", " deps))
           else exists msg, d = success false "error" (VStr msg)
       | Raise e => exists msg, d = success false "error" (VStr msg)
       end) /\
  (truthy requested = true -> (forall l, requested <> VList l) ->
   exists msg,
     orchestrate_agent_task env "install_deps" params s
       = (Ok (success false "error" (VStr msg)), s)).
Proof.
  intros requested. unfold orchestrate_agent_task.
  rewrite !try_except_all. cbn [String.eqb Ascii.eqb Bool.eqb].
  fold requested. split; [|split].
  - intros Hfalse. unfold try_except. now rewrite Hfalse.
  - intros deps Hreq Hne.
    assert (Htruthy : truthy requested = true).
    { rewrite Hreq. simpl. destruct deps; [now destruct Hne | reflexivity]. }
    assert (Hstrings : as_strings (map VStr deps) = Some deps).
    { clear. induction deps as [|x deps IH]; [reflexivity|].
      simpl. now rewrite IH. }
    unfold try_except. rewrite Htruthy. unfold bind at 1.
    unfold pip_install. rewrite Hreq, Hstrings. unfold bind at 1.
    rewrite subprocess_run_eq.
    destruct (spawn env (clock s) _ None) as [cp|e]; cbn [andb].
    + destruct (returncode cp =? 0)%Z; cbn [negb].
      * eexists. split; reflexivity.
      * replace (caught _ [CalledProcessError]) with true by reflexivity.
        eexists. split; [reflexivity|]. eauto.
    + destruct (caught e [CalledProcessError]);
        eexists; (split; [reflexivity|]); eauto.
  - intros Htruthy Hnot. unfold try_except. rewrite Htruthy.
    unfold bind at 1. unfold pip_install.
    destruct requested as [| | | | |l|]; try (eexists; reflexivity).
    now destruct (Hnot l).
Qed.

(** X10: the module-level code of [main.py] never gets to register its
    versioned routes: the [api] section [get_dynamic_config] builds has no
    [version] entry, so when healing and the configuration return, the
    decorator of the first versioned route raises [KeyError]. *)
Theorem main_module_stops_at_versioned_routes s :
  is_ok (fst (MainApp.module_level env s)) = false /\
  forall actions s1 config s2,
    heal_project env s = (Ok actions, s1) ->
    get_dynamic_config env s1 = (Ok config, s2) ->
    dict_get2 "api" "version" config = None /\
    MainApp.module_level env s = (Raise (Exn KeyError "'version'"), s2).
Proof.
  assert (Hkey : forall actions s1 config s2,
    heal_project env s = (Ok actions, s1) ->
    get_dynamic_config env s1 = (Ok config, s2) ->
    dict_get2 "api" "version" config = None /\
    MainApp.module_level env s = (Raise (Exn KeyError "'version'"), s2)).
  { intros actions s1 config s2 Hheal Hconfig.
    unfold MainApp.module_level.
    rewrite (bind_ok _ _ _ _ _ Hheal), (bind_ok _ _ _ _ _ Hconfig).
    apply get_dynamic_config_shape in Hconfig
      as (env_info & port & reload & paths & data & models & llm & monitoring
          & s0 & s3 & _ & _ & ->).
    split; reflexivity. }
  split; [|exact Hkey].
  destruct (heal_project env s) as [[actions|e] s1] eqn:Hheal.
  - destruct (get_dynamic_config env s1) as [[config|e] s2] eqn:Hconfig.
    + now rewrite (proj2 (Hkey _ _ _ _ eq_refl Hconfig)).
    + unfold MainApp.module_level, bind. now rewrite Hheal, Hconfig.
  - unfold MainApp.module_level, bind. now rewrite Hheal.
Qed.

End WithEnv.

(** *** [main.py]: startup, readiness and predict *)

Section MainPy.
Context {A : Type} `{Estimator A}.
Variable env : Main.Env A.

(** X11: the loading block of [main.py] never fails, whatever the disk holds;
    afterwards the model counts as loaded only if both artifact files
    existed and both were deserialized, the readiness route answers 200
    exactly when it counts as loaded, and [predict] refuses with 503
    exactly when the readiness route does. *)
Theorem startup_decides_readiness :
  let model_path := Main.models_dir env ++ "/" ++ "model.joblib" in
  let preprocessor_path :=
    Main.models_dir env ++ "/" ++ "preprocessor.joblib" in
  exists g,
    Main.startup env = (Ok tt, g) /\
    (Main.MODEL_LOADED g = true ->
     Main.exists_on_disk env model_path = true /\
     Main.exists_on_disk env preprocessor_path = true /\
     (exists m, Main.joblib_load env model_path = Ok m /\
                Main.MODEL g = Some m) /\
     (exists p, Main.joblib_load env preprocessor_path = Ok p /\
                Main.PREPROCESSOR g = Some p)) /\
    (status_code (MainApp.readiness_check g) = 200%Z <->
     Main.MODEL_LOADED g = true) /\
    (forall data,
       status_code (Main.predict_route g data) = 503%Z <->
       status_code (MainApp.readiness_check g) = 503%Z).
Proof.
  intros model_path preprocessor_path.
  assert (Hroutes : forall g : Main.Globals A,
    (status_code (MainApp.readiness_check g) = 200%Z <->
     Main.MODEL_LOADED g = true) /\
    (forall data,
       status_code (Main.predict_route g data) = 503%Z <->
       status_code (MainApp.readiness_check g) = 503%Z)).
  { intros g. unfold MainApp.readiness_check, Main.predict_route.
    destruct (Main.MODEL_LOADED g); simpl; split; try easy.
    intros data.
    destruct (match Main.PREPROCESSOR g with Some _ => _ | None => _ end);
      simpl; easy. }
  unfold Main.startup. rewrite try_except_all.
  unfold bind, lift, modify, ret, get.
  fold model_path preprocessor_path.
  destruct (Main.exists_on_disk env model_path);
    destruct (Main.exists_on_disk env preprocessor_path);
    destruct (Main.joblib_load env model_path);
    destruct (Main.joblib_load env preprocessor_path);
    simpl; eexists; (split; [reflexivity|]);
    (split; [simpl; try discriminate; eauto 10 | apply Hroutes]).
Qed.

End MainPy.

(** *** [main_intelligent.py]: health and readiness *)

Section MainIntelligentPy.
Context {A : Type} `{Estimator A}.
Variable env : MainIntelligent.Env A.
Variable type_name : A -> string.
Variable transform_named_frame : A -> result matrix.
Variable PYDANTIC_AVAILABLE CONFIG_AVAILABLE : bool.

(** X12: with the synthetic fallback in place the readiness route never
    reports ready: its dummy request has two columns, and the fallback
    preprocessor, fitted on three, rejects it. *)
Theorem fallback_is_never_ready (l : MainIntelligent.Loader A) rf sc :
  MainIntelligent.model l
    = Some (MainIntelligent.IntelligentFallbackModel rf) ->
  MainIntelligent.preprocessor l
    = Some (MainIntelligent.IntelligentPreprocessor sc) ->
  scaler_features sc <> 2%nat ->
  status_code (IntelligentApp.readiness_check env transform_named_frame l)
    = 503%Z /\
  exists msg,
    IntelligentApp.readiness_check env transform_named_frame l
      = IntelligentApp.not_ready ("Dummy prediction failed: " ++ msg).
Proof.
  intros Hm Hp Hfeatures. unfold IntelligentApp.readiness_check.
  rewrite Hm, Hp. cbn [IntelligentApp.transform_dummy
    MainIntelligent.call_transform]. unfold scaler_transform.
  cbn [IntelligentApp.dummy_data check_array forallb length andb].
  destruct (Nat.eqb_spec 2 (scaler_features sc)) as [Heq|_];
    [now destruct Hfeatures|].
  split; [reflexivity | eauto].
Qed.

(** X13: a loader that was constructed makes the health route report [ok],
    with the model available and no message: whichever strategy loaded
    the model, the [degraded] branch of the route is dead once the
    application is up. *)
Theorem constructed_loader_is_healthy (l : MainIntelligent.Loader A) :
  MainIntelligent.init env = (Ok tt, l) ->
  let health :=
    IntelligentApp.health_check env type_name PYDANTIC_AVAILABLE
      CONFIG_AVAILABLE l in
  dict_get "status" health = Some (VStr "ok") /\
  dict_get "message" health = None /\
  dict_get2 "model_status" "available" health = Some (VBool true).
Proof.
  intros Hinit. apply LoaderProps.load_models_ok in Hinit
    as (_ & _ & Ha).
  unfold IntelligentApp.health_check, dict_get2. rewrite Ha. simpl.
  repeat split.
Qed.

End MainIntelligentPy.
End RouteProps.

(** ** The properties above on concrete hosts *)

Module MoreExamples.
Import Py Serving IntelligentConfig ProbeSpec HostSpec Samples.
Import SynthesisProps HealProps RouteProps.

Lemma module_check_is_remembered_witness :
  let s' := snd (check_module_availability quiet_host "pandas" s0) in
  check_module_availability quiet_host "pandas" s0 = (Ok false, s') /\
  available_modules s' !! "pandas" = Some false /\
  check_module_availability pandas_host "pandas" s' = (Ok false, s').
Proof.
  intros s'.
  assert (Hcheck : check_module_availability quiet_host "pandas" s0
                   = (Ok false, s')) by reflexivity.
  split; [exact Hcheck|].
  exact (module_check_is_remembered quiet_host pandas_host "pandas" s0
           false s' Hcheck).
Defined.

Lemma detect_environment_entries_witness :
  exists d s',
    detect_environment busy_8000 s0 = (Ok d, s') /\
    map fst d = environment_keys /\
    exists p rest,
      dict_get "available_ports" d = Some (VList (map VInt (p :: rest))) /\
      Forall (fun q => (8000 <= q <= 8009)%Z) (p :: rest).
Proof.
  destruct (detect_environment busy_8000 s0) as [[d|e] s'] eqn:Hrun;
    [|vm_compute in Hrun; discriminate Hrun].
  exists d, s'. split; [reflexivity|].
  destruct (detect_environment_entries busy_8000 s0 d s' Hrun)
    as (Hkeys & _ & Hports).
  split; [exact Hkeys | exact Hports].
Defined.

Lemma api_port_is_first_available_port_witness :
  exists config s',
    get_dynamic_config busy_8000 s0 = (Ok config, s') /\
    dict_get2 "api" "port" config = Some (VInt 8001) /\
    exists p rest,
      dict_get2 "api" "port" config = Some (VInt p) /\
      dict_get2 "environment" "available_ports" config
        = Some (VList (map VInt (p :: rest))) /\
      Forall (fun q => (8000 <= q <= 8009)%Z) (p :: rest) /\
      lowest_bindable busy_8000 (scan_moment busy_8000 s0) p.
Proof.
  destruct (get_dynamic_config busy_8000 s0) as [[config|e] s'] eqn:Hrun;
    [|vm_compute in Hrun; discriminate Hrun].
  exists config, s'. split; [reflexivity|]. split.
  - vm_compute in Hrun. injection Hrun as <- _. reflexivity.
  - exact (proj2 (api_port_is_first_available_port busy_8000 s0 config s'
                    Hrun)).
Defined.

Lemma llm_section_is_consistent_witness :
  (exists config s',
     get_llm_config ollama_host s0 = (Ok config, s') /\
     dict_get "provider" config = Some (VStr "ollama") /\
     dict_get "fallback_message" config = None) /\
  (exists config s',
     get_llm_config quiet_host s0 = (Ok config, s') /\
     dict_get "provider" config = Some (VStr "none") /\
     dict_get "model" config = Some (VStr "phi3:mini")).
Proof.
  split.
  - destruct (get_llm_config ollama_host s0) as [[config|e] s'] eqn:Hrun;
      [|vm_compute in Hrun; discriminate Hrun].
    exists config, s'. split; [reflexivity|].
    destruct (llm_section_is_consistent ollama_host s0 config s' Hrun)
      as (enabled & model & Henabled & Hprovider & _ & _ & Hmessage).
    assert (Hon : enabled = true).
    { vm_compute in Hrun. injection Hrun as <- _.
      now injection Henabled as <-. }
    subst enabled. split; [exact Hprovider | exact Hmessage].
  - destruct (get_llm_config quiet_host s0) as [[config|e] s'] eqn:Hrun;
      [|vm_compute in Hrun; discriminate Hrun].
    exists config, s'. split; [reflexivity|].
    destruct (llm_section_is_consistent quiet_host s0 config s' Hrun)
      as (enabled & model & Henabled & Hprovider & Hmodel & Hoff & _).
    assert (Hoff' : enabled = false).
    { vm_compute in Hrun. injection Hrun as <- _.
      now injection Henabled as <-. }
    subst enabled. rewrite (Hoff eq_refl) in Hmodel.
    split; [exact Hprovider | exact Hmodel].
Defined.

Lemma get_dynamic_config_returns_witness :
  benign quiet_host /\
  exists config s',
    get_dynamic_config quiet_host s0 = (Ok config, s') /\
    map fst config = config_sections.
Proof.
  assert (Hbenign : benign quiet_host)
    by (constructor; intros; first [exact I | reflexivity]).
  split; [exact Hbenign|].
  exact (get_dynamic_config_returns quiet_host Hbenign s0).
Defined.

Lemma heal_project_heals_witness :
  exists actions s',
    heal_project pip_host s0 = (Ok actions, s') /\
    healed s' /\ grows s0 s'.
Proof.
  destruct (heal_project pip_host s0) as [[actions|e] s'] eqn:Hrun;
    [|vm_compute in Hrun; discriminate Hrun].
  exists actions, s'. split; [reflexivity|].
  destruct (heal_project_heals pip_host s0 actions s' Hrun)
    as (Hhealed & Hgrows & _).
  split; [exact Hhealed | exact Hgrows].
Defined.

Lemma heal_project_creates_nothing_twice_witness :
  healed healed_project /\
  exists actions s',
    heal_project pip_host healed_project = (Ok actions, s') /\
    Forall (fun action => reports_creation action = false) actions.
Proof.
  assert (Hhealed : healed healed_project).
  { split; [|vm_compute; reflexivity].
    intros d Hd. simpl in Hd.
    repeat (destruct Hd as [<-|Hd]; [vm_compute; reflexivity|]).
    destruct Hd. }
  split; [exact Hhealed|].
  destruct (heal_project pip_host healed_project) as [[actions|e] s'] eqn:Hrun;
    [|vm_compute in Hrun; discriminate Hrun].
  exists actions, s'. split; [reflexivity|].
  exact (heal_project_creates_nothing_twice pip_host healed_project actions s'
           Hhealed Hrun).
Defined.

Lemma agent_route_answers_200_or_400_witness :
  fst (MainApp.served
         (MainApp.execute_agent_task quiet_host "deploy" None) s0)
    = MainApp.http_exception_with 400
        (VDict [("success", VBool false);
                ("error", VStr "Unknown task: deploy")]).
Proof.
  apply (proj2 (agent_route_answers_200_or_400 quiet_host "deploy" None s0)).
  simpl. intros [H|[H|[H|[H|[]]]]]; discriminate H.
Defined.

Lemma install_deps_outcomes_witness :
  fst (orchestrate_agent_task pip_host "install_deps"
         (Some [("dependencies", VList [VStr "requests"; VStr "httpx"])]) s0)
    = Ok [("success", VBool true);
          ("result", VStr "Installed: requests, httpx")].
Proof.
  pose proof (install_deps_outcomes pip_host
                (Some [("dependencies", VList [VStr "requests"; VStr "httpx"])])
                s0) as Hall.
  cbv zeta in Hall. destruct Hall as (_ & Hlist & _).
  destruct (Hlist ["requests"; "httpx"] eq_refl) as (d & Hrun & Hd);
    [discriminate|].
  rewrite Hrun. simpl in Hd. now rewrite Hd.
Defined.

Lemma main_module_stops_at_versioned_routes_witness :
  exists s',
    MainApp.module_level pip_host s0 = (Raise (Exn KeyError "'version'"), s').
Proof.
  destruct (heal_project pip_host s0) as [[actions|e] s1] eqn:Hheal;
    [|vm_compute in Hheal; discriminate Hheal].
  destruct (get_dynamic_config pip_host s1) as [[config|e] s2] eqn:Hconfig.
  - exists s2.
    exact (proj2 (proj2 (main_module_stops_at_versioned_routes pip_host s0)
                    actions s1 config s2 Hheal Hconfig)).
  - vm_compute in Hheal. injection Hheal as _ <-.
    vm_compute in Hconfig. discriminate Hconfig.
Defined.

Lemma startup_decides_readiness_witness :
  Main.startup artifacts_host = (Ok tt, both_loaded) /\
  status_code (MainApp.readiness_check both_loaded) = 200%Z.
Proof.
  destruct (startup_decides_readiness artifacts_host)
    as (g & Hrun & _ & Hready & _).
  assert (Hg : g = both_loaded)
    by (cbv in Hrun; injection Hrun as <-; reflexivity).
  subst g. split; [exact Hrun|]. now apply Hready.
Defined.

Lemma fallback_is_never_ready_witness :
  IntelligentApp.readiness_check sklearn_host (fun _ => Ok []) fallback_loader
    = IntelligentApp.not_ready
        ("Dummy prediction failed: "
         ++ "X has a different number of features than at fit").
Proof.
  destruct (fallback_is_never_ready sklearn_host (fun _ => Ok [])
              fallback_loader sample_forest sample_scaler
              eq_refl eq_refl ltac:(discriminate))
    as (_ & msg & Hmsg).
  rewrite Hmsg. cbv in Hmsg. now injection Hmsg as <-.
Defined.

Lemma constructed_loader_is_healthy_witness :
  MainIntelligent.init sklearn_host = (Ok tt, fallback_loader) /\
  dict_get "status"
    (IntelligentApp.health_check sklearn_host (fun _ => "Junk") true false
       fallback_loader)
    = Some (VStr "ok").
Proof.
  split; [reflexivity|].
  exact (proj1 (constructed_loader_is_healthy sklearn_host (fun _ => "Junk")
                  true false fallback_loader eq_refl)).
Defined.

End MoreExamples.

(** ** The data pipeline *)

Module PipelineProps.
Import Py IntelligentConfig HostSpec PyFacts DataPipeline.

Section WithHost.
Variable env : Env.
Variables Frame Processed Split : Type.
Variable columns : Frame -> list string.
Variable has_nan : Frame -> bool.
Variable read_path : State -> string -> result Frame.
Variable fit_transform : Frame -> string -> result Processed.
Variable finish : PyVal -> Frame -> Processed -> M State Split.

#[local] Abbreviation process_data :=
  (process_data env Frame Processed Split columns has_nan read_path
     fit_transform finish).

(** A frame that passes [validate_data] has the column [target]. *)
Lemma validated_frame_has_target df :
  validate_data Frame columns has_nan df = Ok tt ->
  "target" ∈ columns df.
Proof.
  unfold validate_data.
  destruct (forallb _ DataProcessor.expected_columns) eqn:Hall;
    [|discriminate].
  intros _. rewrite forallb_forall in Hall.
  apply (proj1 (bool_decide_eq_true _)). apply Hall. simpl. auto.
Qed.

(** What is left of [process_data] once the path to read is known. *)
Lemma process_data_tail (path : option string) s :
  let tail :=
    (df <- read_csv Frame read_path path ;;
     lift (validate_data Frame columns has_nan df) ;;;
     target_col <- lift (target_column Frame columns df) ;;
     X_processed <- lift (fit_transform df target_col) ;;
     models_dir <- lift (MainApp.subscript2 "paths" "models_dir" config) ;;
     finish models_dir df X_processed)%py in
  is_ok (fst (tail s)) = false /\
  (path = None ->
   tail s = (Raise (Exn ValueError
               "Invalid file path or buffer object type: <class 'NoneType'>"),
             s)) /\
  (forall p df X,
     path = Some p -> read_path s p = Ok df ->
     validate_data Frame columns has_nan df = Ok tt ->
     fit_transform df "target" = Ok X ->
     tail s = (Raise (Exn KeyError "'models_dir'"), s)).
Proof.
  intros tail. subst tail. split; [|split].
  - destruct path as [p|]; [|reflexivity].
    unfold read_csv. cbv [bind get lift].
    destruct (read_path s p) as [df|e]; [|reflexivity].
    destruct (validate_data _ _ _ df); [|reflexivity].
    destruct (target_column _ _ df) as [col|e]; [|reflexivity].
    now destruct (fit_transform df col).
  - now intros ->.
  - intros p df X -> Hread Hvalid Hfit.
    unfold read_csv. cbv [bind get lift]. rewrite Hread, Hvalid.
    unfold target_column.
    rewrite (bool_decide_eq_true_2 _ (validated_frame_has_target _ Hvalid)).
    now rewrite Hfit.
Qed.

(** X14: [process_data] never returns.  Where the file is missing and the
    sample data gets written, it goes on to read the [None] that
    [create_sample_data] returned and raises [ValueError]; where the file
    is there, is read, passes the validation and is fitted, the lookup of
    [models_dir], a key [src/config.py] does not have, raises [KeyError]
    before anything is written. *)
Theorem process_data_never_returns data_path s :
  is_ok (fst (process_data data_path s)) = false /\
  (forall s',
     exists_in s data_path = false ->
     create_sample_data env s = (Ok tt, s') ->
     process_data data_path s
       = (Raise (Exn ValueError
            "Invalid file path or buffer object type: <class 'NoneType'>"),
          s')) /\
  (forall df X,
     exists_in s data_path = true ->
     read_path s data_path = Ok df ->
     validate_data Frame columns has_nan df = Ok tt ->
     fit_transform df "target" = Ok X ->
     process_data data_path s = (Raise (Exn KeyError "'models_dir'"), s)).
Proof.
  unfold DataPipeline.process_data.
  rewrite (bind_ok _ _ _ _ _ (HealProps.path_exists_eq data_path s)).
  destruct (exists_in s data_path) eqn:Hpresent; cbn [negb].
  - erewrite bind_ok by reflexivity.
    destruct (process_data_tail (Some data_path) s) as (Hnever & _ & Hkey).
    split; [exact Hnever|]. split; [discriminate|].
    intros df X _ Hread Hvalid Hfit. now apply (Hkey data_path df X).
  - split; [|split; [|discriminate]].
    + unfold bind at 1. unfold try_except, bind at 1.
      destruct (create_sample_data env s) as [[[]|e] s1]; cbn [ret].
      * apply (process_data_tail None s1).
      * now destruct (caught e [ImportError]).
    + intros s' _ Hsample.
      unfold bind at 1. unfold try_except, bind at 1.
      rewrite Hsample. cbn [ret].
      now apply (process_data_tail None s').
Qed.

End WithHost.

Import Samples.

(** On a host without pandas, a frame stands for its column names. *)
Lemma process_data_never_returns_witness :
  let process :=
    process_data quiet_host (list string) unit unit
      (fun df => df) (fun _ => false)
      (fun _ _ => Ok DataProcessor.expected_columns)
      (fun _ _ => Ok tt) (fun _ _ _ => ret tt) in
  fst (process "data/raw/data.csv" s0)
    = Raise (Exn ValueError
        "Invalid file path or buffer object type: <class 'NoneType'>") /\
  fst (process "/app/data/raw/data.csv" healed_project)
    = Raise (Exn KeyError "'models_dir'").
Proof.
  intros process. split.
  - destruct (create_sample_data quiet_host s0) as [[[]|e] s'] eqn:Hsample;
      [|vm_compute in Hsample; discriminate Hsample].
    unfold process.
    now rewrite (proj1 (proj2 (process_data_never_returns quiet_host
                   (list string) unit unit (fun df => df) (fun _ => false)
                   (fun _ _ => Ok DataProcessor.expected_columns)
                   (fun _ _ => Ok tt) (fun _ _ _ => ret tt)
                   "data/raw/data.csv" s0)) s' eq_refl Hsample).
  - unfold process.
    now rewrite (proj2 (proj2 (process_data_never_returns quiet_host
                   (list string) unit unit (fun df => df) (fun _ => false)
                   (fun _ _ => Ok DataProcessor.expected_columns)
                   (fun _ _ => Ok tt) (fun _ _ _ => ret tt)
                   "/app/data/raw/data.csv" healed_project))
                 DataProcessor.expected_columns tt
                 eq_refl eq_refl eq_refl eq_refl).
Defined.

End PipelineProps.
